(** * yearlyChunks.py: merging, date bound and diff filter of report tables

    A shallow embedding of [src/yearlyChunks.py].  The script works on
    pandas data frames held in Python variables; several of its functions
    assign into a frame they were handed ([df1['Stub'] = ...],
    [df['Edited'] = False], [result['DateObject'] = ...]), so frames live in
    a store and the functions are written in a state-and-exception monad
    over that store and the text printed so far.

    Embedded are [merge], [mergeErrorReports] and [filterByDiff], with the
    pandas and datetime operations they call, and after them the functions
    around these three: [printStatus], [mergeDefectReports],
    [createDefectReportFile], [loadBaseline], [loadDefects],
    [createTrainingData] and the call the script ends with.  ([testMerge]
    prints a frame; the text pandas makes of a frame is not embedded.)  Of
    pandas the embedding keeps what the script depends on: the order of
    columns and rows, the index labels, the filler of missing cells, which
    operations return a new frame and which write to the one given, and
    the exceptions of a missing column or an operand of the wrong kind.
    The storage types of columns are left out.  Where the library's
    behaviour on an input is not settled the embedding raises, and says so
    at the definition. *)

From Stdlib Require Import Ascii String.
From stdpp Require Import gmap strings list fin_maps pretty.

Open Scope string_scope.
Open Scope list_scope.
Open Scope Z_scope.

(** ** Data model *)

(** [GroupBy = Enum('GROUP_BY', [...])] (line 14). *)
Inductive GroupBy :=
| FILE_FUNCTION
| FILE_FUNCTION_STUB
| ALL_BUT_DATE
| DONT_DROP_DUPLICATES.

Global Instance GroupBy_eq_dec : EqDecision GroupBy.
Proof. solve_decision. Defined.

(** A calendar date, and a timestamp as [pd.to_datetime] yields it: the
    date and the time of day as written, and the offset from UTC in
    minutes when there is one. *)
Record Date := mkDate { year : Z; month : Z; day : Z }.

Record Timestamp := mkTimestamp {
  ts_date : Date;
  ts_seconds : Z;
  ts_utcoffset : option Z
}.

Global Instance Date_eq_dec : EqDecision Date.
Proof. solve_decision. Defined.
Global Instance Timestamp_eq_dec : EqDecision Timestamp.
Proof. solve_decision. Defined.

(** A cell of a frame.  [VNaN] is the missing value: the filler pandas
    writes where a row has no value for a column, and [NaT] in a column
    of timestamps. *)
Inductive value :=
| VInt (z : Z)
| VStr (s : string)
| VBool (b : bool)
| VTime (t : Timestamp)
| VNaN.

Global Instance value_eq_dec : EqDecision value.
Proof. solve_decision. Defined.

(** The calendar: [date.toordinal()] counts the days from 1 January of
    the year 1, which is day 1. *)
Definition is_leap (y : Z) : bool :=
  (y mod 4 =? 0) && (negb (y mod 100 =? 0) || (y mod 400 =? 0)).

Definition days_in_month (y m : Z) : Z :=
  if m =? 2 then (if is_leap y then 29 else 28)
  else if (m =? 4) || (m =? 6) || (m =? 9) || (m =? 11) then 30
  else 31.

Definition days_before_year (y : Z) : Z :=
  365 * (y - 1) + (y - 1) / 4 - (y - 1) / 100 + (y - 1) / 400.

Definition days_before_month (y m : Z) : Z :=
  foldr (λ k acc, days_in_month y k + acc) 0 (seqZ 1 (m - 1)).

Definition toordinal (d : Date) : Z :=
  days_before_year (year d) + days_before_month (year d) (month d) + day d.

(** What [drop_duplicates] compares a cell by.  The library groups the
    cells of a column by their hash and by Python's equality: [True] is
    the number 1 and [False] the number 0; two timestamps with an offset
    are equal when they are the same instant, two without when they show
    the same date and time; a missing cell equals a missing cell; cells
    of different kinds are different otherwise. *)
Inductive hashed :=
| HNum (z : Z)
| HStr (s : string)
| HInstant (seconds : Z)
| HLocal (d : Date) (seconds : Z)
| HMissing.

Global Instance hashed_eq_dec : EqDecision hashed.
Proof. solve_decision. Defined.

Definition hash_cell (v : value) : hashed :=
  match v with
  | VInt z => HNum z
  | VBool b => HNum (if b then 1 else 0)
  | VStr s => HStr s
  | VTime t =>
      match ts_utcoffset t with
      | Some off => HInstant (86400 * toordinal (ts_date t) + ts_seconds t - 60 * off)
      | None => HLocal (ts_date t) (ts_seconds t)
      end
  | VNaN => HMissing
  end.

(** A row maps column names to cells; a frame is its column labels in
    order and its rows in order, each with its index label. *)
Abbreviation Row := (gmap string value).

Record DataFrame := mkFrame {
  columns : list string;
  rows : list (Z * Row)
}.

Definition cell (c : string) (r : Row) : value := default VNaN (r !! c).

(** [len(df)] *)
Definition frame_len (d : DataFrame) : Z := Z.of_nat (length (rows d)).

(** A frame as a loader produces it: every row has a cell for exactly the
    frame's columns. *)
Definition wf_frame (d : DataFrame) : Prop :=
  Forall (λ ir : Z * Row, ∀ c, is_Some (ir.2 !! c) ↔ c ∈ columns d) (rows d).

(** ** Exceptions, the store and the monad *)

Inductive exn :=
| KeyError (k : string)
| TypeError
| ValueError
| AttributeError
| FileNotFoundError.

Inductive res (A : Type) :=
| Ok (a : A)
| Raise (e : exn).
Arguments Ok {A} a.
Arguments Raise {A} e.

Abbreviation loc := nat.

Record World := mkWorld {
  heap : list DataFrame;
  stdout : list string
}.

Definition M (A : Type) : Type := World → World * res A.

Definition ret {A} (a : A) : M A := λ w, (w, Ok a).
Definition raise {A} (e : exn) : M A := λ w, (w, Raise e).
Definition bind {A B} (m : M A) (k : A → M B) : M B :=
  λ w, match m w with
       | (w', Ok a) => k a w'
       | (w', Raise e) => (w', Raise e)
       end.
Definition lift {A} (r : res A) : M A := λ w, (w, r).

Notation "'let*' x ':=' m 'in' k" := (bind m (λ x, k))
  (at level 10, x name, m at level 100, k at level 200, only parsing).

(** Reading the frame a variable refers to. *)
Definition deref (l : loc) : M DataFrame :=
  λ w, match heap w !! l with
       | Some d => (w, Ok d)
       | None => (w, Raise TypeError)
       end.

(** In-place update of the frame a variable refers to. *)
Definition update (l : loc) (f : DataFrame → DataFrame) : M unit :=
  λ w, match heap w !! l with
       | Some d => (mkWorld (<[l := f d]> (heap w)) (stdout w), Ok tt)
       | None => (w, Raise TypeError)
       end.

(** A new frame object. *)
Definition new (d : DataFrame) : M loc :=
  λ w, (mkWorld (heap w ++ [d]) (stdout w), Ok (length (heap w))).

(** [print(text)] *)
Definition print (text : string) : M unit :=
  λ w, (mkWorld (heap w) (stdout w ++ [text]), Ok tt).

Fixpoint foldM {A B} (f : A → B → M A) (a : A) (l : list B) : M A :=
  match l with
  | [] => ret a
  | b :: l => let* a' := f a b in foldM f a' l
  end.

(** ** The pandas operations the script uses *)

(** [df[c]]: the cells of a column, [KeyError] when there is none. *)
Definition getitem (c : string) (d : DataFrame) : res (list value) :=
  if decide (c ∈ columns d) then Ok ((λ ir : Z * Row, cell c ir.2) <$> rows d)
  else Raise (KeyError c).

(** [df[c] = vs]: overwrites the column, or appends it as the last one. *)
Definition setitem (c : string) (vs : list value) (d : DataFrame) : DataFrame :=
  {| columns := if decide (c ∈ columns d) then columns d else columns d ++ [c];
     rows := zip_with (λ (ir : Z * Row) v, (ir.1, <[c := v]> ir.2)) (rows d) vs |}.

(** [df.drop(c, axis=1)] *)
Definition drop_column (c : string) (d : DataFrame) : res DataFrame :=
  if decide (c ∈ columns d) then
    Ok {| columns := filter (λ c', c' ≠ c) (columns d);
          rows := (λ ir : Z * Row, (ir.1, delete c ir.2)) <$> rows d |}
  else Raise (KeyError c).

(** [df[mask]]: the rows whose mask entry is true. *)
Fixpoint boolean_mask {A} (l : list A) (mask : list bool) : list A :=
  match l, mask with
  | x :: l, b :: mask =>
      if b then x :: boolean_mask l mask else boolean_mask l mask
  | _, _ => []
  end.

(** A row laid out over the columns [cols]: the filler where it has no
    cell, nothing outside [cols]. *)
Definition reindex (cols : list string) (r : Row) : Row :=
  list_to_map ((λ c, (c, cell c r)) <$> cols).

(** [pd.concat([d1, d2])]: the columns of [d1], then those of [d2] that
    [d1] lacks; the rows of [d1], then those of [d2], index labels kept. *)
Definition concat_columns (d1 d2 : DataFrame) : list string :=
  columns d1 ++ list_difference (columns d2) (columns d1).

Definition pd_concat (d1 d2 : DataFrame) : DataFrame :=
  {| columns := concat_columns d1 d2;
     rows := (λ ir : Z * Row, (ir.1, reindex (concat_columns d1 d2) ir.2))
               <$> (rows d1 ++ rows d2) |}.

(** The cells of a row under the columns [subset], as they are compared:
    what two rows are duplicates by. *)
Definition key_of (subset : list string) (r : Row) : list hashed :=
  (λ c, hash_cell (cell c r)) <$> subset.

(** [df.duplicated(subset, keep='first')]: true at a row whose key an
    earlier row has. *)
Fixpoint duplicated_from (subset : list string) (seen : list (list hashed))
    (l : list (Z * Row)) : list bool :=
  match l with
  | [] => []
  | ir :: l =>
      bool_decide (key_of subset ir.2 ∈ seen)
        :: duplicated_from subset (key_of subset ir.2 :: seen) l
  end.

Definition duplicated (subset : list string) (d : DataFrame) : list bool :=
  duplicated_from subset [] (rows d).

(** [df.empty]: no row or no column. *)
Definition empty (d : DataFrame) : bool :=
  bool_decide (rows d = [] ∨ columns d = []).

(** [df.drop_duplicates(subset, keep='first')].  An empty frame is
    returned as it is, before [subset] is looked at.  Otherwise a label of
    [subset] that is no column is a [KeyError].  With no label at all the
    releases of pandas disagree; the embedding raises there, as the older
    ones do. *)
Definition drop_duplicates (subset : list string) (d : DataFrame) : res DataFrame :=
  if empty d then Ok d else
  match List.find (λ c, bool_decide (c ∉ columns d)) subset with
  | Some c => Raise (KeyError c)
  | None =>
      match subset with
      | [] => Raise ValueError
      | _ => Ok {| columns := columns d;
                   rows := boolean_mask (rows d) (negb <$> duplicated subset d) |}
      end
  end.

(** [df.reset_index(drop=True)]: index labels 0, 1, 2, ... *)
Definition reset_index (d : DataFrame) : DataFrame :=
  {| columns := columns d;
     rows := imap (λ i (ir : Z * Row), (Z.of_nat i, ir.2)) (rows d) |}.

(** [df[c] <= n], cell by cell: the filler compares false, a boolean is 0
    or 1, a string cannot be ordered against a number. *)
Definition le_cell (n : Z) (v : value) : res bool :=
  match v with
  | VInt z => Ok (z <=? n)
  | VBool b => Ok ((if b then 1 else 0) <=? n)
  | VNaN => Ok false
  | VStr _ | VTime _ => Raise TypeError
  end.

Fixpoint mapR {A B} (f : A → res B) (l : list A) : res (list B) :=
  match l with
  | [] => Ok []
  | a :: l =>
      match f a with
      | Ok b => match mapR f l with Ok bs => Ok (b :: bs) | Raise e => Raise e end
      | Raise e => Raise e
      end
  end.

Definition column_le (c : string) (n : Z) (d : DataFrame) : res (list value) :=
  match getitem c d with
  | Ok vs => match mapR (le_cell n) vs with
             | Ok bs => Ok (VBool <$> bs)
             | Raise e => Raise e
             end
  | Raise e => Raise e
  end.

(** ** merge (lines 24-60) *)

(** [df['Stub'] = (df['LoC'] <= 1)] *)
Definition add_stub (df : loc) : M unit :=
  let* d := deref df in
  let* s := lift (column_le "LoC" 1 d) in
  update df (setitem "Stub" s).

Definition merge (df1 df2 : loc) (mergeType : GroupBy) : M loc :=
  let* _ := (if decide (mergeType = FILE_FUNCTION_STUB) then
               let* _ := add_stub df1 in add_stub df2
             else ret tt) in
  let* d1 := deref df1 in
  let* d2 := deref df2 in
  let* result := ret (pd_concat d1 d2) in
  let* result :=
    (if decide (mergeType = FILE_FUNCTION) then
       lift (drop_duplicates ["Source File"; "Element"] result)
     else ret result) in
  let* result :=
    (if decide (mergeType = FILE_FUNCTION_STUB) then
       let* r := lift (drop_duplicates ["Source File"; "Element"; "Stub"] result) in
       lift (drop_column "Stub" r)
     else ret result) in
  let* result :=
    (if decide (mergeType = ALL_BUT_DATE) then
       if decide ("Date" ∈ columns result) then
         lift (drop_duplicates
                 (list_difference (columns result) ["Date"]) result)
       else if decide ("Date / Version" ∈ columns result) then
         lift (drop_duplicates
                 (list_difference (columns result) ["Date / Version"]) result)
       else
         let* _ := print "Error: Date column not found" in ret result
     else ret result) in
  new (reset_index result).

(** ** Dates (lines 78 and 80) *)

Definition digit (a : ascii) : option Z :=
  let n := Z.of_N (N_of_ascii a) in
  if (48 <=? n) && (n <=? 57) then Some (n - 48) else None.

(** A non-empty run of decimal digits. *)
Fixpoint number_from (acc : Z) (s : string) : option Z :=
  match s with
  | EmptyString => Some acc
  | String a s =>
      match digit a with
      | Some d => number_from (10 * acc + d) s
      | None => None
      end
  end.

Definition number (s : string) : option Z :=
  match s with
  | EmptyString => None
  | _ => number_from 0 s
  end.

(** [datetime.date(y, m, d)] *)
Definition make_date (y m d : Z) : res Date :=
  if (1 <=? y) && (y <=? 9999) && (1 <=? m) && (m <=? 12)
     && (1 <=? d) && (d <=? days_in_month y m)
  then Ok (mkDate y m d) else Raise ValueError.

(** [d1 <= d2] on dates. *)
Definition date_le (d1 d2 : Date) : bool :=
  (year d1 <? year d2)
  || ((year d1 =? year d2)
      && ((month d1 <? month d2)
          || ((month d1 =? month d2) && (day d1 <=? day d2)))).

Fixpoint split_on (sep : ascii) (s : string) : list string :=
  match s with
  | EmptyString => [EmptyString]
  | String a s =>
      if decide (a = sep) then EmptyString :: split_on sep s
      else match split_on sep s with
           | [] => [String a EmptyString]
           | p :: ps => String a p :: ps
           end
  end.

(** The text a [%d] or [%m] directive accepts: one or two digits, the
    value between 1 and [hi]; [%d] also a space and one digit. *)
Definition field (hi : Z) (blank : bool) (s : string) : option Z :=
  match s with
  | String " " (String a EmptyString) =>
      if blank then
        match digit a with
        | Some n => if 1 <=? n then Some n else None
        | None => None
        end
      else None
  | _ =>
      if (String.length s <=? 2)%nat then
        match number s with
        | Some n => if (1 <=? n) && (n <=? hi) then Some n else None
        | None => None
        end
      else None
  end.

(** [datetime.strptime(s, '%d.%m.%Y').date()] *)
Definition strptime_dmY (s : string) : res Date :=
  match split_on "." s with
  | [ds; ms; ys] =>
      match field 31 true ds, field 12 false ms, number ys with
      | Some d, Some m, Some y =>
          if (String.length ys =? 4)%nat then make_date y m d
          else Raise ValueError
      | _, _, _ => Raise ValueError
      end
  | _ => Raise ValueError
  end.

(** [str(date)]: the ISO form, zero padded. *)
Definition digit_char (n : Z) : ascii := ascii_of_N (Z.to_N (48 + n mod 10)).

Definition pad2 (n : Z) : string :=
  String (digit_char (n / 10)) (String (digit_char n) EmptyString).

Definition str_date (d : Date) : string :=
  pad2 (year d / 100) +:+ pad2 (year d) +:+ "-" +:+ pad2 (month d)
    +:+ "-" +:+ pad2 (day d).

Definition WEEKDAYS : list string :=
  ["Mon"; "Tue"; "Wed"; "Thu"; "Fri"; "Sat"; "Sun"].

Definition MONTH_ABBR : list string :=
  ["Jan"; "Feb"; "Mar"; "Apr"; "May"; "Jun";
   "Jul"; "Aug"; "Sep"; "Oct"; "Nov"; "Dec"].

Fixpoint index_of (x : string) (l : list string) : option nat :=
  match l with
  | [] => None
  | y :: l => if decide (x = y) then Some 0%nat else S <$> index_of x l
  end.

(** A field of exactly two digits with value at most [hi]. *)
Definition two_digits (hi : Z) (s : string) : option Z :=
  if (String.length s =? 2)%nat then
    match number s with
    | Some n => if n <=? hi then Some n else None
    | None => None
    end
  else None.

(** The reading of dates used to run the scenarios: one text in the
    spelling of mail headers, [Sun, 03 Nov 2013 23:59:59 +0100], with
    fields of two digits and a year from 1678 to 2261; the name of the
    weekday is read and not compared with the date.  The library reads
    this spelling the same way, and other spellings besides; no
    statement depends on which: the statements are about every reading
    (see [to_datetime_cell] below). *)
Definition mail_date (s : string) : option Timestamp :=
  let part := λ (i n : Z), substring (Z.to_nat i) (Z.to_nat n) s in
  if negb (String.length s =? 31)%nat then None else
  if negb (bool_decide (part 0 3 ∈ WEEKDAYS)
           && bool_decide (part 3 2 = ", ") && bool_decide (part 7 1 = " ")
           && bool_decide (part 11 1 = " ") && bool_decide (part 16 1 = " ")
           && bool_decide (part 19 1 = ":") && bool_decide (part 22 1 = ":")
           && bool_decide (part 25 1 = " ")
           && bool_decide (part 26 1 ∈ ["+"; "-"])) then None else
  match two_digits 31 (part 5 2), index_of (part 8 3) MONTH_ABBR,
        number (part 12 4),
        two_digits 23 (part 17 2), two_digits 59 (part 20 2),
        two_digits 59 (part 23 2),
        two_digits 23 (part 27 2), two_digits 59 (part 29 2) with
  | Some d, Some mi, Some y, Some hh, Some mm, Some ss, Some oh, Some om =>
      if negb ((1678 <=? y) && (y <=? 2261)) then None else
      match make_date y (Z.of_nat (S mi)) d with
      | Ok date =>
          let off := 60 * oh + om in
          Some (mkTimestamp date (3600 * hh + 60 * mm + ss)
                  (Some (if decide (part 26 1 = "-") then - off else off)))
      | Raise _ => None
      end
  | _, _, _, _, _, _, _, _ => None
  end.

(** The reading of cells that goes with it: a text in that spelling as
    above, a timestamp as it is, a missing cell as the missing
    timestamp. *)
Definition mail_reader (v : value) : res (option Timestamp) :=
  match v with
  | VStr s => match mail_date s with
              | Some t => Ok (Some t)
              | None => Raise ValueError
              end
  | VTime t => Ok (Some t)
  | VNaN => Ok None
  | VInt _ | VBool _ => Raise ValueError
  end.

(** The cell of a column of timestamps: a timestamp, or the missing
    timestamp [NaT]. *)
Definition time_cell (o : option Timestamp) : value :=
  match o with
  | Some t => VTime t
  | None => VNaN
  end.

(** Whether the [.dt] accessor takes a column: its cells are timestamps
    or missing, and the timestamps agree in their offset (with two
    different offsets, or with and without one, pandas keeps the cells
    as plain objects and the accessor raises). *)
Definition datetimelike (col : list value) : bool :=
  forallb (λ v, match v with VTime _ | VNaN => true | _ => false end) col
  && match omap (λ v, match v with
                      | VTime t => Some (ts_utcoffset t)
                      | _ => None
                      end) col with
     | [] => true
     | o :: os => forallb (λ o', bool_decide (o' = o)) os
     end.

(** [column.dt.date <= date]: cell by cell on such a column, false at a
    missing timestamp. *)
Definition dt_date_le (date : Date) (col : list value) : res (list bool) :=
  if datetimelike col then
    Ok ((λ v, match v with
              | VTime t => date_le (ts_date t) date
              | _ => false
              end) <$> col)
  else Raise AttributeError.

(** ** The library's reading of dates (line 80) *)

(** What the library makes of one cell: a timestamp; the missing
    timestamp [NaT], as of a missing cell; or an exception, as of a text
    that does not follow the format. *)
Definition Reading : Type := value → res (option Timestamp).

Section Library.
Set Default Proof Using "Type".

(** [pd.to_datetime(column, format='%a, %d %b %Y %H:%M:%S %z')] goes
    through the column cell by cell.  The embedding takes the library's
    reading of a cell as it comes: it is a parameter, and everything from
    here on holds for every such reading. *)
Variable to_datetime_cell : Reading.

Definition to_datetime (col : list value) : res (list (option Timestamp)) :=
  mapR to_datetime_cell col.

(** ** The files the script reads *)

(** What [os.path.isdir], [pd.read_excel] and [pd.read_csv] find; a path
    with no readable table makes the reader raise. *)
Record FileSystem := mkFS {
  isdir : string → bool;
  excel_file : string → option DataFrame;
  csv_file : string → option DataFrame
}.

Definition MONTHS : list string :=
  ["January"; "February"; "March"; "April"; "May"; "June"; "July";
   "August"; "September"; "October"; "November"; "December"].

(** What a Python variable of the script may hold where [len] is taken. *)
Inductive pyobj :=
| PyInt (n : Z)
| PyFrame (d : DataFrame).

(** [len(o)]: defined on a frame, a [TypeError] on an integer. *)
Definition py_len (o : pyobj) : res Z :=
  match o with
  | PyFrame d => Ok (frame_len d)
  | PyInt _ => Raise TypeError
  end.

(** [str(n)] for an integer. *)
Definition str_int (n : Z) : string := pretty n.

Section Script.
Variable fs : FileSystem.

Definition read_excel (path : string) : M loc :=
  match excel_file fs path with
  | Some d => new d
  | None => raise FileNotFoundError
  end.

Definition read_csv (path : string) : M DataFrame :=
  match csv_file fs path with
  | Some d => ret d
  | None => raise FileNotFoundError
  end.

(** ** mergeErrorReports (lines 62-84) *)

(** The body of the two loops (lines 66-75) for one year and month. *)
Definition mergeErrorReports_period (baseFolder : string) (mergeType : GroupBy)
    (result : option loc) (y m : string) : M (option loc) :=
  let reportName := y +:+ "-" +:+ m in
  let folder := baseFolder +:+ "/" +:+ reportName in
  if isdir fs folder then
    let* df := read_excel (baseFolder +:+ "/" +:+ reportName +:+ "/"
                             +:+ reportName +:+ ".xlsx") in
    match result with
    | None => ret (Some df)
    | Some r => let* r' := merge r df mergeType in ret (Some r')
    end
  else
    let* _ := print (folder +:+ " doesn't exist") in ret result.

(** Lines 63-75. *)
Definition mergeErrorReports_loop (baseFolder : string) (years : list string)
    (mergeType : GroupBy) : M (option loc) :=
  foldM (λ result y,
           foldM (λ result m,
                    mergeErrorReports_period baseFolder mergeType result y m)
                 result MONTHS)
        None years.

(** Lines 78-82: the rows dated after [lastDate] are dropped. *)
Definition mergeErrorReports_lastDate (result : option loc) (lastDate : string)
    : M (option loc) :=
  let* date := lift (strptime_dmY lastDate) in
  let* _ := print ("Drop all reports after: " +:+ str_date date) in
  match result with
  | None => raise TypeError
  | Some r =>
      let* d := deref r in
      let* col := lift (getitem "Date" d) in
      let* ts := lift (to_datetime col) in
      let* _ := update r (setitem "DateObject" (time_cell <$> ts)) in
      let* d := deref r in
      let* col := lift (getitem "DateObject" d) in
      let* mask := lift (dt_date_le date col) in
      let* result := ret (mkFrame (columns d) (boolean_mask (rows d) mask)) in
      let* result := lift (drop_column "DateObject" result) in
      let* r' := new result in
      ret (Some r')
  end.

Definition mergeErrorReports (baseFolder : string) (years : list string)
    (mergeType : GroupBy) (lastDate : option string) : M (option loc) :=
  let* result := mergeErrorReports_loop baseFolder years mergeType in
  match lastDate with
  | Some lastDate => mergeErrorReports_lastDate result lastDate
  | None => ret result
  end.

(** ** filterByDiff (lines 122-151) *)

(** [s.endswith(suffix)] *)
Fixpoint endswith (suffix s : string) : bool :=
  if decide (s = suffix) then true
  else match s with
       | EmptyString => false
       | String _ s' => endswith suffix s'
       end.

(** [column.isin(flags)] *)
Definition isin (flags : list string) (v : value) : bool :=
  match v with
  | VStr s => bool_decide (s ∈ flags)
  | _ => false
  end.

(** [column.str.startswith(file)] used as a mask: every cell has to be a
    text, otherwise there is no boolean mask and the library raises. *)
Definition str_startswith (file : string) (v : value) : res bool :=
  match v with
  | VStr s => Ok (String.prefix file s)
  | _ => Raise AttributeError
  end.

(** [df.loc[mask, c] = v] *)
Definition loc_setitem (mask : list bool) (c : string) (v : value)
    (d : DataFrame) : DataFrame :=
  {| columns := if decide (c ∈ columns d) then columns d else columns d ++ [c];
     rows := zip_with (λ (ir : Z * Row) (b : bool),
                         if b then (ir.1, <[c := v]> ir.2) else ir)
                      (rows d) mask |}.

(** The body of the loop over the rows of [diff] (lines 133-140). *)
Definition filterByDiff_row (df : loc) (diff : DataFrame) (row : Row) : M unit :=
  let* file := lift (if decide ("File" ∈ columns diff) then Ok (cell "File" row)
                     else Raise (KeyError "File")) in
  match file with
  | VStr file =>
      if endswith ".c" file || endswith ".h" file then
        let* d := deref df in
        let* col := lift (getitem "Source File" d) in
        update df (loc_setitem ((λ v, bool_decide (v = VStr file)) <$> col)
                     "Edited" (VBool true))
      else
        let* d := deref df in
        let* col := lift (getitem "Source File" d) in
        let* mask := lift (mapR (str_startswith file) col) in
        update df (loc_setitem mask "Edited" (VBool true))
  | _ => raise AttributeError
  end.

(** Lines 123-146: the rows count before, and the table of the edited
    rows without the auxiliary column. *)
Definition filterByDiff_edited (df : loc) (pathToDiff : string)
    (modifiedFlags : option (list string)) : M (Z * DataFrame) :=
  let* diff := read_csv pathToDiff in
  let* d := deref df in
  let* _ := update df (setitem "Edited" (replicate (length (rows d)) (VBool false))) in
  let* d := deref df in
  let* nRowsBefore := lift (py_len (PyFrame d)) in
  let* diff :=
    match modifiedFlags with
    | Some flags =>
        let* col := lift (getitem "Modified" diff) in
        ret (mkFrame (columns diff) (boolean_mask (rows diff) (isin flags <$> col)))
    | None => ret diff
    end in
  let* _ := foldM (λ _ (ir : Z * Row), filterByDiff_row df diff ir.2) tt (rows diff) in
  let* d := deref df in
  let* col := lift (getitem "Edited" d) in
  let* d' := ret (mkFrame (columns d)
                    (boolean_mask (rows d) ((λ v, bool_decide (v = VBool true)) <$> col))) in
  let* d' := lift (drop_column "Edited" d') in
  ret (nRowsBefore, d').

Definition filterByDiff (df : loc) (pathToDiff : string)
    (modifiedFlags : option (list string)) : M loc :=
  let* before_df := filterByDiff_edited df pathToDiff modifiedFlags in
  let nRowsBefore := before_df.1 in
  let* nRowsAfter := lift (py_len (PyFrame before_df.2)) in
  let* n := lift (py_len (PyInt nRowsAfter)) in
  let* _ := print ("Dropped " +:+ str_int (nRowsBefore - n) +:+ " rows") in
  new before_df.2.

End Script.

(** ** The rest of the script (lines 16-21, 86-98, 107-120, 153-174) *)

Definition PATH_TO_COMPILATION_ERRORS : string :=
  "/mnt/c/Repos/Development/Metrics-Research/MetricResults/Kbuild Test Robot".
Definition PATH_TO_BASELINES : string :=
  "/mnt/c/Repos/Development/Metrics-Research/MetricResults/Baselines".
Definition PATH_TO_DATASETS : string :=
  "/mnt/c/Repos/Development/Metrics-Research/MetricResults/Datasets".

(** [printStatus] (lines 20-21): the text between the escape sequences
    for bold blue and for reset; [\033] is the character 27. *)
Definition ESC : string := String "027"%char EmptyString.

Definition printStatus (text : string) : M unit :=
  print (ESC +:+ "[1;34m" +:+ text +:+ ESC +:+ "[0m").

(** The functions below also write files, and two of the operations they
    call raise what the three functions above never meet: [df.insert] an
    [IndexError] for a position behind the last column, [to_csv] an
    [OSError] where it cannot write. *)
Inductive error :=
| Exn (e : exn)
| IndexError
| OSError.

(** How a run ends.  [DuplicateLabels]: the run made a frame with two
    columns of one label, which a frame of this embedding cannot hold;
    the code goes on from there, the embedding follows it no further. *)
Inductive outcome (A : Type) :=
| Returns (a : A)
| Raises (e : error)
| DuplicateLabels.
#[global] Arguments Returns {A} a.
#[global] Arguments Raises {A} e.
#[global] Arguments DuplicateLabels {A}.

(** A table as [to_csv(index=False)] writes it: the column labels and the
    rows without their index labels. *)
Abbreviation Table := (list string * list Row)%type.

(** The store and the output as before, and the files written so far,
    the latest last. *)
Record System := mkSystem {
  world : World;
  written : list (string * Table)
}.

Definition IO (A : Type) : Type := System → System * outcome A.

Definition io_ret {A} (a : A) : IO A := λ s, (s, Returns a).
Definition io_bind {A B} (m : IO A) (k : A → IO B) : IO B :=
  λ s, match m s with
       | (s', Returns a) => k a s'
       | (s', Raises e) => (s', Raises e)
       | (s', DuplicateLabels) => (s', DuplicateLabels)
       end.
Definition io_lift {A} (o : outcome A) : IO A := λ s, (s, o).

(** A computation of the monad above, run on the store and the output. *)
Definition run {A} (m : M A) : IO A :=
  λ s, match m (world s) with
       | (w', Ok a) => (mkSystem w' (written s), Returns a)
       | (w', Raise e) => (mkSystem w' (written s), Raises (Exn e))
       end.

Notation "'let+' x ':=' m 'in' k" := (io_bind m (λ x, k))
  (at level 10, x name, m at level 100, k at level 200, only parsing).

(** [df.insert(pos, column, v)] with a scalar [v]: a label that is a
    column already is refused, then a position behind the last column;
    otherwise the column is put at [pos], every cell of it [v]. *)
Definition insert_column (pos : nat) (column : string) (v : value)
    (d : DataFrame) : outcome DataFrame :=
  if decide (column ∈ columns d) then Raises (Exn ValueError)
  else if decide (pos ≤ length (columns d))%nat then
    Returns {| columns := take pos (columns d) ++ column :: drop pos (columns d);
               rows := (λ ir : Z * Row, (ir.1, <[column := v]> ir.2)) <$> rows d |}
  else Raises IndexError.

(** [df.rename(columns={old: new})]: nothing where [old] is no column.
    Where [new] is a column too, pandas returns a frame with two columns
    of that label and the script goes on with it; a row of this
    embedding has one cell for a label, so the run is not followed from
    there on: its outcome is [DuplicateLabels], which is neither a return
    nor an exception, and a statement about such a run says so. *)
Definition rename_column (old new : string) (d : DataFrame) : outcome DataFrame :=
  if decide (old ∈ columns d) then
    if decide (new ∈ columns d ∧ new ≠ old) then DuplicateLabels
    else
      Returns {| columns := (λ c, if decide (c = old) then new else c) <$> columns d;
                 rows := (λ ir : Z * Row,
                            (ir.1, <[new := cell old ir.2]> (delete old ir.2)))
                           <$> rows d |}
  else Returns d.

(** [df.drop(labels, axis=1)]: a [KeyError] if a label is no column (it
    carries the first such label). *)
Definition drop_columns (labels : list string) (d : DataFrame) : res DataFrame :=
  match List.find (λ c, bool_decide (c ∉ columns d)) labels with
  | Some c => Raise (KeyError c)
  | None =>
      Ok {| columns := filter (λ c, c ∉ labels) (columns d);
            rows := (λ ir : Z * Row, (ir.1, foldr delete ir.2 labels)) <$> rows d |}
  end.

(** An operation with [inplace=True], or one that pandas has only in
    place: the frame the variable refers to is replaced by the result. *)
Definition in_place (df : loc) (f : DataFrame → outcome DataFrame) : IO unit :=
  let+ d := run (deref df) in
  let+ d' := io_lift (f d) in
  run (update df (λ _, d')).

(** [l[0]] and [l[-1]] on a list. *)
Definition py_first {A} (l : list A) : outcome A :=
  match l with
  | x :: _ => Returns x
  | [] => Raises IndexError
  end.

Definition py_last {A} (l : list A) : outcome A :=
  match last l with
  | Some x => Returns x
  | None => Raises IndexError
  end.

Section Pipeline.
Variable fs : FileSystem.

(** Where [to_csv] can write. *)
Variable writable : string → bool.

(** [str(years)], the text Python prints for a list of texts, and
    [df.sort_values(by=...)]: both are taken as they come; they are
    reached only on line 154, for a status line, and on line 166. *)
Variable str_list : list string → string.
Variable sort_values : list string → DataFrame → res DataFrame.

(** [result.to_csv(path, index=False, sep=';')]; [result] may be [None]. *)
Definition to_csv (result : option loc) (path : string) : IO unit :=
  match result with
  | None => io_lift (Raises (Exn AttributeError))
  | Some df =>
      let+ d := run (deref df) in
      λ s, if writable path
           then (mkSystem (world s)
                   (written s ++ [(path, (columns d, (rows d).*2))]),
                 Returns tt)
           else (s, Raises OSError)
  end.

(** ** mergeDefectReports and createDefectReportFile (lines 86-98) *)

Definition mergeDefectReports (years : list string) (mergeType : GroupBy)
    (lastDate : option string) : IO unit :=
  let+ result := run (mergeErrorReports fs PATH_TO_COMPILATION_ERRORS years
                        mergeType lastDate) in
  let+ destName := io_lift (py_first years) in
  let+ destName :=
    match lastDate with
    | Some lastDate => io_ret (destName +:+ "-" +:+ lastDate)
    | None =>
        if decide (1 < length years)%nat then
          let+ y := io_lift (py_last years) in io_ret (destName +:+ "-" +:+ y)
        else io_ret destName
    end in
  let destName := destName +:+ ".csv" in
  to_csv result (PATH_TO_COMPILATION_ERRORS +:+ "/" +:+ destName).

Definition createDefectReportFile : IO unit :=
  mergeDefectReports ["2013"] ALL_BUT_DATE (Some "13.12.2013").

(** ** loadBaseline and loadDefects (lines 107-120) *)

Definition loadBaseline (baseline : string) : IO loc :=
  let path := PATH_TO_BASELINES +:+ "/linux-" +:+ baseline +:+ "/linux-"
                +:+ baseline +:+ ".csv" in
  let+ d := run (read_csv fs path) in
  let+ df_baseline := run (new d) in
  let+ _ := in_place df_baseline (insert_column 0 "Date / Version" (VStr baseline)) in
  let+ _ := in_place df_baseline (insert_column 3 "Error" (VInt 0)) in
  io_ret df_baseline.

Definition loadDefects (years : list string) (mergeType : GroupBy)
    (lastDate : option string) : IO loc :=
  let+ defects := run (mergeErrorReports fs PATH_TO_COMPILATION_ERRORS years
                         mergeType lastDate) in
  match defects with
  | None => io_lift (Raises (Exn AttributeError))
  | Some defects =>
      let+ _ := in_place defects (rename_column "Date" "Date / Version") in
      let+ _ := in_place defects (insert_column 3 "Error" (VInt 1)) in
      io_ret defects
  end.

(** ** createTrainingData (lines 153-171) *)

Definition createTrainingData (years : list string)
    (lastDate baseline pathToDiff : string)
    (modifiedFlags : option (list string)) : IO unit :=
  let+ _ := run (printStatus ("Create training data for years: "
                               +:+ str_list years +:+ " until " +:+ lastDate
                               +:+ " with baseline " +:+ baseline)) in
  let+ _ := run (printStatus "Load defects") in
  let+ defects := loadDefects years ALL_BUT_DATE (Some lastDate) in
  let+ _ := in_place defects
              (λ d, match drop_columns ["Repository"; "Commit"; "Type"] d with
                    | Ok d' => Returns d'
                    | Raise e => Raises (Exn e)
                    end) in
  let+ _ := run (printStatus "Load baseline") in
  let+ df_baseline := loadBaseline baseline in
  let+ _ := run (printStatus "Merge") in
  let+ merged := run (merge defects df_baseline FILE_FUNCTION_STUB) in
  let+ _ := run (printStatus "Filter by diff") in
  let+ merged := run (filterByDiff fs merged pathToDiff modifiedFlags) in
  let+ _ := run (printStatus "Sort") in
  let+ d := run (deref merged) in
  let+ sorted := run (lift (sort_values ["Source File"; "Element"] d)) in
  let+ merged := run (new sorted) in
  let+ _ := run (printStatus "Save dataset") in
  let+ _ := to_csv (Some merged) (PATH_TO_DATASETS +:+ "/trainingData.csv") in
  run (printStatus "Done").

(** Line 174: what running the script does. *)
Definition script : IO unit :=
  createTrainingData ["2013"] "03.11.2013" "3.12"
    "/home/elscha/Linux-Experiment/simplifiedDiff.csv" None.

End Pipeline.


(** ** Scenarios *)

(** The stub scenario's tables. *)
Definition row3 (file elem : string) (loc_ : Z) : Row :=
  <["Source File" := VStr file]> (<["Element" := VStr elem]> (<["LoC" := VInt loc_]> ∅)).

Definition stubA : DataFrame :=
  mkFrame ["Source File"; "Element"; "LoC"] [(0, row3 "x.c" "f" 1)].
Definition stubB : DataFrame :=
  mkFrame ["Source File"; "Element"; "LoC"] [(0, row3 "x.c" "f" 5)].

(** The cutoff scenario: one report, two rows. *)
Definition dated (file date : string) : Row :=
  <["Source File" := VStr file]> (<["Date" := VStr date]> ∅).

Definition cutoffReport : DataFrame :=
  mkFrame ["Source File"; "Date"]
    [(0, dated "a.c" "Sun, 03 Nov 2013 23:59:59 +0100");
     (1, dated "b.c" "Mon, 04 Nov 2013 00:00:00 +0100")].

(** Two rows dated in different time zones, and a row without a date
    behind a dated one. *)
Definition zonesReport : DataFrame :=
  mkFrame ["Source File"; "Date"]
    [(0, dated "a.c" "Sun, 03 Nov 2013 23:59:59 +0100");
     (1, dated "b.c" "Sun, 03 Nov 2013 10:00:00 -0500")].

Definition undatedReport : DataFrame :=
  mkFrame ["Source File"; "Date"]
    [(0, dated "a.c" "Sun, 03 Nov 2013 23:59:59 +0100");
     (1, <["Source File" := VStr "c.c"]> (<["Date" := VNaN]> ∅))].

(** The diff scenario. *)
Definition src (file : string) : Row := <["Source File" := VStr file]> ∅.
Definition entry (file flag : string) : Row :=
  <["File" := VStr file]> (<["Modified" := VStr flag]> ∅).

Definition diffTable : DataFrame :=
  mkFrame ["Source File"] [(0, src "src/drivers/net.c"); (1, src "src/other/net.c")].
Definition diffManifest : DataFrame :=
  mkFrame ["File"; "Modified"] [(0, entry "src/drivers" "M")].
Definition diffFS : FileSystem :=
  mkFS (λ _, false) (λ _, None)
       (λ p, if decide (p = "simplifiedDiff.csv") then Some diffManifest else None).

(** The diff scenario with an entry that names a file. *)
Definition exactTable : DataFrame :=
  mkFrame ["Source File"] [(0, src "src/net.c"); (1, src "src/net.c.orig")].
Definition exactFS : FileSystem :=
  mkFS (λ _, false) (λ _, None)
       (λ _, Some (mkFrame ["File"; "Modified"] [(0, entry "src/net.c" "M")])).

(** The scenario of two defect reports that differ in their date. *)
Definition report (file elem date : string) (error : Z) : Row :=
  <["Source File" := VStr file]>
    (<["Element" := VStr elem]>
       (<["Date" := VStr date]> (<["Error" := VInt error]> ∅))).

Definition reportFrame (date : string) (error : Z) : DataFrame :=
  mkFrame ["Source File"; "Element"; "Date"; "Error"]
    [(0, report "x.c" "f" date error)].

(** The same report with [True] for its [Error]. *)
Definition flaggedFrame (date : string) : DataFrame :=
  mkFrame ["Source File"; "Element"; "Date"; "Error"]
    [(0, <["Error" := VBool true]> (report "x.c" "f" date 1))].

(** A table without a date column, and a directory tree without any
    report. *)
Definition plainA : DataFrame := mkFrame ["Source File"] [(0, src "x.c")].
Definition emptyFS : FileSystem := mkFS (λ _, false) (λ _, None) (λ _, None).

(** A directory tree with the report of March 2013 only, one with that
    directory but no workbook in it, and one with the reports of March and
    May 2013. *)
Definition marchFS : FileSystem :=
  mkFS (λ p, bool_decide (p = "/reports/2013-March"))
       (λ p, if decide (p = "/reports/2013-March/2013-March.xlsx")
             then Some cutoffReport else None)
       (λ _, None).

Definition brokenFS : FileSystem :=
  mkFS (λ p, bool_decide (p = "/reports/2013-March")) (λ _, None) (λ _, None).

Definition twoFS : FileSystem :=
  mkFS (λ p, bool_decide (p ∈ ["/reports/2013-March"; "/reports/2013-May"]))
       (λ p, if decide (p = "/reports/2013-March/2013-March.xlsx")
             then Some (reportFrame "Fri, 01 Mar 2013 10:00:00 +0100" 1)
             else if decide (p = "/reports/2013-May/2013-May.xlsx")
             then Some (reportFrame "Wed, 01 May 2013 10:00:00 +0100" 1)
             else None)
       (λ _, None).

(** The tree the script works on, with one report, a baseline and a
    manifest. *)
Definition robotRow (date file elem : string) (loc_ : Z) : Row :=
  <["Date" := VStr date]>
    (<["Repository" := VStr "linux"]>
       (<["Commit" := VStr "abc"]>
          (<["Type" := VStr "error"]>
             (<["Source File" := VStr file]>
                (<["Element" := VStr elem]> (<["LoC" := VInt loc_]> ∅)))))).

Definition robotReport : DataFrame :=
  mkFrame ["Date"; "Repository"; "Commit"; "Type"; "Source File"; "Element"; "LoC"]
    [(0, robotRow "Sun, 03 Nov 2013 23:59:59 +0100" "src/drivers/net.c" "f" 5);
     (1, robotRow "Mon, 04 Nov 2013 00:00:00 +0100" "src/other/net.c" "g" 7)].

Definition robotBaseline : DataFrame :=
  mkFrame ["Source File"; "Element"; "LoC"]
    [(0, row3 "src/drivers/net.c" "f" 5); (1, row3 "src/drivers/usb.c" "h" 1)].

Definition robotFS : FileSystem :=
  mkFS (λ p, bool_decide (p = PATH_TO_COMPILATION_ERRORS +:+ "/2013-November"))
       (λ p, if decide (p = PATH_TO_COMPILATION_ERRORS
                            +:+ "/2013-November/2013-November.xlsx")
             then Some robotReport else None)
       (λ p, if decide (p = PATH_TO_BASELINES +:+ "/linux-3.12/linux-3.12.csv")
             then Some robotBaseline
             else if decide (p = "/home/elscha/Linux-Experiment/simplifiedDiff.csv")
             then Some diffManifest else None).

(** ** The vocabulary of the statements *)

(** The rows [drop_duplicates] keeps, written directly: a row stays unless
    its key was seen before it. *)
Fixpoint keep_first {A K} `{EqDecision K} (kf : A → K) (seen : list K)
    (l : list A) : list A :=
  match l with
  | [] => []
  | x :: l =>
      if decide (kf x ∈ seen) then keep_first kf (kf x :: seen) l
      else x :: keep_first kf (kf x :: seen) l
  end.

(** The first element of [l] with key [k]. *)
Definition first_with {A K} `{EqDecision K} (kf : A → K) (k : K)
    (l : list A) : option A :=
  List.find (λ x, bool_decide (kf x = k)) l.

(** A frame after [df['Stub'] = (df['LoC'] <= 1)]. *)
Definition stubbed (d : DataFrame) : res DataFrame :=
  match column_le "LoC" 1 d with
  | Ok s => Ok (setitem "Stub" s d)
  | Raise e => Raise e
  end.

(** How [merge] ends (lines 59-60): the result reindexed is a new table
    of the store [h], or the exception is passed on. *)
Definition finish (w : World) (h : list DataFrame) (r : res DataFrame)
    : World * res loc :=
  match r with
  | Ok d => (mkWorld (h ++ [reset_index d]) (stdout w), Ok (length h))
  | Raise e => (mkWorld h (stdout w), Raise e)
  end.

(** The label of the date column [merge] finds among [cols]. *)
Definition date_label (cols : list string) : option string :=
  if decide ("Date" ∈ cols) then Some "Date"
  else if decide ("Date / Version" ∈ cols) then Some "Date / Version"
  else None.

(** The rows of a table without their index labels, and the labels. *)
Definition contents (d : DataFrame) : list Row := (rows d).*2.
Definition index (d : DataFrame) : list Z := (rows d).*1.

(** One of the two labels a date column goes by is a column of [d]. *)
Definition has_date_column (d : DataFrame) : Prop :=
  "Date" ∈ columns d ∨ "Date / Version" ∈ columns d.

(** [R] is [A] followed by [B], reindexed: the columns of both, every row
    of [A] and then every row of [B] laid out over them, index labels
    0, 1, 2, ... *)
Definition is_concatenation (A B R : DataFrame) : Prop :=
  columns R = columns A ++ list_difference (columns B) (columns A)
  ∧ contents R
    = (reindex (columns R) <$> contents A) ++ (reindex (columns R) <$> contents B)
  ∧ index R = Z.of_nat <$> seq 0 (length (rows A) + length (rows B))
  ∧ frame_len R = frame_len A + frame_len B
  ∧ (wf_frame A → wf_frame B → (∀ c, c ∈ columns A ↔ c ∈ columns B) →
     contents R = contents A ++ contents B).

(** C2 as the specification words it: with no date column,
    [ALL_BUT_DATE] makes [merge] raise. *)
Definition missing_date_column_is_fatal : Prop :=
  ∀ w df1 df2 A B,
    heap w !! df1 = Some A → heap w !! df2 = Some B →
    ¬ has_date_column A → ¬ has_date_column B →
    ∃ w' e, merge df1 df2 ALL_BUT_DATE w = (w', Raise e).

(** [d'] is [d] with the column [Stub] set, row by row, to whether [LoC]
    is at most 1: the label is added as the last column unless it is one
    already, and nothing else of the table differs. *)
Definition stub_column_set (d d' : DataFrame) : Prop :=
  columns d' = (if decide ("Stub" ∈ columns d) then columns d
                else columns d ++ ["Stub"])
  ∧ Forall2 (λ ir ir' : Z * Row,
               ir'.1 = ir.1
               ∧ ∃ b, le_cell 1 (cell "LoC" ir.2) = Ok b
                      ∧ ir'.2 = <["Stub" := VBool b]> ir.2)
            (rows d) (rows d').

(** C7 as the specification words it: whatever the policy,
    a table handed to [merge] is the same table afterwards. *)
Definition merge_never_mutates : Prop :=
  ∀ w df1 df2 p w' r A,
    merge df1 df2 p w = (w', r) →
    (heap w !! df1 = Some A → heap w' !! df1 = Some A)
    ∧ (heap w !! df2 = Some A → heap w' !! df2 = Some A).

(** The cells two rows are compared on (the table of policies), as
    [drop_duplicates] compares them: file and element; these and whether
    [LoC] is at most 1; every column but the date column; nothing.  A row
    has the key of the first two policies only in a table with the
    columns the key is read from. *)
Definition duplicate_key (p : GroupBy) (cols : list string) (r : Row)
    : option (list hashed) :=
  match p with
  | FILE_FUNCTION =>
      if decide ("Source File" ∈ cols ∧ "Element" ∈ cols)
      then Some [hash_cell (cell "Source File" r); hash_cell (cell "Element" r)]
      else None
  | FILE_FUNCTION_STUB =>
      if decide ("Source File" ∈ cols ∧ "Element" ∈ cols ∧ "LoC" ∈ cols) then
        match le_cell 1 (cell "LoC" r) with
        | Ok b => Some [hash_cell (cell "Source File" r);
                        hash_cell (cell "Element" r); hash_cell (VBool b)]
        | Raise _ => None
        end
      else None
  | ALL_BUT_DATE =>
      Some (key_of (list_difference cols (option_list (date_label cols))) r)
  | DONT_DROP_DUPLICATES => None
  end.

(** No two rows of [R] have the same duplicate key. *)
Definition no_duplicate_keys (p : GroupBy) (R : DataFrame) : Prop :=
  ∀ i j ri rj k,
    i ≠ j → contents R !! i = Some ri → contents R !! j = Some rj →
    duplicate_key p (columns R) ri = Some k →
    duplicate_key p (columns R) rj ≠ Some k.

(** The rows of [l] in their order, a row left out when an earlier row
    has its key; a row without a key stays. *)
Fixpoint first_rows {K} `{EqDecision K} (key : Row → option K) (seen : list K)
    (l : list Row) : list Row :=
  match l with
  | [] => []
  | r :: l =>
      match key r with
      | Some k =>
          if decide (k ∈ seen) then first_rows key seen l
          else r :: first_rows key (k :: seen) l
      | None => r :: first_rows key seen l
      end
  end.

(** [R] is [A] followed by [B] with, of every duplicate key, only the
    first row kept: the rows of [R] are rows of [A] and [B] in their
    order, laid out over the columns of [R]; with the policy that has no
    key nothing is removed; the rows of [R] with a given key are exactly
    one row, the first of [A] with that key if [A] has one, else the
    first of [B]; and the rows of [R] are the rows of [A], then those of
    [B], each one left out that comes after a row with its key. *)
Definition keeps_first (p : GroupBy) (A B R : DataFrame) : Prop :=
  let lay := reindex (columns R) in
  let key := duplicate_key p (columns R) in
  (∀ c, c ∈ columns R ↔
        (c ∈ columns A ∨ c ∈ columns B)
        ∧ (p = FILE_FUNCTION_STUB → c ≠ "Stub"))
  ∧ contents R `sublist_of` (lay <$> contents A) ++ (lay <$> contents B)
  ∧ (p = DONT_DROP_DUPLICATES →
     contents R = (lay <$> contents A) ++ (lay <$> contents B))
  ∧ (∀ k, filter (λ r, key r = Some k) (contents R)
          = option_list
              (match first_with key (Some k) (lay <$> contents A) with
               | Some r => Some r
               | None => first_with key (Some k) (lay <$> contents B)
               end))
  ∧ contents R
    = first_rows key [] ((lay <$> contents A) ++ (lay <$> contents B)).


(** C3 as the specification words it: under a policy that
    has a key, no two rows of the table [merge] returns share their key. *)
Definition merge_never_leaves_duplicates : Prop :=
  ∀ w df1 df2 p w' n R,
    p ≠ DONT_DROP_DUPLICATES →
    merge df1 df2 p w = (w', Ok n) → heap w' !! n = Some R →
    no_duplicate_keys p R.

(** The date a cell of the [Date] column is compared by: the date part of
    the timestamp read, the time of day and the offset left out; none
    where the reading gives the missing timestamp. *)
Definition date_of_cell (v : value) : option Date :=
  match to_datetime_cell v with
  | Ok (Some t) => Some (ts_date t)
  | _ => None
  end.

(** Whether a row is dated on [date] or before it. *)
Definition on_or_before (date : Date) (r : Row) : bool :=
  match date_of_cell (cell "Date" r) with
  | Some d => date_le d date
  | None => false
  end.

(** [R] is [d] cut at [date]: the rows of [d] dated on [date] or before
    it, in their order and under their index labels, every date cell of
    [d] having been read (a row without a date is not among them); the
    columns of [d]; no [DateObject] column. *)
Definition is_cut_at (date : Date) (d R : DataFrame) : Prop :=
  Forall (λ ir : Z * Row, ∃ o, to_datetime_cell (cell "Date" ir.2) = Ok o)
    (rows d)
  ∧ columns R = filter (λ c, c ≠ "DateObject") (columns d)
  ∧ rows R = (λ ir : Z * Row, (ir.1, delete "DateObject" ir.2))
               <$> List.filter (λ ir : Z * Row, on_or_before date ir.2) (rows d).

(** C4 as the specification words it: whatever the time of day and the
    offset of the dates, the bound returns the rows dated on it or
    before it. *)
Definition date_bound_ignores_offset : Prop :=
  ∀ w r d lastDate date,
    heap w !! r = Some d → strptime_dmY lastDate = Ok date →
    "Date" ∈ columns d →
    Forall (λ ir : Z * Row,
              ∃ t, to_datetime_cell (cell "Date" ir.2) = Ok (Some t))
      (rows d) →
    ∃ w' n R,
      mergeErrorReports_lastDate (Some r) lastDate w = (w', Ok (Some n))
      ∧ heap w' !! n = Some R ∧ is_cut_at date d R.

(** Whether the manifest entry [file] matches a row with the cell
    [sourceFile]: an entry ending in [.c] or [.h] only the very same
    path, any other entry every path it is a prefix of. *)
Definition entry_matches (file : string) (sourceFile : value) : bool :=
  if endswith ".c" file || endswith ".h" file then
    bool_decide (sourceFile = VStr file)
  else
    match sourceFile with
    | VStr s => String.prefix file s
    | _ => false
    end.

(** The rows of the manifest that count: all of them, or those whose
    flag is among [modifiedFlags]. *)
Definition manifest_rows (diff : DataFrame) (modifiedFlags : option (list string))
    : list (Z * Row) :=
  match modifiedFlags with
  | Some flags => List.filter (λ ir : Z * Row, isin flags (cell "Modified" ir.2)) (rows diff)
  | None => rows diff
  end.

(** Whether some entry of [files] matches the row. *)
Definition matched (files : list string) (r : Row) : bool :=
  existsb (λ file, entry_matches file (cell "Source File" r)) files.

(** [R] is [T] filtered by the entries [files]: the rows of [T] that some
    entry matches, in their order and under their index labels; the
    columns of [T]; no [Edited] column. *)
Definition is_diff_filtered (files : list string) (T R : DataFrame) : Prop :=
  columns R = filter (λ c, c ≠ "Edited") (columns T)
  ∧ rows R = (λ ir : Z * Row, (ir.1, delete "Edited" ir.2))
               <$> List.filter (λ ir : Z * Row, matched files ir.2) (rows T).

(** The same as a statement on the rows: an entry ending in [.c] or
    [.h] matches the row whose source file is that very path, any other
    entry the rows whose source file is a text that begins with it; a row
    is in [R] exactly when it is a row of [T], its [Edited] cell left
    out, that an entry of [files] matches. *)
Definition matches (file : string) (r : Row) : Prop :=
  if endswith ".c" file || endswith ".h" file
  then cell "Source File" r = VStr file
  else ∃ s, cell "Source File" r = VStr s ∧ String.prefix file s = true.

Definition retains_matched (files : list string) (T R : DataFrame) : Prop :=
  ∀ x, x ∈ rows R
       ↔ ∃ ir, ir ∈ rows T
               ∧ x = (ir.1, delete "Edited" ir.2)
               ∧ ∃ file, file ∈ files ∧ matches file ir.2.

(** The table in the store while the loop runs: [T] with the column
    [Edited] telling which rows the entries seen so far matched. *)
Definition marked (T : DataFrame) (files : list string) : DataFrame :=
  {| columns := if decide ("Edited" ∈ columns T) then columns T
                else columns T ++ ["Edited"];
     rows := (λ ir : Z * Row,
                (ir.1, <["Edited" := VBool (matched files ir.2)]> ir.2))
               <$> rows T |}.

(** A table whose [LoC] column can be compared with 1: the column is
    there and no cell of it is a text or a timestamp. *)
Definition has_lines_of_code (d : DataFrame) : Prop :=
  "LoC" ∈ columns d
  ∧ Forall (λ ir : Z * Row, ∃ b, le_cell 1 (cell "LoC" ir.2) = Ok b) (rows d).

(** What a policy needs of two tables for [merge] to return: the columns
    of its key among the columns of the two; under [ALL_BUT_DATE] with a
    date column, one column more than that one. *)
Definition can_merge (p : GroupBy) (A B : DataFrame) : Prop :=
  match p with
  | FILE_FUNCTION =>
      "Source File" ∈ concat_columns A B ∧ "Element" ∈ concat_columns A B
  | FILE_FUNCTION_STUB =>
      "Source File" ∈ concat_columns A B ∧ "Element" ∈ concat_columns A B
      ∧ has_lines_of_code A ∧ has_lines_of_code B
  | ALL_BUT_DATE =>
      ∀ c, date_label (concat_columns A B) = Some c →
           ∃ c', c' ∈ concat_columns A B ∧ c' ≠ c
  | DONT_DROP_DUPLICATES => True
  end.

(** A row whose date is read, as a timestamp with the offset [off] or as
    the missing timestamp. *)
Definition date_read (off : option Z) (r : Row) : Prop :=
  ∃ o, to_datetime_cell (cell "Date" r) = Ok o
       ∧ ∀ t, o = Some t → ts_utcoffset t = off.

(** A table whose [Date] column the date bound can read: the column is
    there, every cell of it is read, and the timestamps read all have
    the same offset [off]. *)
Definition dates_readable (d : DataFrame) : Prop :=
  "Date" ∈ columns d
  ∧ ∃ off, Forall (λ ir : Z * Row, date_read off ir.2) (rows d).

(** A table and a manifest the diff filter goes through on: the source
    files of the table are texts, the manifest has the columns read, and
    the paths of the entries that count are texts. *)
Definition can_filter (T diff : DataFrame) (modifiedFlags : option (list string))
    : Prop :=
  "Source File" ∈ columns T
  ∧ Forall (λ ir : Z * Row, ∃ s, cell "Source File" ir.2 = VStr s) (rows T)
  ∧ "File" ∈ columns diff
  ∧ (is_Some modifiedFlags → "Modified" ∈ columns diff)
  ∧ Forall (λ ir : Z * Row, ∃ file, cell "File" ir.2 = VStr file)
      (manifest_rows diff modifiedFlags).


Global Instance exn_eq_dec : EqDecision exn.
Proof. solve_decision. Defined.
Global Instance res_eq_dec {A} `{EqDecision A} : EqDecision (res A).
Proof. solve_decision. Defined.

(** The periods [mergeErrorReports] visits, in the order of its two
    loops, and the directory and the workbook of a period. *)
Definition periods (years : list string) : list (string * string) :=
  y ← years; m ← MONTHS; [(y, m)].

Definition folder (baseFolder : string) (ym : string * string) : string :=
  baseFolder +:+ "/" +:+ (ym.1 +:+ "-" +:+ ym.2).

Definition workbook (baseFolder : string) (ym : string * string) : string :=
  baseFolder +:+ "/" +:+ (ym.1 +:+ "-" +:+ ym.2) +:+ "/"
    +:+ (ym.1 +:+ "-" +:+ ym.2) +:+ ".xlsx".

(** The line printed for a period without a directory. *)
Definition missing (baseFolder : string) (ym : string * string) : string :=
  folder baseFolder ym +:+ " doesn't exist".

(** The reports of the periods [l] that have a directory, in order. *)
Definition reports (fs : FileSystem) (baseFolder : string)
    (l : list (string * string)) : list DataFrame :=
  omap (λ ym, if isdir fs (folder baseFolder ym)
              then excel_file fs (workbook baseFolder ym) else None) l.

(** The rows [l] made a table: index labels 0, 1, 2, ... *)
Definition table (cols : list string) (l : list Row) : DataFrame :=
  mkFrame cols (imap (λ i r, (Z.of_nat i, r)) l).

(** Of the rows [l] over the columns [cols], the first row of every
    duplicate key of the policy; every row under the policy without a
    key. *)
Definition first_of_each_key (p : GroupBy) (cols : list string) (l : list Row)
    : list Row :=
  if decide (p = DONT_DROP_DUPLICATES) then l
  else keep_first (duplicate_key p cols) [] l.

(** The columns a policy needs in tables that all have the columns
    [cols]. *)
Definition policy_columns (p : GroupBy) (cols : list string) : Prop :=
  match p with
  | FILE_FUNCTION => "Source File" ∈ cols ∧ "Element" ∈ cols
  | FILE_FUNCTION_STUB =>
      "Source File" ∈ cols ∧ "Element" ∈ cols ∧ "LoC" ∈ cols
  | ALL_BUT_DATE => ∃ c c', date_label cols = Some c ∧ c' ∈ cols ∧ c' ≠ c
  | DONT_DROP_DUPLICATES => True
  end.

(** One turn of the loops of [mergeErrorReports], for the period [ym]. *)
Definition visit (fs : FileSystem) (baseFolder : string) (mergeType : GroupBy)
    (result : option loc) (ym : string * string) : M (option loc) :=
  mergeErrorReports_period fs baseFolder mergeType result ym.1 ym.2.

(** The periods of [l] without a directory. *)
Definition absent (fs : FileSystem) (baseFolder : string)
    (l : list (string * string)) : list (string * string) :=
  List.filter (λ ym, negb (isdir fs (folder baseFolder ym))) l.

(** The file [loadBaseline] reads. *)
Definition baseline_path (baseline : string) : string :=
  PATH_TO_BASELINES +:+ "/linux-" +:+ baseline +:+ "/linux-" +:+ baseline
    +:+ ".csv".

(** The table [loadBaseline] makes of the table [d] of the file. *)
Definition baseline_table (baseline : string) (d : DataFrame) : DataFrame :=
  mkFrame ("Date / Version" :: take 2 (columns d) ++ "Error" :: drop 2 (columns d))
    ((λ ir : Z * Row,
        (ir.1, <["Error" := VInt 0]> (<["Date / Version" := VStr baseline]> ir.2)))
       <$> rows d).

(** A run that does not return. *)
Definition fails {A} (o : outcome A) : Prop :=
  match o with
  | Returns _ => False
  | _ => True
  end.

(** The line [printStatus] prints. *)
Definition status (text : string) : string :=
  ESC +:+ "[1;34m" +:+ text +:+ ESC +:+ "[0m".

(** A row with a text for its source file and a [LoC] cell that can be
    compared with 1. *)
Definition has_source_and_size (r : Row) : Prop :=
  (∃ s, cell "Source File" r = VStr s)
  ∧ (∃ b, le_cell 1 (cell "LoC" r) = Ok b).

(** The files as [createTrainingData] expects them.  The reports: there
    is one at least; they all have the same columns, among them the seven
    the script names and no [Date / Version] or [Error]; their dates are
    read, all with the same offset. *)
Definition expected_reports (fs : FileSystem) (years : list string) : Prop :=
  ∃ cols off,
    reports fs PATH_TO_COMPILATION_ERRORS (periods years) ≠ []
    ∧ Forall (λ ym,
                isdir fs (folder PATH_TO_COMPILATION_ERRORS ym) = true →
                ∃ d, excel_file fs (workbook PATH_TO_COMPILATION_ERRORS ym) = Some d
                     ∧ columns d = cols ∧ wf_frame d
                     ∧ Forall (λ ir : Z * Row,
                                 date_read off ir.2 ∧ has_source_and_size ir.2)
                         (rows d))
        (periods years)
    ∧ ["Date"; "Repository"; "Commit"; "Type"; "Source File"; "Element"; "LoC"]
      ⊆ cols
    ∧ ("Date / Version" ∉ cols) ∧ ("Error" ∉ cols).

(** The baseline: a table of two columns at least, with [LoC] and
    without [Date / Version] and [Error]. *)
Definition expected_baseline (fs : FileSystem) (baseline : string) : Prop :=
  ∃ b, csv_file fs (baseline_path baseline) = Some b
       ∧ (2 ≤ length (columns b))%nat
       ∧ ("Date / Version" ∉ columns b) ∧ ("Error" ∉ columns b)
       ∧ "LoC" ∈ columns b
       ∧ Forall (λ ir : Z * Row, has_source_and_size ir.2) (rows b).

(** The manifest: a [File] column of texts, and a [Modified] column when
    flags are given. *)
Definition expected_manifest (fs : FileSystem) (pathToDiff : string)
    (modifiedFlags : option (list string)) : Prop :=
  ∃ diff, csv_file fs pathToDiff = Some diff
          ∧ "File" ∈ columns diff
          ∧ (is_Some modifiedFlags → "Modified" ∈ columns diff)
          ∧ Forall (λ ir : Z * Row, ∃ file, cell "File" ir.2 = VStr file)
              (manifest_rows diff modifiedFlags).

(** ** Running the monad *)

Lemma bind_ok {A B} (m : M A) (k : A → M B) w w' a :
  m w = (w', Ok a) → bind m k w = k a w'.
Proof. unfold bind. by intros ->. Qed.

Lemma bind_raise {A B} (m : M A) (k : A → M B) w w' e :
  m w = (w', Raise e) → bind m k w = (w', Raise e).
Proof. unfold bind. by intros ->. Qed.

Lemma deref_ok l d w : heap w !! l = Some d → deref l w = (w, Ok d).
Proof. unfold deref. by intros ->. Qed.

Lemma update_ok l f d w :
  heap w !! l = Some d →
  update l f w = (mkWorld (<[l := f d]> (heap w)) (stdout w), Ok tt).
Proof. unfold update. by intros ->. Qed.

(** Stepping through a run: the next action reads, or updates, a frame
    known to be in the store. *)
Ltac run_deref H := rewrite (bind_ok _ _ _ _ _ (deref_ok _ _ _ H)).
Ltac run_update H := rewrite (bind_ok _ _ _ _ _ (update_ok _ _ _ _ H)).

(** ** Strings and dates *)

(** [endswith] holds of the strings that are something followed by the
    suffix. *)
Lemma endswith_spec suffix s :
  endswith suffix s = true ↔ ∃ pre, s = pre +:+ suffix.
Proof.
  induction s as [|a s IH]; simpl.
  - case_decide as Hs.
    + split; [|done]. intros _. exists "". by subst.
    + split; [done|]. intros [[|b pre] Hpre]; simpl in Hpre; [|done].
      by destruct Hs.
  - case_decide as Hs.
    + split; [|done]. intros _. exists "". by subst.
    + rewrite IH. split.
      * intros [pre ->]. by exists (String a pre).
      * intros [[|b pre] Hpre]; simpl in Hpre; [by destruct Hs|].
        injection Hpre as <- ->. by exists pre.
Qed.

(** [String.prefix] holds of the strings that begin with the prefix. *)
Lemma prefix_spec pre s :
  String.prefix pre s = true ↔ ∃ rest, s = pre +:+ rest.
Proof.
  revert s. induction pre as [|a pre IH]; intros s.
  - split; [|by destruct s]. intros _. by exists s.
  - assert (∀ rest, String a pre +:+ rest = String a (pre +:+ rest)) as Happ
      by done.
    destruct s as [|b s]; simpl.
    + split; [done|]. intros [rest Hrest]. by rewrite Happ in Hrest.
    + destruct (Ascii.ascii_dec a b) as [<-|Hne].
      * rewrite IH. split.
        -- intros [rest ->]. by exists rest.
        -- intros [rest Hrest]. rewrite Happ in Hrest.
           injection Hrest as ->. by exists rest.
      * split; [done|]. intros [rest Hrest]. rewrite Happ in Hrest.
        injection Hrest as <- _. by destruct Hne.
Qed.

(** [date_le] is the order of the calendar: year, then month, then day. *)
Lemma date_le_spec d1 d2 :
  date_le d1 d2 = true
  ↔ year d1 < year d2
    ∨ (year d1 = year d2
       ∧ (month d1 < month d2 ∨ (month d1 = month d2 ∧ day d1 ≤ day d2))).
Proof.
  unfold date_le.
  rewrite !orb_true_iff, !andb_true_iff, !orb_true_iff, !andb_true_iff.
  rewrite !Z.ltb_lt, !Z.eqb_eq, Z.leb_le. done.
Qed.

(** A date the parsers return is a date of the calendar. *)
Lemma make_date_valid y m d date :
  make_date y m d = Ok date →
  date = mkDate y m d ∧ 1 ≤ y ≤ 9999 ∧ 1 ≤ m ≤ 12 ∧ 1 ≤ d ≤ days_in_month y m.
Proof.
  unfold make_date.
  destruct (_ && _) eqn:H; [|done]. intros [= <-].
  rewrite !andb_true_iff, !Z.leb_le in H. naive_solver.
Qed.

Example mail_date_ex :
  mail_date "Sun, 03 Nov 2013 23:59:59 +0100"
  = Some (mkTimestamp (mkDate 2013 11 3) 86399 (Some 60)).
Proof. vm_compute. reflexivity. Qed.

Example strptime_dmY_ex : strptime_dmY "03.11.2013" = Ok (mkDate 2013 11 3).
Proof. vm_compute. reflexivity. Qed.

Example strptime_dmY_short : strptime_dmY "3.11.2013" = Ok (mkDate 2013 11 3).
Proof. vm_compute. reflexivity. Qed.

Example strptime_dmY_iso : strptime_dmY "2013-11-03" = Raise ValueError.
Proof. vm_compute. reflexivity. Qed.

Example str_date_ex : str_date (mkDate 2013 11 3) = "2013-11-03".
Proof. vm_compute. reflexivity. Qed.

Example endswith_ex :
  endswith ".c" "src/net.c" = true ∧ endswith ".c" "src/net.cpp" = false
  ∧ endswith ".h" "src/drivers" = false.
Proof. vm_compute. done. Qed.

(** ** Columns and cells *)

Lemma mapR_length {A B} (f : A → res B) l bs :
  mapR f l = Ok bs → length bs = length l.
Proof.
  revert bs. induction l as [|a l IH]; intros bs; simpl.
  - by intros [= <-].
  - destruct (f a); [|done]. destruct (mapR f l); [|done].
    intros [= <-]. simpl. f_equal. by apply IH.
Qed.

Lemma mapR_ok {A B} (f : A → res B) l :
  Forall (λ a, ∃ b, f a = Ok b) l → ∃ bs, mapR f l = Ok bs.
Proof.
  induction 1 as [|a l [b Hb] _ [bs Hbs]]; simpl; [by eexists|].
  rewrite Hb, Hbs. by eexists.
Qed.

Lemma cell_insert c c' v r :
  cell c (<[c' := v]> r) = if decide (c' = c) then v else cell c r.
Proof. unfold cell. rewrite lookup_insert. by case_decide. Qed.

Lemma cell_delete_ne c c' r : c' ≠ c → cell c (delete c' r) = cell c r.
Proof. intros. unfold cell. by rewrite lookup_delete_ne. Qed.

Lemma reindex_lookup cols r c :
  reindex cols r !! c = if decide (c ∈ cols) then Some (cell c r) else None.
Proof.
  unfold reindex. induction cols as [|c' cols IH]; csimpl.
  - apply lookup_empty.
  - rewrite lookup_insert. destruct (decide (c' = c)) as [->|].
    + clear IH. case_decide; [done|set_solver].
    + rewrite IH. clear IH. do 2 case_decide; set_solver.
Qed.

Lemma cell_reindex cols r c : c ∈ cols → cell c (reindex cols r) = cell c r.
Proof. intros. unfold cell at 1. rewrite reindex_lookup. by rewrite decide_True. Qed.

Lemma key_of_reindex cols subset r :
  subset ⊆ cols → key_of subset (reindex cols r) = key_of subset r.
Proof.
  intros Hs. unfold key_of. apply list_fmap_ext.
  intros i c Hc. f_equal. apply cell_reindex, Hs. by eapply list_elem_of_lookup_2.
Qed.

(** A row that has a cell for exactly the columns [cols] is laid out over
    [cols] already. *)
Lemma reindex_id cols (r : Row) :
  (∀ c, is_Some (r !! c) ↔ c ∈ cols) → reindex cols r = r.
Proof.
  intros Hr. apply map_eq. intros c. rewrite reindex_lookup.
  case_decide as Hc.
  - apply Hr in Hc as [v Hv]. unfold cell. by rewrite Hv.
  - symmetry. apply eq_None_not_Some. by rewrite Hr.
Qed.

(** ** Keeping the first row of every key *)

Section KeepFirst.
Context {A K : Type} `{EqDecision K}.

Implicit Types (kf : A → K) (k : K) (seen : list K) (l : list A).

Lemma first_with_app kf k l1 l2 :
  first_with kf k (l1 ++ l2)
  = match first_with kf k l1 with
    | Some x => Some x
    | None => first_with kf k l2
    end.
Proof.
  unfold first_with. induction l1 as [|x l1 IH]; simpl; [done|].
  by destruct (bool_decide (kf x = k)).
Qed.

Lemma keep_first_sublist kf seen l : keep_first kf seen l `sublist_of` l.
Proof.
  revert seen. induction l as [|x l IH]; intros seen; simpl; [done|].
  case_decide.
  - by apply sublist_cons.
  - by apply sublist_skip.
Qed.

Lemma keep_first_unseen kf seen l x :
  x ∈ keep_first kf seen l → kf x ∉ seen.
Proof.
  revert seen. induction l as [|y l IH]; intros seen; simpl.
  - by intros ?%elem_of_nil.
  - case_decide as Hy.
    + intros Hx%IH. set_solver.
    + intros [->|Hx%IH]%elem_of_cons; set_solver.
Qed.

Lemma keep_first_NoDup kf seen l : NoDup (kf <$> keep_first kf seen l).
Proof.
  revert seen. induction l as [|y l IH]; intros seen; simpl.
  - constructor.
  - case_decide; [done|]. csimpl. constructor; [|done].
    intros (x & Hk & Hx%keep_first_unseen)%list_elem_of_fmap.
    set_solver.
Qed.

(** Of every key the kept rows hold the first row that has it, and only
    that one. *)
Lemma keep_first_filter kf seen l k :
  filter (λ x, kf x = k) (keep_first kf seen l)
  = if decide (k ∈ seen) then []
    else option_list (first_with kf k l).
Proof.
  unfold first_with.
  revert seen. induction l as [|y l IH]; intros seen; simpl.
  - by case_decide.
  - destruct (decide (kf y ∈ seen)) as [Hy|Hy].
    + rewrite IH. destruct (decide (k ∈ seen)) as [Hk|Hk].
      * by rewrite decide_True by set_solver.
      * assert (kf y ≠ k) by set_solver.
        rewrite decide_False by set_solver.
        by rewrite bool_decide_eq_false_2.
    + rewrite filter_cons. destruct (decide (kf y = k)) as [<-|Hne].
      * rewrite IH, decide_True by set_solver.
        rewrite decide_False by done.
        by rewrite bool_decide_eq_true_2.
      * rewrite IH, bool_decide_eq_false_2 by done.
        destruct (decide (k ∈ seen)).
        -- by rewrite decide_True by set_solver.
        -- by rewrite decide_False by set_solver.
Qed.

(** Mapping the rows, with keys that correspond one to one. *)
Lemma keep_first_fmap {B K'} `{EqDecision K'} (f : A → B) (g : K → K')
    (kf : A → K) (kf' : B → K') seen l :
  Inj (=) (=) g →
  (∀ x, x ∈ l → kf' (f x) = g (kf x)) →
  f <$> keep_first kf seen l = keep_first kf' (g <$> seen) (f <$> l).
Proof.
  intros Hg. revert seen.
  induction l as [|y l IH]; intros seen Hk; csimpl; [done|].
  rewrite (Hk y) by set_solver.
  destruct (decide (kf y ∈ seen)) as [Hy|Hy].
  - rewrite decide_True by by apply list_elem_of_fmap_2.
    rewrite IH by set_solver. done.
  - rewrite decide_False by by rewrite (list_elem_of_fmap_inj g).
    csimpl. rewrite IH by set_solver. done.
Qed.
End KeepFirst.

Lemma first_rows_keep_first {K} `{EqDecision K} (key : Row → option K)
    seen seen' l :
  (∀ k, Some k ∈ seen' ↔ k ∈ seen) →
  (∀ r, r ∈ l → is_Some (key r)) →
  first_rows key seen l = keep_first key seen' l.
Proof.
  revert seen seen'.
  induction l as [|r l IH]; intros seen seen' Hseen Hl; simpl; [done|].
  destruct (Hl r) as [k Hk]; [set_solver|]. rewrite Hk.
  destruct (decide (k ∈ seen)) as [Hin|Hin].
  - rewrite decide_True by by apply Hseen.
    apply IH; [|set_solver]. intros k'. rewrite elem_of_cons, Hseen.
    naive_solver.
  - rewrite decide_False by by rewrite Hseen.
    f_equal. apply IH; [|set_solver]. intros k'.
    rewrite !elem_of_cons, Hseen. naive_solver.
Qed.

Lemma first_rows_Some {K} `{EqDecision K} (key : Row → option K) l :
  (∀ r, r ∈ l → is_Some (key r)) →
  first_rows key [] l = keep_first key [] l.
Proof. apply first_rows_keep_first. intros k. set_solver. Qed.

Lemma first_rows_None {K} `{EqDecision K} (key : Row → option K) seen l :
  (∀ r, r ∈ l → key r = None) → first_rows key seen l = l.
Proof.
  induction l as [|r l IH]; intros Hl; simpl; [done|].
  rewrite (Hl r) by set_solver. f_equal. apply IH. set_solver.
Qed.

Lemma drop_duplicates_keep_first subset seen l :
  boolean_mask l (negb <$> duplicated_from subset seen l)
  = keep_first (λ ir : Z * Row, key_of subset ir.2) seen l.
Proof.
  revert seen. induction l as [|ir l IH]; intros seen; simpl; [done|].
  rewrite IH. case_decide.
  - by rewrite bool_decide_eq_true_2.
  - by rewrite bool_decide_eq_false_2.
Qed.

Lemma drop_duplicates_inv subset d d' :
  drop_duplicates subset d = Ok d' →
  (empty d = true ∧ d' = d)
  ∨ (subset ≠ [] ∧ subset ⊆ columns d
     ∧ d' = mkFrame (columns d)
              (keep_first (λ ir : Z * Row, key_of subset ir.2) [] (rows d))).
Proof.
  unfold drop_duplicates. destruct (empty d); [intros [= <-]; by left|].
  destruct (List.find _ subset) as [c|] eqn:Hf; [done|].
  destruct subset as [|c subset]; [done|]. intros [= <-]. right.
  split; [done|]. split.
  - intros x Hx%list_elem_of_In.
    eapply find_none in Hf; [|done].
    apply bool_decide_eq_false in Hf. by apply dec_stable in Hf.
  - unfold duplicated. by rewrite drop_duplicates_keep_first.
Qed.

(** ** What merge does, policy by policy *)

Lemma add_stub_run df d w :
  heap w !! df = Some d →
  add_stub df w
  = match stubbed d with
    | Ok d' => (mkWorld (<[df := d']> (heap w)) (stdout w), Ok tt)
    | Raise e => (w, Raise e)
    end.
Proof.
  intros Hd. unfold add_stub, stubbed.
  run_deref Hd.
  unfold bind at 1, lift. destruct (column_le "LoC" 1 d); [|done].
  by rewrite (update_ok _ _ _ _ Hd).
Qed.

Lemma column_le_length c n d s :
  column_le c n d = Ok s → length s = length (rows d).
Proof.
  unfold column_le, getitem. case_decide; [|done].
  destruct (mapR _ _) as [bs|] eqn:Hbs; [|done]. intros [= <-].
  apply mapR_length in Hbs. by rewrite !length_fmap in *.
Qed.

Lemma setitem_cells c c' (vs : list value) (l : list (Z * Row)) :
  c' ≠ c → (length l ≤ length vs)%nat →
  (λ ir : Z * Row, cell c ir.2)
    <$> zip_with (λ (ir : Z * Row) v, (ir.1, <[c' := v]> ir.2)) l vs
  = (λ ir : Z * Row, cell c ir.2) <$> l.
Proof.
  intros Hne. revert vs. induction l as [|ir l IH]; intros [|v vs] Hlen;
    simpl in *; try done; try lia.
  rewrite cell_insert, decide_False by done. f_equal. apply IH. lia.
Qed.

Lemma setitem_twice c (vs : list value) (l : list (Z * Row)) :
  zip_with (λ (ir : Z * Row) v, (ir.1, <[c := v]> ir.2))
    (zip_with (λ (ir : Z * Row) v, (ir.1, <[c := v]> ir.2)) l vs) vs
  = zip_with (λ (ir : Z * Row) v, (ir.1, <[c := v]> ir.2)) l vs.
Proof.
  revert vs. induction l as [|ir l IH]; intros [|v vs]; simpl; try done.
  by rewrite insert_insert_eq, IH.
Qed.

Lemma setitem_columns_elem c c' vs d :
  c ∈ columns (setitem c' vs d) ↔ c = c' ∨ c ∈ columns d.
Proof. unfold setitem. simpl. case_decide; set_solver. Qed.

(** Setting the stub column a second time changes nothing. *)
Lemma stubbed_idem d d' : stubbed d = Ok d' → stubbed d' = Ok d'.
Proof.
  unfold stubbed. destruct (column_le "LoC" 1 d) as [s|] eqn:Hs; [|done].
  intros [= <-]. pose proof (column_le_length _ _ _ _ Hs) as Hlen.
  assert (column_le "LoC" 1 (setitem "Stub" s d) = Ok s) as ->.
  { revert Hs. unfold column_le, getitem.
    destruct (decide ("LoC" ∈ columns d)) as [Hc|]; [|done].
    rewrite decide_True by (apply setitem_columns_elem; by right).
    simpl. by rewrite setitem_cells by (done || lia). }
  f_equal. unfold setitem. simpl. f_equal.
  - rewrite decide_True; [done|]. case_decide; set_solver.
  - apply setitem_twice.
Qed.

Lemma merge_FILE_FUNCTION w df1 df2 d1 d2 :
  heap w !! df1 = Some d1 → heap w !! df2 = Some d2 →
  merge df1 df2 FILE_FUNCTION w
  = finish w (heap w)
      (drop_duplicates ["Source File"; "Element"] (pd_concat d1 d2)).
Proof.
  intros H1 H2. unfold merge. simpl.
  unfold bind at 1, ret. run_deref H1.
  run_deref H2.
  unfold bind, lift, new, finish.
  destruct w, (drop_duplicates _ _); done.
Qed.

Lemma merge_DONT_DROP_DUPLICATES w df1 df2 d1 d2 :
  heap w !! df1 = Some d1 → heap w !! df2 = Some d2 →
  merge df1 df2 DONT_DROP_DUPLICATES w
  = finish w (heap w) (Ok (pd_concat d1 d2)).
Proof.
  intros H1 H2. unfold merge. simpl.
  unfold bind at 1, ret. run_deref H1.
  by run_deref H2.
Qed.

Lemma merge_ALL_BUT_DATE w df1 df2 d1 d2 :
  heap w !! df1 = Some d1 → heap w !! df2 = Some d2 →
  merge df1 df2 ALL_BUT_DATE w
  = match date_label (concat_columns d1 d2) with
    | Some c =>
        finish w (heap w)
          (drop_duplicates (list_difference (concat_columns d1 d2) [c])
             (pd_concat d1 d2))
    | None =>
        (mkWorld (heap w ++ [reset_index (pd_concat d1 d2)])
           (stdout w ++ ["Error: Date column not found"]),
         Ok (length (heap w)))
    end.
Proof.
  intros H1 H2. unfold merge, date_label. simpl.
  unfold bind at 1, ret. run_deref H1.
  run_deref H2.
  unfold bind, lift, new, finish, print.
  destruct w. simpl. repeat case_decide; try done;
    by destruct (drop_duplicates _ _).
Qed.

Lemma merge_FILE_FUNCTION_STUB w df1 df2 d1 d2 d1' d2' :
  heap w !! df1 = Some d1 → heap w !! df2 = Some d2 →
  stubbed d1 = Ok d1' → stubbed d2 = Ok d2' →
  merge df1 df2 FILE_FUNCTION_STUB w
  = finish w (<[df2 := d2']> (<[df1 := d1']> (heap w)))
      (match drop_duplicates ["Source File"; "Element"; "Stub"]
               (pd_concat d1' d2') with
       | Ok r => drop_column "Stub" r
       | Raise e => Raise e
       end).
Proof.
  intros H1 H2 S1 S2. unfold merge. simpl.
  assert (df1 < length (heap w))%nat as L1 by by eapply lookup_lt_Some.
  assert (df2 < length (heap w))%nat as L2 by by eapply lookup_lt_Some.
  set (w1 := mkWorld (<[df1 := d1']> (heap w)) (stdout w)).
  set (w2 := mkWorld (<[df2 := d2']> (<[df1 := d1']> (heap w))) (stdout w)).
  assert (∃ d, heap w1 !! df2 = Some d ∧ stubbed d = Ok d2') as (d & Hd & Sd).
  { simpl. destruct (decide (df1 = df2)) as [<-|Hne].
    - exists d1'. rewrite list_lookup_insert_eq by done.
      assert (d1 = d2) as -> by congruence.
      assert (d1' = d2') as -> by congruence.
      split; [done|]. by eapply stubbed_idem.
    - exists d2. by rewrite list_lookup_insert_ne. }
  assert ((let* _ := add_stub df1 in add_stub df2) w = (w2, Ok tt)) as Hstub.
  { rewrite (bind_ok _ _ w w1 tt) by by rewrite (add_stub_run _ _ _ H1), S1.
    by rewrite (add_stub_run _ _ _ Hd), Sd. }
  rewrite (bind_ok _ _ _ _ _ Hstub).
  assert (heap w2 !! df1 = Some d1') as H1'.
  { simpl. destruct (decide (df1 = df2)) as [<-|Hne].
    - rewrite list_lookup_insert_eq by by rewrite length_insert.
      assert (d1 = d2) as Heq by congruence. subst d2. congruence.
    - rewrite list_lookup_insert_ne by done.
      by rewrite list_lookup_insert_eq. }
  assert (heap w2 !! df2 = Some d2') as H2'.
  { simpl. by rewrite list_lookup_insert_eq by by rewrite length_insert. }
  run_deref H1'.
  run_deref H2'.
  unfold bind, lift, ret, new, finish. simpl.
  destruct (drop_duplicates _ _); [|done].
  by destruct (drop_column _ _).
Qed.

(** ** The concatenation, and the missing date column *)

Lemma contents_reset_index d : contents (reset_index d) = contents d.
Proof.
  unfold contents, reset_index. simpl. generalize (rows d). intros l.
  apply list_eq. intros i. rewrite !list_lookup_fmap, list_lookup_imap.
  by destruct (l !! i).
Qed.

Lemma index_reset_index d :
  index (reset_index d) = Z.of_nat <$> seq 0 (length (rows d)).
Proof.
  unfold index, reset_index. simpl. generalize (rows d). intros l.
  apply list_eq. intros i. rewrite !list_lookup_fmap, list_lookup_imap.
  destruct (l !! i) eqn:Hi; simpl.
  - apply lookup_lt_Some in Hi. by rewrite lookup_seq_lt.
  - apply lookup_ge_None in Hi. by rewrite lookup_seq_ge.
Qed.

Lemma contents_pd_concat d1 d2 :
  contents (pd_concat d1 d2)
  = (reindex (concat_columns d1 d2) <$> contents d1)
    ++ (reindex (concat_columns d1 d2) <$> contents d2).
Proof.
  unfold contents, pd_concat. simpl. rewrite !fmap_app.
  f_equal; apply list_eq; intros i; rewrite !list_lookup_fmap;
    by destruct (_ !! i).
Qed.

Lemma wf_frame_reindex d cols :
  wf_frame d → (∀ c, c ∈ cols ↔ c ∈ columns d) →
  reindex cols <$> contents d = contents d.
Proof.
  intros Hwf Hc. unfold contents. rewrite <- (list_fmap_id (rows d).*2) at 2.
  apply list_fmap_ext. intros i r Hr. simpl.
  apply list_lookup_fmap_Some in Hr as (ir & -> & Hir).
  apply reindex_id. intros c. rewrite Hc.
  eapply Forall_lookup_1 in Hwf; [|done]. apply Hwf.
Qed.

Lemma reset_index_pd_concat A B :
  is_concatenation A B (reset_index (pd_concat A B)).
Proof.
  repeat split.
  - by rewrite contents_reset_index, contents_pd_concat.
  - rewrite index_reset_index. simpl. by rewrite length_fmap, length_app.
  - unfold frame_len. simpl.
    rewrite length_imap, length_fmap, length_app. lia.
  - intros HA HB Hc. rewrite contents_reset_index, contents_pd_concat.
    rewrite !wf_frame_reindex; try done.
    + intros c. unfold concat_columns. rewrite elem_of_app, list_elem_of_difference.
      rewrite <- Hc. naive_solver.
    + intros c. unfold concat_columns. rewrite elem_of_app, list_elem_of_difference.
      rewrite <- Hc. naive_solver.
Qed.

(** C8. Under [DONT_DROP_DUPLICATES], [merge] returns a new table that is
    the first table followed by the second, reindexed 0, 1, 2, ...; it
    has as many rows as the two tables together, and nothing else in the
    store changes. *)
Theorem merge_keep_all_duplicates w df1 df2 A B :
  heap w !! df1 = Some A → heap w !! df2 = Some B →
  ∃ R, merge df1 df2 DONT_DROP_DUPLICATES w
       = (mkWorld (heap w ++ [R]) (stdout w), Ok (length (heap w)))
       ∧ is_concatenation A B R.
Proof.
  intros H1 H2. exists (reset_index (pd_concat A B)). split.
  - by rewrite (merge_DONT_DROP_DUPLICATES _ _ _ _ _ H1 H2).
  - apply reset_index_pd_concat.
Qed.

Lemma merge_keep_all_duplicates_witness :
  ∃ R, merge 0%nat 1%nat DONT_DROP_DUPLICATES (mkWorld [stubA; stubB] [])
       = (mkWorld ([stubA; stubB] ++ [R]) [], Ok 2%nat)
       ∧ is_concatenation stubA stubB R.
Proof.
  apply (merge_keep_all_duplicates (mkWorld [stubA; stubB] []) 0%nat 1%nat);
    reflexivity.
Defined.

Lemma date_label_None A B :
  ¬ has_date_column A → ¬ has_date_column B →
  date_label (concat_columns A B) = None.
Proof.
  unfold has_date_column, date_label, concat_columns. intros HA HB.
  rewrite !decide_False; [done|..];
    rewrite elem_of_app, list_elem_of_difference; naive_solver.
Qed.

(** C2, counterexample: two tables without a date column are merged under
    [ALL_BUT_DATE] and a table is returned; so the statement, as worded,
    does not hold. *)
Lemma missing_date_column_not_fatal :
  (¬ has_date_column plainA
   ∧ ∃ w', merge 0%nat 1%nat ALL_BUT_DATE (mkWorld [plainA; plainA] [])
           = (w', Ok 2%nat))
  ∧ ¬ missing_date_column_is_fatal.
Proof.
  assert (¬ has_date_column plainA) as Hno
    by (unfold has_date_column; simpl; set_solver).
  split; [split; [done|]|].
  - eexists. vm_compute. reflexivity.
  - intros H.
    destruct (H (mkWorld [plainA; plainA] []) 0%nat 1%nat plainA plainA
                eq_refl eq_refl Hno Hno) as (w' & e & He).
    vm_compute in He. discriminate He.
Qed.

(** C2, as the code has it: with no date column under [ALL_BUT_DATE],
    [merge] prints [Error: Date column not found] and returns the two
    tables one after the other, reindexed, with no row removed. *)
Theorem merge_missing_date_column w df1 df2 A B :
  heap w !! df1 = Some A → heap w !! df2 = Some B →
  ¬ has_date_column A → ¬ has_date_column B →
  ∃ R, merge df1 df2 ALL_BUT_DATE w
       = (mkWorld (heap w ++ [R])
            (stdout w ++ ["Error: Date column not found"]),
          Ok (length (heap w)))
       ∧ is_concatenation A B R.
Proof.
  intros H1 H2 HA HB. exists (reset_index (pd_concat A B)). split.
  - rewrite (merge_ALL_BUT_DATE _ _ _ _ _ H1 H2).
    by rewrite date_label_None.
  - apply reset_index_pd_concat.
Qed.

Lemma merge_missing_date_column_witness :
  ∃ R, merge 0%nat 1%nat ALL_BUT_DATE (mkWorld [plainA; plainA] [])
       = (mkWorld ([plainA; plainA] ++ [R])
            ([] ++ ["Error: Date column not found"]), Ok 2%nat)
       ∧ is_concatenation plainA plainA R.
Proof.
  apply (merge_missing_date_column (mkWorld [plainA; plainA] []) 0%nat 1%nat);
    [reflexivity | reflexivity | | ];
    unfold has_date_column; simpl; set_solver.
Defined.

(** ** merge and the tables it is handed *)

Lemma stubbed_rows d d' :
  stubbed d = Ok d' → "LoC" ∈ columns d ∧ stub_column_set d d'.
Proof.
  unfold stubbed, column_le, getitem.
  destruct (decide ("LoC" ∈ columns d)) as [Hc|]; [|done].
  destruct (mapR _ _) as [bs|] eqn:Hbs; [|done]. intros [= <-].
  split; [done|]. split; [done|]. simpl.
  revert bs Hbs. generalize (rows d). intros l.
  induction l as [|ir l IH]; intros bs; simpl.
  - intros [= <-]. constructor.
  - destruct (le_cell 1 (cell "LoC" ir.2)) as [b|] eqn:Hb; [|done].
    destruct (mapR _ _) as [bs'|] eqn:Hbs'; [|done]. intros [= <-]. csimpl.
    constructor; [eauto|]. by apply IH.
Qed.

Lemma merge_FILE_FUNCTION_STUB_inv w df1 df2 d1 d2 w' n :
  heap w !! df1 = Some d1 → heap w !! df2 = Some d2 →
  merge df1 df2 FILE_FUNCTION_STUB w = (w', Ok n) →
  ∃ d1' d2', stubbed d1 = Ok d1' ∧ stubbed d2 = Ok d2'.
Proof.
  intros H1 H2. unfold merge. simpl.
  destruct (stubbed d1) as [d1'|e1] eqn:S1.
  - destruct (stubbed d2) as [d2'|e2] eqn:S2; [by eauto|].
    assert (df1 ≠ df2) as Hne by (intros <-; congruence).
    erewrite (bind_raise _ _ w); [done|].
    erewrite (bind_ok _ _ w) by by rewrite (add_stub_run _ _ _ H1), S1.
    rewrite (add_stub_run _ d2), S2; [done|].
    simpl. by rewrite list_lookup_insert_ne.
  - erewrite (bind_raise _ _ w); [done|].
    erewrite (bind_raise _ _ w); [done|].
    by rewrite (add_stub_run _ _ _ H1), S1.
Qed.

(** The other policies never write to the store they were given. *)
Lemma merge_other_policies w df1 df2 p w' r :
  p ≠ FILE_FUNCTION_STUB → merge df1 df2 p w = (w', r) →
  ∃ new, heap w' = heap w ++ new.
Proof.
  intros Hp. destruct (heap w !! df1) as [d1|] eqn:H1.
  - destruct (heap w !! df2) as [d2|] eqn:H2.
    + destruct p; [|done| |].
      * rewrite (merge_FILE_FUNCTION _ _ _ _ _ H1 H2). unfold finish.
        destruct (drop_duplicates _ _); intros [= <- _]; simpl;
          [by eexists|exists []; by rewrite app_nil_r].
      * rewrite (merge_ALL_BUT_DATE _ _ _ _ _ H1 H2). unfold finish.
        destruct (date_label _); [destruct (drop_duplicates _ _)|];
          intros [= <- _]; simpl;
          (by eexists) || (exists []; by rewrite app_nil_r).
      * rewrite (merge_DONT_DROP_DUPLICATES _ _ _ _ _ H1 H2). unfold finish.
        intros [= <- _]. simpl. by eexists.
    + unfold merge. rewrite decide_False by done.
      unfold bind at 1, ret.
      run_deref H1.
      unfold bind, deref. rewrite H2. intros [= <- _].
      exists []. by rewrite app_nil_r.
  - unfold merge. rewrite decide_False by done.
    unfold bind, ret, deref. rewrite H1. intros [= <- _].
    exists []. by rewrite app_nil_r.
Qed.

(** ** The first row of every duplicate key *)

(** What the three policies with a key have in common: the rows kept are
    chosen on the cells [subset] of the concatenation [X], and [f] is
    what happens to a kept row afterwards. *)
Lemma keep_first_rows (X : list (Z * Row)) (subset : list string)
    (f : Row → Row) (key : Row → option (list hashed)) :
  (∀ x, x ∈ X → key (f x.2) = Some (key_of subset x.2)) →
  let out := (λ ir : Z * Row, f ir.2)
               <$> keep_first (λ ir : Z * Row, key_of subset ir.2) [] X in
  let C := (λ ir : Z * Row, f ir.2) <$> X in
  out `sublist_of` C
  ∧ (∀ k, filter (λ r, key r = Some k) out
          = option_list (first_with key (Some k) C))
  ∧ NoDup (key <$> out)
  ∧ out = first_rows key [] C.
Proof.
  intros Hkey out C.
  assert (out = keep_first key [] C) as ->.
  { unfold out, C.
    by rewrite (keep_first_fmap (λ ir : Z * Row, f ir.2) Some
                  (λ ir : Z * Row, key_of subset ir.2) key [] X _ Hkey). }
  split; [apply keep_first_sublist|]. split; [|split; [apply keep_first_NoDup|]].
  - intros k. by rewrite keep_first_filter.
  - rewrite first_rows_Some; [done|].
    intros r (x & -> & Hx)%list_elem_of_fmap. simpl. by rewrite Hkey.
Qed.

Lemma NoDup_keys_distinct (key : Row → option (list hashed)) (l : list Row) :
  NoDup (key <$> l) →
  ∀ i j ri rj k, i ≠ j → l !! i = Some ri → l !! j = Some rj →
    key ri = Some k → key rj ≠ Some k.
Proof.
  intros Hnd i j ri rj k Hij Hi Hj Hki Hkj. apply Hij.
  eapply NoDup_lookup; [done| |]; rewrite list_lookup_fmap.
  - by rewrite Hi; simpl; rewrite Hki.
  - by rewrite Hj; simpl; rewrite Hkj.
Qed.

Lemma keeps_first_intro p A B R (X : list (Z * Row)) subset (f : Row → Row) :
  p ≠ DONT_DROP_DUPLICATES →
  (∀ c, c ∈ columns R ↔
        (c ∈ columns A ∨ c ∈ columns B)
        ∧ (p = FILE_FUNCTION_STUB → c ≠ "Stub")) →
  contents R = (λ ir : Z * Row, f ir.2)
                 <$> keep_first (λ ir : Z * Row, key_of subset ir.2) [] X →
  (λ ir : Z * Row, f ir.2) <$> X
  = (reindex (columns R) <$> contents A) ++ (reindex (columns R) <$> contents B) →
  (∀ x, x ∈ X →
        duplicate_key p (columns R) (f x.2) = Some (key_of subset x.2)) →
  keeps_first p A B R ∧ no_duplicate_keys p R.
Proof.
  intros Hp Hcols Hout HC Hkey.
  destruct (keep_first_rows X subset f _ Hkey) as (Hsub & Hfilter & Hnd & Heq).
  rewrite <- Hout, HC in *. split.
  - split; [done|]. split; [done|]. split; [done|]. split; [|done].
    intros k. by rewrite Hfilter, first_with_app.
  - unfold no_duplicate_keys. apply (NoDup_keys_distinct _ _ Hnd).
Qed.

Lemma first_with_None {A K} `{EqDecision K} (kf : A → K) (k : K) (l : list A) :
  (∀ x, x ∈ l → kf x ≠ k) → first_with kf k l = None.
Proof.
  unfold first_with. induction l as [|x l IH]; intros Hl; simpl; [done|].
  rewrite bool_decide_eq_false_2 by (apply Hl; set_solver).
  apply IH. intros y Hy. apply Hl. set_solver.
Qed.

Lemma filter_none {A} (P : A → Prop) `{∀ x, Decision (P x)} (l : list A) :
  (∀ x, x ∈ l → ¬ P x) → filter P l = [].
Proof.
  induction l as [|x l IH]; intros Hl; [done|].
  rewrite filter_cons_False by (apply Hl; set_solver).
  apply IH. intros y Hy. apply Hl. set_solver.
Qed.

(** Where no row has a key nothing is removed. *)
Lemma keeps_first_keyless p A B R :
  (∀ c, c ∈ columns R ↔
        (c ∈ columns A ∨ c ∈ columns B)
        ∧ (p = FILE_FUNCTION_STUB → c ≠ "Stub")) →
  contents R
  = (reindex (columns R) <$> contents A) ++ (reindex (columns R) <$> contents B) →
  (∀ r, r ∈ contents R → duplicate_key p (columns R) r = None) →
  keeps_first p A B R ∧ no_duplicate_keys p R.
Proof.
  intros Hcols HC Hnone. split.
  - split; [done|]. split; [by rewrite HC|]. split; [done|]. split.
    + intros k.
      rewrite filter_none by (intros r Hr; by rewrite (Hnone r Hr)).
      rewrite !first_with_None; [done|..]; intros r Hr;
        rewrite Hnone; [done| |done|]; rewrite HC; set_solver.
    + rewrite first_rows_None; [done|]. intros r Hr. apply Hnone.
      by rewrite HC.
  - intros i j ri rj k _ Hi _ Hk.
    rewrite Hnone in Hk; [done|]. by eapply list_elem_of_lookup_2.
Qed.

Lemma elem_of_concat_columns c d1 d2 :
  c ∈ concat_columns d1 d2 ↔ c ∈ columns d1 ∨ c ∈ columns d2.
Proof.
  unfold concat_columns. rewrite elem_of_app, list_elem_of_difference.
  destruct (decide (c ∈ columns d1)); naive_solver.
Qed.

Lemma date_label_Some A B :
  has_date_column A ∨ has_date_column B →
  ∃ c, date_label (concat_columns A B) = Some c.
Proof.
  unfold has_date_column, date_label. intros H.
  repeat case_decide; eauto.
  exfalso. rewrite !elem_of_concat_columns in *. naive_solver.
Qed.

Lemma lookup_new (h : list DataFrame) R : (h ++ [R]) !! length h = Some R.
Proof. by rewrite list_lookup_middle. Qed.

Lemma contents_keep_first_id subset (X : list (Z * Row)) cols :
  contents (reset_index (mkFrame cols
              (keep_first (λ ir : Z * Row, key_of subset ir.2) [] X)))
  = (λ ir : Z * Row, id ir.2)
      <$> keep_first (λ ir : Z * Row, key_of subset ir.2) [] X.
Proof. by rewrite contents_reset_index. Qed.

(** A row of a stubbed table, laid out in the concatenation and with the
    stub column dropped again, is the row it came from; its key is the
    one it was compared on. *)
Lemma stub_row_out cols (ir ir' : Z * Row) :
  "LoC" ∈ cols → "Stub" ∈ cols → "Source File" ∈ cols → "Element" ∈ cols →
  (ir'.1 = ir.1
   ∧ ∃ b, le_cell 1 (cell "LoC" ir.2) = Ok b
          ∧ ir'.2 = <["Stub" := VBool b]> ir.2) →
  delete "Stub" (reindex cols ir'.2)
  = reindex (filter (λ c, c ≠ "Stub") cols) ir.2
  ∧ duplicate_key FILE_FUNCTION_STUB (filter (λ c, c ≠ "Stub") cols)
      (delete "Stub" (reindex cols ir'.2))
    = Some (key_of ["Source File"; "Element"; "Stub"] (reindex cols ir'.2)).
Proof.
  intros HL HS HF HE (_ & b & Hb & Hr). split.
  - apply map_eq. intros c. rewrite lookup_delete, !reindex_lookup.
    rewrite Hr, cell_insert.
    destruct (decide ("Stub" = c)) as [<-|Hne].
    + rewrite decide_False; [done|].
      rewrite list_elem_of_filter. naive_solver.
    + destruct (decide (c ∈ cols)) as [Hc|Hc].
      * rewrite decide_True; [done|]. by rewrite list_elem_of_filter.
      * rewrite decide_False; [done|].
        rewrite list_elem_of_filter. naive_solver.
  - unfold duplicate_key, key_of.
    rewrite decide_True by (rewrite !list_elem_of_filter; done).
    simpl. rewrite !cell_delete_ne, !cell_reindex by done.
    rewrite Hr, !cell_insert. simpl. by rewrite Hb.
Qed.

Lemma Forall2_fmap_eq {A B C} (P : A → B → Prop) (g : B → C) (h : A → C) l l' :
  Forall2 P l l' → (∀ x y, P x y → g y = h x) → g <$> l' = h <$> l.
Proof.
  intros HF Hgh. induction HF as [|x y l l' Hxy _ IH]; csimpl; [done|].
  by rewrite (Hgh _ _ Hxy), IH.
Qed.

Lemma empty_rows d : empty d = true → columns d ≠ [] → rows d = [].
Proof. unfold empty. intros [?|?]%bool_decide_eq_true; done. Qed.

Lemma contents_nil d : rows d = [] → contents d = [].
Proof. unfold contents. by intros ->. Qed.

(** The table [merge] returns, for every policy and every pair of tables
    but [ALL_BUT_DATE] on tables without a date column. *)
Lemma merge_result w df1 df2 p A B w' n :
  heap w !! df1 = Some A → heap w !! df2 = Some B →
  (p = ALL_BUT_DATE → has_date_column A ∨ has_date_column B) →
  merge df1 df2 p w = (w', Ok n) →
  ∃ R, heap w' !! n = Some R ∧ keeps_first p A B R ∧ no_duplicate_keys p R.
Proof.
  intros H1 H2 Hdate. destruct p.
  - (* FILE_FUNCTION *)
    rewrite (merge_FILE_FUNCTION _ _ _ _ _ H1 H2). unfold finish.
    destruct (drop_duplicates _ _) as [D|] eqn:HD; [|done].
    intros [= <- <-]. eexists. split; [apply lookup_new|].
    assert (∀ c, c ∈ concat_columns A B ↔
                 (c ∈ columns A ∨ c ∈ columns B)
                 ∧ (FILE_FUNCTION = FILE_FUNCTION_STUB → c ≠ "Stub")) as Hcols
      by (intros c; rewrite elem_of_concat_columns; naive_solver).
    destruct (drop_duplicates_inv _ _ _ HD) as [[He ->]|(Hne & Hsub & ->)].
    + apply keeps_first_keyless; [done| |].
      * by rewrite contents_reset_index, contents_pd_concat.
      * rewrite contents_reset_index. intros r Hr. simpl.
        apply bool_decide_eq_true in He as [He|He].
        -- apply contents_nil in He. rewrite He in Hr. by apply elem_of_nil in Hr.
        -- simpl in He. rewrite He. rewrite decide_False; [done|]. set_solver.
    + eapply (keeps_first_intro _ _ _ _ (rows (pd_concat A B))
                ["Source File"; "Element"] id); [done|done| | |].
      * apply (contents_keep_first_id ["Source File"; "Element"]).
      * apply contents_pd_concat.
      * intros x _. simpl. rewrite decide_True; [done|].
        split; apply Hsub; set_solver.
  - (* FILE_FUNCTION_STUB *)
    intros Hrun.
    destruct (merge_FILE_FUNCTION_STUB_inv _ _ _ _ _ _ _ H1 H2 Hrun)
      as (A' & B' & SA & SB).
    rewrite (merge_FILE_FUNCTION_STUB _ _ _ _ _ _ _ H1 H2 SA SB) in Hrun.
    unfold finish in Hrun.
    destruct (drop_duplicates _ _) as [D|] eqn:HD; [|done].
    destruct (drop_column "Stub" D) as [D'|] eqn:HD'; [|done].
    injection Hrun as <- <-. eexists. split; [apply lookup_new|].
    destruct (stubbed_rows _ _ SA) as (LA & CA & RA).
    destruct (stubbed_rows _ _ SB) as (LB & CB & RB).
    assert (∀ c, c ∈ concat_columns A' B'
                 ↔ c = "Stub" ∨ c ∈ columns A ∨ c ∈ columns B) as Hcols.
    { intros c. rewrite elem_of_concat_columns, CA, CB.
      repeat case_decide; set_solver. }
    assert ("LoC" ∈ concat_columns A' B') as HL by (apply Hcols; auto).
    assert ("Stub" ∈ concat_columns A' B') as HS by (apply Hcols; auto).
    assert (∀ c, c ∈ filter (λ c, c ≠ "Stub") (concat_columns A' B') ↔
                 (c ∈ columns A ∨ c ∈ columns B)
                 ∧ (FILE_FUNCTION_STUB = FILE_FUNCTION_STUB → c ≠ "Stub"))
      as Hout by (intros c; rewrite list_elem_of_filter, Hcols; naive_solver).
    destruct (drop_duplicates_inv _ _ _ HD) as [[He ->]|(Hne & Hsub & ->)];
      unfold drop_column in HD'; simpl in HD';
      rewrite decide_True in HD' by done; injection HD' as <-.
    + apply empty_rows in He; [|simpl; by intros Hnil; rewrite Hnil in HS;
                                 apply elem_of_nil in HS].
      simpl in He. apply fmap_nil_inv, app_eq_nil in He as [HA' HB'].
      rewrite HA' in RA. rewrite HB' in RB.
      apply Forall2_nil_inv_r in RA. apply Forall2_nil_inv_r in RB.
      apply keeps_first_keyless; [done| |].
      * rewrite contents_reset_index. unfold contents. simpl.
        by rewrite HA', HB', RA, RB.
      * rewrite contents_reset_index. unfold contents. simpl.
        rewrite HA', HB'. by intros r ?%elem_of_nil.
    + assert ("Source File" ∈ concat_columns A' B') as HF
        by (apply Hsub; set_solver).
      assert ("Element" ∈ concat_columns A' B') as HE
        by (apply Hsub; set_solver).
      eapply (keeps_first_intro _ _ _ _ (rows (pd_concat A' B'))
                ["Source File"; "Element"; "Stub"] (delete "Stub"));
        [done|done| | |].
      * rewrite contents_reset_index. unfold contents. simpl.
        by rewrite <- list_fmap_compose.
      * simpl. rewrite <- list_fmap_compose, fmap_app. unfold contents.
        rewrite <- !list_fmap_compose. f_equal.
        -- eapply Forall2_fmap_eq; [exact RA|]. intros ir ir' Hir. simpl.
           by apply stub_row_out.
        -- eapply Forall2_fmap_eq; [exact RB|]. intros ir ir' Hir. simpl.
           by apply stub_row_out.
      * intros x Hx. simpl in Hx.
        apply list_elem_of_fmap in Hx as (ir' & -> & Hir').
        assert (∃ ir, ir'.1 = ir.1
                      ∧ ∃ b, le_cell 1 (cell "LoC" ir.2) = Ok b
                             ∧ ir'.2 = <["Stub" := VBool b]> ir.2)
          as (ir & Hir).
        { apply elem_of_app in Hir' as [Hir'|Hir'];
            apply list_elem_of_lookup in Hir' as [i Hi].
          - destruct (Forall2_lookup_r _ _ _ _ _ RA Hi) as (ir & _ & Hir); eauto.
          - destruct (Forall2_lookup_r _ _ _ _ _ RB Hi) as (ir & _ & Hir); eauto. }
        destruct (stub_row_out (concat_columns A' B') ir ir' HL HS HF HE Hir)
          as [_ Hk].
        apply Hk.
  - (* ALL_BUT_DATE *)
    rewrite (merge_ALL_BUT_DATE _ _ _ _ _ H1 H2).
    destruct (date_label_Some A B (Hdate eq_refl)) as [c Hc]. rewrite Hc.
    unfold finish.
    destruct (drop_duplicates _ _) as [D|] eqn:HD; [|done].
    intros [= <- <-]. eexists. split; [apply lookup_new|].
    assert (∀ c, c ∈ concat_columns A B ↔
                 (c ∈ columns A ∨ c ∈ columns B)
                 ∧ (ALL_BUT_DATE = FILE_FUNCTION_STUB → c ≠ "Stub")) as Hcols
      by (intros c'; rewrite elem_of_concat_columns; naive_solver).
    destruct (drop_duplicates_inv _ _ _ HD) as [[He ->]|(Hne & Hsub & ->)].
    + apply empty_rows in He.
      * apply keeps_first_keyless; [done| |].
        -- by rewrite contents_reset_index, contents_pd_concat.
        -- rewrite contents_reset_index, (contents_nil _ He).
           by intros r ?%elem_of_nil.
      * simpl. intros Hnil. unfold date_label in Hc. rewrite Hnil in Hc.
        by repeat case_decide; set_solver.
    + eapply (keeps_first_intro _ _ _ _ (rows (pd_concat A B))
                (list_difference (concat_columns A B) [c]) id);
        [done|done| | |].
      * apply (contents_keep_first_id (list_difference (concat_columns A B) [c])).
      * apply contents_pd_concat.
      * intros x _. simpl. by rewrite Hc.
  - (* DONT_DROP_DUPLICATES *)
    rewrite (merge_DONT_DROP_DUPLICATES _ _ _ _ _ H1 H2). unfold finish.
    intros [= <- <-]. eexists. split; [apply lookup_new|].
    apply keeps_first_keyless; [| |done].
    + intros c. simpl. rewrite elem_of_concat_columns. naive_solver.
    + by rewrite contents_reset_index, contents_pd_concat.
Qed.

Lemma drop_duplicates_returns subset d :
  subset ≠ [] → subset ⊆ columns d → ∃ D, drop_duplicates subset d = Ok D.
Proof.
  intros Hne Hsub. unfold drop_duplicates. destruct (empty d); [by eexists|].
  destruct (List.find _ subset) as [c|] eqn:Hf.
  - apply find_some in Hf as [Hc%list_elem_of_In Hb%bool_decide_eq_true].
    destruct Hb. by apply Hsub.
  - destruct subset; [done|]. by eexists.
Qed.

Lemma stubbed_returns d : has_lines_of_code d → ∃ d', stubbed d = Ok d'.
Proof.
  intros [Hc Hrows]. unfold stubbed, column_le, getitem.
  rewrite decide_True by done.
  destruct (mapR_ok (le_cell 1) ((λ ir : Z * Row, cell "LoC" ir.2) <$> rows d))
    as [bs ->]; [|by eexists].
  by apply Forall_fmap.
Qed.

(** With the columns its policy needs, [merge] returns a table. *)
Lemma merge_can_return w df1 df2 p A B :
  heap w !! df1 = Some A → heap w !! df2 = Some B →
  can_merge p A B →
  ∃ w' n, merge df1 df2 p w = (w', Ok n).
Proof.
  intros H1 H2 Hcan. destruct p; simpl in Hcan.
  - destruct Hcan as [HF HE].
    rewrite (merge_FILE_FUNCTION _ _ _ _ _ H1 H2).
    destruct (drop_duplicates_returns ["Source File"; "Element"]
                (pd_concat A B)) as [D ->]; [done|set_solver|].
    simpl. eauto.
  - destruct Hcan as (HF & HE & HA & HB).
    destruct (stubbed_returns _ HA) as [A' SA].
    destruct (stubbed_returns _ HB) as [B' SB].
    rewrite (merge_FILE_FUNCTION_STUB _ _ _ _ _ _ _ H1 H2 SA SB).
    destruct (stubbed_rows _ _ SA) as (_ & CA & _).
    destruct (stubbed_rows _ _ SB) as (_ & CB & _).
    assert (∀ c, c ∈ concat_columns A B ∨ c = "Stub" → c ∈ concat_columns A' B')
      as Hcols.
    { intros c. rewrite !elem_of_concat_columns, CA, CB.
      repeat case_decide; set_solver. }
    destruct (drop_duplicates_returns ["Source File"; "Element"; "Stub"]
                (pd_concat A' B')) as [D HD]; [done| |].
    { intros c Hc. apply Hcols. set_solver. }
    rewrite HD. unfold drop_column.
    assert (columns D = concat_columns A' B') as ->.
    { destruct (drop_duplicates_inv _ _ _ HD) as [[_ ->]|(_ & _ & ->)]; done. }
    rewrite decide_True by (apply Hcols; by right). simpl. eauto.
  - rewrite (merge_ALL_BUT_DATE _ _ _ _ _ H1 H2).
    destruct (date_label (concat_columns A B)) as [c|] eqn:Hc; [|by eauto].
    destruct (Hcan c eq_refl) as (c' & Hc' & Hne).
    destruct (drop_duplicates_returns
                (list_difference (concat_columns A B) [c]) (pd_concat A B))
      as [D ->].
    + intros Hnil. assert (c' ∈ list_difference (concat_columns A B) [c]) as Hin
        by (apply list_elem_of_difference; set_solver).
      rewrite Hnil in Hin. by apply elem_of_nil in Hin.
    + intros x Hx%list_elem_of_difference. apply Hx.
    + simpl. eauto.
  - rewrite (merge_DONT_DROP_DUPLICATES _ _ _ _ _ H1 H2). simpl. eauto.
Qed.




(** C3, counterexample: the same two tables; both rows of the result have
    the key [x.c]; so the statement, as worded, does not hold. *)
Lemma merge_leaves_duplicates_without_date :
  (∃ w' R, merge 0%nat 1%nat ALL_BUT_DATE (mkWorld [plainA; plainA] [])
           = (w', Ok 2%nat)
           ∧ heap w' !! 2%nat = Some R
           ∧ contents R = [src "x.c"; src "x.c"]
           ∧ duplicate_key ALL_BUT_DATE (columns R) (src "x.c")
             = Some [HStr "x.c"])
  ∧ ¬ merge_never_leaves_duplicates.
Proof.
  split.
  - do 2 eexists. split; [vm_compute; reflexivity|].
    split; [vm_compute; reflexivity|]. split; vm_compute; reflexivity.
  - intros H.
    assert (ALL_BUT_DATE ≠ DONT_DROP_DUPLICATES) as Hp by discriminate.
    specialize (H (mkWorld [plainA; plainA] []) 0%nat 1%nat ALL_BUT_DATE
                  _ _ (mkFrame ["Source File"] [(0, src "x.c"); (1, src "x.c")])
                  Hp eq_refl).
    assert (H' := H ltac:(vm_compute; reflexivity) 0%nat 1%nat
                    (src "x.c") (src "x.c") [HStr "x.c"]).
    apply H'; try done; vm_compute; reflexivity.
Qed.

(** C3, as the code has it.  Unless the policy is [ALL_BUT_DATE] and
    neither table has a date column, no two rows of the table [merge]
    returns have the same duplicate key of the policy. *)
Theorem merge_no_duplicate_keys w df1 df2 p A B w' n R :
  heap w !! df1 = Some A → heap w !! df2 = Some B →
  (p = ALL_BUT_DATE → has_date_column A ∨ has_date_column B) →
  merge df1 df2 p w = (w', Ok n) → heap w' !! n = Some R →
  no_duplicate_keys p R.
Proof.
  intros H1 H2 Hd Hrun HR.
  destruct (merge_result _ _ _ _ _ _ _ _ H1 H2 Hd Hrun) as (R' & HR' & _ & HK).
  rewrite HR in HR'. by injection HR' as <-.
Qed.

Lemma merge_no_duplicate_keys_witness :
  heap (merge 0%nat 1%nat FILE_FUNCTION_STUB
          (mkWorld [stubA; stubB] [])).1 !! 2%nat
  = Some (mkFrame ["Source File"; "Element"; "LoC"]
            [(0, row3 "x.c" "f" 1); (1, row3 "x.c" "f" 5)])
  ∧ no_duplicate_keys FILE_FUNCTION_STUB
      (mkFrame ["Source File"; "Element"; "LoC"]
         [(0, row3 "x.c" "f" 1); (1, row3 "x.c" "f" 5)]).
Proof.
  split; [vm_compute; reflexivity|].
  apply (merge_no_duplicate_keys (mkWorld [stubA; stubB] []) 0%nat 1%nat
           FILE_FUNCTION_STUB stubA stubB
           (merge 0%nat 1%nat FILE_FUNCTION_STUB (mkWorld [stubA; stubB] [])).1
           2%nat).
  - reflexivity.
  - reflexivity.
  - discriminate.
  - vm_compute. reflexivity.
  - vm_compute. reflexivity.
Defined.

(** C9. The stub scenario: one row [x.c], [f] with 1 line in the first
    table and with 5 lines in the second.  Under [FILE_FUNCTION_STUB]
    the new table holds both rows, indexed 0 and 1, and has no [Stub]
    column (the two tables handed in have one afterwards); under
    [FILE_FUNCTION] it holds the row of the first table only. *)
Theorem merge_stub_scenario :
  merge 0%nat 1%nat FILE_FUNCTION_STUB (mkWorld [stubA; stubB] [])
  = (mkWorld
       [mkFrame ["Source File"; "Element"; "LoC"; "Stub"]
          [(0, <["Stub" := VBool true]> (row3 "x.c" "f" 1))];
        mkFrame ["Source File"; "Element"; "LoC"; "Stub"]
          [(0, <["Stub" := VBool false]> (row3 "x.c" "f" 5))];
        mkFrame ["Source File"; "Element"; "LoC"]
          [(0, row3 "x.c" "f" 1); (1, row3 "x.c" "f" 5)]]
       [],
     Ok 2%nat)
  ∧ merge 0%nat 1%nat FILE_FUNCTION (mkWorld [stubA; stubB] [])
    = (mkWorld
         [stubA; stubB;
          mkFrame ["Source File"; "Element"; "LoC"] [(0, row3 "x.c" "f" 1)]]
         [],
       Ok 2%nat).
Proof. split; vm_compute; reflexivity. Qed.


(** ** The date bound (lines 77-82) *)

Lemma getitem_setitem c vs d :
  length vs = length (rows d) → getitem c (setitem c vs d) = Ok vs.
Proof.
  intros Hlen. unfold getitem.
  rewrite decide_True by (apply setitem_columns_elem; by left).
  f_equal. simpl. revert vs Hlen. generalize (rows d). intros l.
  induction l as [|ir l IH]; intros [|v vs] Hlen; simpl in *; try done.
  rewrite cell_insert, decide_True by done. f_equal. apply IH. lia.
Qed.

Lemma mapR_fmap_ok {A B C} (g : A → B) (f : B → res C) (h : A → C) l :
  (∀ a, f (g a) = Ok (h a)) → mapR f (g <$> l) = Ok (h <$> l).
Proof.
  intros H. induction l as [|a l IH]; csimpl; [done|]. by rewrite H, IH.
Qed.

Lemma time_cells_timestamps (ts : list (option Timestamp)) :
  forallb (λ v, match v with VTime _ | VNaN => true | _ => false end)
    (time_cell <$> ts) = true.
Proof. induction ts as [|[t|] ts IH]; simpl; done. Qed.

Lemma time_cells_offsets (ts : list (option Timestamp)) :
  omap (λ v, match v with
             | VTime t => Some (ts_utcoffset t)
             | _ => None
             end) (time_cell <$> ts)
  = ts_utcoffset <$> omap id ts.
Proof. induction ts as [|[t|] ts IH]; csimpl; by rewrite ?IH. Qed.

(** The timestamps of a column agree in their offset exactly when the
    accessor takes the column. *)
Lemma datetimelike_time_cells (ts : list (option Timestamp)) :
  datetimelike (time_cell <$> ts) = true
  ↔ ∃ off, Forall (λ o, ∀ t, o = Some t → ts_utcoffset t = off) ts.
Proof.
  unfold datetimelike. rewrite time_cells_timestamps, time_cells_offsets.
  simpl. destruct (omap id ts) as [|t0 ts0] eqn:Hts; simpl.
  - split; [|done]. intros _. exists None. apply Forall_forall.
    intros o Ho t ->.
    assert (t ∈ omap id ts) as Hin
      by (apply list_elem_of_omap; by exists (Some t)).
    rewrite Hts in Hin. by apply elem_of_nil in Hin.
  - split.
    + intros Hall. exists (ts_utcoffset t0). apply Forall_forall.
      intros o Ho t ->.
      assert (t ∈ omap id ts) as Hin
        by (apply list_elem_of_omap; by exists (Some t)).
      rewrite Hts in Hin. apply elem_of_cons in Hin as [->|Hin]; [done|].
      rewrite forallb_forall in Hall.
      assert (ts_utcoffset t ∈ ts_utcoffset <$> ts0) as Hoff
        by by apply list_elem_of_fmap_2.
      apply list_elem_of_In, Hall in Hoff. by apply bool_decide_eq_true in Hoff.
    + intros [off Hall]. apply forallb_forall.
      intros o' (t & -> & Hin)%list_elem_of_In%list_elem_of_fmap.
      apply bool_decide_eq_true.
      assert (∀ t, t ∈ omap id ts → ts_utcoffset t = off) as Hoff.
      { intros t' (o & Ho & Heq)%list_elem_of_omap. simpl in Heq. subst o.
        eapply Forall_forall in Hall; [|done]. by apply Hall. }
      rewrite (Hoff t), (Hoff t0); [done|rewrite Hts; set_solver..].
Qed.

Lemma dt_date_le_time_cells date (ts : list (option Timestamp)) :
  datetimelike (time_cell <$> ts) = true →
  dt_date_le date (time_cell <$> ts)
  = Ok ((λ o, match o with
              | Some t => date_le (ts_date t) date
              | None => false
              end) <$> ts).
Proof.
  intros H. unfold dt_date_le. rewrite H. f_equal.
  rewrite <- list_fmap_compose. apply list_fmap_ext. by intros i [t|] _.
Qed.

Lemma cut_rows date (l : list (Z * Row)) ts :
  mapR to_datetime_cell ((λ ir : Z * Row, cell "Date" ir.2) <$> l) = Ok ts →
  Forall2 (λ (ir : Z * Row) o, to_datetime_cell (cell "Date" ir.2) = Ok o) l ts
  ∧ (λ ir : Z * Row, (ir.1, delete "DateObject" ir.2))
      <$> boolean_mask
            (zip_with (λ (ir : Z * Row) v, (ir.1, <["DateObject" := v]> ir.2))
               l (time_cell <$> ts))
            ((λ o, match o with
                   | Some t => date_le (ts_date t) date
                   | None => false
                   end) <$> ts)
    = (λ ir : Z * Row, (ir.1, delete "DateObject" ir.2))
        <$> List.filter (λ ir : Z * Row, on_or_before date ir.2) l.
Proof.
  revert ts. induction l as [|ir l IH]; intros ts; csimpl.
  - intros [= <-]. by split.
  - destruct (to_datetime_cell (cell "Date" ir.2)) as [o|] eqn:Ht; [|done].
    destruct (mapR _ _) as [ts'|] eqn:Hts; [|done]. intros [= <-].
    destruct (IH _ eq_refl) as [Hall Hrows]. split.
    + by constructor.
    + csimpl. unfold on_or_before at 1, date_of_cell. rewrite Ht.
      destruct o as [t|]; [|done].
      destruct (date_le (ts_date t) date); csimpl; [|done].
      by rewrite Hrows, delete_insert_eq.
Qed.

(** What a run of lines 78-82 that returns has done. *)
Lemma mergeErrorReports_lastDate_run w r d lastDate w' o :
  heap w !! r = Some d →
  mergeErrorReports_lastDate (Some r) lastDate w = (w', Ok o) →
  ∃ date ts R,
    strptime_dmY lastDate = Ok date
    ∧ to_datetime ((λ ir : Z * Row, cell "Date" ir.2) <$> rows d) = Ok ts
    ∧ o = Some (length (heap w))
    ∧ w' = mkWorld (<[r := setitem "DateObject" (time_cell <$> ts) d]> (heap w) ++ [R])
             (stdout w ++ ["Drop all reports after: " +:+ str_date date])
    ∧ dates_readable d
    ∧ is_cut_at date d R.
Proof.
  intros Hd. unfold mergeErrorReports_lastDate.
  unfold bind at 1, lift.
  destruct (strptime_dmY lastDate) as [date|] eqn:Hdate; [|done].
  unfold bind at 1, print.
  set (w1 := mkWorld (heap w) (stdout w ++ _)).
  assert (heap w1 !! r = Some d) as Hd1 by done.
  run_deref Hd1.
  unfold bind at 1, lift. unfold getitem at 1.
  destruct (decide ("Date" ∈ columns d)) as [Hc|]; [|done].
  unfold bind at 1.
  destruct (to_datetime _) as [ts|] eqn:Hts; [|done].
  assert (length ts = length (rows d)) as Hlen.
  { apply mapR_length in Hts. by rewrite length_fmap in Hts. }
  run_update Hd1.
  set (d1 := setitem "DateObject" (time_cell <$> ts) d).
  set (w2 := mkWorld (<[r := d1]> (heap w1)) (stdout w1)).
  assert (heap w2 !! r = Some d1) as Hd2.
  { simpl. apply list_lookup_insert_eq. by eapply lookup_lt_Some. }
  run_deref Hd2.
  unfold bind at 1, lift.
  assert (getitem "DateObject" d1 = Ok (time_cell <$> ts)) as ->
    by (apply getitem_setitem; by rewrite length_fmap).
  unfold bind at 1.
  destruct (datetimelike (time_cell <$> ts)) eqn:Hlike;
    [|by unfold dt_date_le; rewrite Hlike].
  rewrite (dt_date_le_time_cells _ _ Hlike).
  unfold bind at 1, ret. unfold bind at 1, drop_column. simpl.
  rewrite decide_True by (case_decide; set_solver).
  unfold bind, new, ret. simpl. intros [= <- <-].
  exists date, ts. eexists. split; [done|]. split; [done|].
  split; [by rewrite length_insert|]. split; [done|].
  destruct (cut_rows date _ _ Hts) as [Hall Hrows].
  split; [|split; [|split]].
  - split; [done|].
    apply datetimelike_time_cells in Hlike as [off Hoff]. exists off.
    apply Forall_forall. intros ir Hir.
    apply list_elem_of_lookup in Hir as [i Hi].
    destruct (Forall2_lookup_l _ _ _ _ _ Hall Hi) as (o & Ho & Hread).
    exists o. split; [done|].
    eapply Forall_lookup_1 in Hoff; [|exact Ho]. exact Hoff.
  - apply Forall_forall. intros ir Hir.
    apply list_elem_of_lookup in Hir as [i Hi].
    destruct (Forall2_lookup_l _ _ _ _ _ Hall Hi) as (o & _ & Hread). eauto.
  - simpl. case_decide; [done|].
    rewrite filter_app, filter_cons_False by naive_solver.
    by rewrite filter_nil, app_nil_r.
  - done.
Qed.

Lemma mapR_Forall2 {A B} (f : A → res B) l bs :
  Forall2 (λ a b, f a = Ok b) l bs → mapR f l = Ok bs.
Proof.
  induction 1 as [|a b l bs Hab _ IH]; simpl; [done|]. by rewrite Hab, IH.
Qed.

Lemma to_datetime_returns d :
  dates_readable d →
  ∃ ts, to_datetime ((λ ir : Z * Row, cell "Date" ir.2) <$> rows d) = Ok ts
        ∧ datetimelike (time_cell <$> ts) = true.
Proof.
  intros (_ & off & Hall). unfold to_datetime.
  assert (∃ ts, Forall2 (λ (ir : Z * Row) o,
                           to_datetime_cell (cell "Date" ir.2) = Ok o
                           ∧ ∀ t, o = Some t → ts_utcoffset t = off)
                  (rows d) ts) as [ts Hts].
  { induction Hall as [|ir l (o & Ho & Hoff) _ [ts IH]]; [by exists []|].
    exists (o :: ts). by constructor. }
  exists ts. split.
  - apply mapR_Forall2, Forall2_fmap_l.
    eapply Forall2_impl; [exact Hts|]. by intros ir o [? _].
  - apply datetimelike_time_cells. exists off.
    apply Forall_forall. intros o Ho.
    apply list_elem_of_lookup in Ho as [i Hi].
    destruct (Forall2_lookup_r _ _ _ _ _ Hts Hi) as (ir & _ & _ & Hoff).
    exact Hoff.
Qed.

(** With a bound that reads as a date and a [Date] column whose cells
    are read, the timestamps with one offset, the cut of lines 78-82
    returns a new table. *)
Lemma mergeErrorReports_lastDate_ok w r d lastDate date :
  heap w !! r = Some d →
  strptime_dmY lastDate = Ok date →
  dates_readable d →
  ∃ w', mergeErrorReports_lastDate (Some r) lastDate w
        = (w', Ok (Some (length (heap w)))).
Proof.
  intros Hd Hdate Hread.
  destruct (to_datetime_returns d Hread) as (ts & Hts & Hlike).
  destruct Hread as [Hc _].
  unfold mergeErrorReports_lastDate.
  unfold bind at 1, lift. rewrite Hdate.
  unfold bind at 1, print.
  set (w1 := mkWorld (heap w) (stdout w ++ _)).
  assert (heap w1 !! r = Some d) as Hd1 by done.
  run_deref Hd1.
  unfold bind at 1, lift. unfold getitem at 1. rewrite decide_True by done.
  unfold bind at 1. rewrite Hts.
  assert (length ts = length (rows d)) as Hlen.
  { apply mapR_length in Hts. by rewrite length_fmap in Hts. }
  run_update Hd1.
  set (d1 := setitem "DateObject" (time_cell <$> ts) d).
  set (w2 := mkWorld (<[r := d1]> (heap w1)) (stdout w1)).
  assert (heap w2 !! r = Some d1) as Hd2.
  { simpl. apply list_lookup_insert_eq. by eapply lookup_lt_Some. }
  run_deref Hd2.
  unfold bind at 1, lift.
  assert (getitem "DateObject" d1 = Ok (time_cell <$> ts)) as ->
    by (apply getitem_setitem; by rewrite length_fmap).
  unfold bind at 1. rewrite (dt_date_le_time_cells _ _ Hlike).
  unfold bind at 1, ret. unfold bind at 1, drop_column. simpl.
  rewrite decide_True by (case_decide; set_solver).
  unfold bind, new, ret. simpl. rewrite length_insert. by eexists.
Qed.


(** ** No report at all (lines 62-84) *)

Lemma mergeErrorReports_months_none fs baseFolder mergeType y months w :
  (∀ m, m ∈ months →
        isdir fs (baseFolder +:+ "/" +:+ (y +:+ "-" +:+ m)) = false) →
  ∃ out,
    foldM (λ result m, mergeErrorReports_period fs baseFolder mergeType result y m)
      None months w
    = (mkWorld (heap w) (stdout w ++ out), Ok None).
Proof.
  revert w. induction months as [|m months IH]; intros w Hno; simpl.
  - exists []. unfold ret. rewrite app_nil_r. by destruct w.
  - unfold bind, mergeErrorReports_period at 1.
    rewrite Hno by set_solver. unfold bind, print, ret.
    match goal with
    | |- context [foldM _ None months ?w1] =>
        destruct (IH w1) as [out Hout]; [set_solver|]
    end.
    rewrite Hout. simpl. eexists. by rewrite <- app_assoc.
Qed.

Lemma mergeErrorReports_years_none fs baseFolder mergeType years months w :
  (∀ y m, y ∈ years → m ∈ months →
          isdir fs (baseFolder +:+ "/" +:+ (y +:+ "-" +:+ m)) = false) →
  ∃ out,
    foldM (λ result y,
             foldM (λ result m,
                      mergeErrorReports_period fs baseFolder mergeType result y m)
                   result months)
          None years w
    = (mkWorld (heap w) (stdout w ++ out), Ok None).
Proof.
  revert w. induction years as [|y years IH]; intros w Hno; simpl.
  - exists []. unfold ret. rewrite app_nil_r. by destruct w.
  - destruct (mergeErrorReports_months_none fs baseFolder mergeType y months w)
      as [out1 H1]; [intros; apply Hno; set_solver|].
    unfold bind. rewrite H1.
    destruct (IH (mkWorld (heap w) (stdout w ++ out1))) as [out2 H2];
      [intros; apply Hno; set_solver|].
    rewrite H2. simpl. eexists. by rewrite <- app_assoc.
Qed.

Lemma mergeErrorReports_loop_none fs baseFolder mergeType years w :
  (∀ y m, y ∈ years → m ∈ MONTHS →
          isdir fs (baseFolder +:+ "/" +:+ (y +:+ "-" +:+ m)) = false) →
  ∃ out,
    mergeErrorReports_loop fs baseFolder years mergeType w
    = (mkWorld (heap w) (stdout w ++ out), Ok None).
Proof. apply mergeErrorReports_years_none. Qed.

(** C10. When no period has a report and a bound is given,
    [mergeErrorReports] raises: the accumulator is still [None] when the
    bound is applied to it.  The error is the one of reading the bound
    if that fails already, else the [TypeError] of subscripting [None];
    no table is made. *)
Theorem mergeErrorReports_no_report fs baseFolder years mergeType lastDate w :
  (∀ y m, y ∈ years → m ∈ MONTHS →
          isdir fs (baseFolder +:+ "/" +:+ (y +:+ "-" +:+ m)) = false) →
  ∃ w' e,
    mergeErrorReports fs baseFolder years mergeType (Some lastDate) w
    = (w', Raise e)
    ∧ heap w' = heap w
    ∧ e = match strptime_dmY lastDate with
          | Ok _ => TypeError
          | Raise e' => e'
          end.
Proof.
  intros Hno. unfold mergeErrorReports, bind.
  destruct (mergeErrorReports_loop_none fs baseFolder mergeType years w Hno)
    as [out ->].
  unfold mergeErrorReports_lastDate, bind, lift, print, raise.
  destruct (strptime_dmY lastDate); simpl; eauto.
Qed.

(** ** filterByDiff never returns (lines 147-151) *)

(** C6 fails on the code: whatever the table and the manifest,
    [filterByDiff] ends in an exception.  When the filtering itself went
    through, it is the [TypeError] of [len(nRowsAfter)], the length of an
    integer, in the message of line 150; no table is returned. *)
Theorem filterByDiff_never_returns fs df pathToDiff modifiedFlags w :
  ∃ w' e,
    filterByDiff fs df pathToDiff modifiedFlags w = (w', Raise e)
    ∧ ∀ w1 x, filterByDiff_edited fs df pathToDiff modifiedFlags w = (w1, Ok x) →
              w' = w1 ∧ e = TypeError.
Proof.
  unfold filterByDiff, bind.
  destruct (filterByDiff_edited fs df pathToDiff modifiedFlags w)
    as [w1 [x|e]] eqn:Hrun.
  - exists w1, TypeError. simpl. split; [done|]. by intros ? ? [= <- _].
  - exists w1, e. split; [done|]. by intros ? ? [= _].
Qed.

(** The diff scenario handed to [filterByDiff]: the table with the row of
    [src/drivers/net.c] is computed, and then the message fails. *)
Example filterByDiff_scenario :
  filterByDiff diffFS 0%nat "simplifiedDiff.csv" None (mkWorld [diffTable] [])
  = (mkWorld
       [mkFrame ["Source File"; "Edited"]
          [(0, <["Edited" := VBool true]> (src "src/drivers/net.c"));
           (1, <["Edited" := VBool false]> (src "src/other/net.c"))]]
       [],
     Raise TypeError).
Proof. vm_compute. reflexivity. Qed.


(** ** The diff filter (lines 123-146) *)

Lemma setitem_replicate c v d :
  setitem c (replicate (length (rows d)) v) d
  = {| columns := if decide (c ∈ columns d) then columns d else columns d ++ [c];
       rows := (λ ir : Z * Row, (ir.1, <[c := v]> ir.2)) <$> rows d |}.
Proof.
  unfold setitem. f_equal. induction (rows d) as [|ir l IH]; csimpl; [done|].
  by rewrite IH.
Qed.

Lemma boolean_mask_fmap {A} (f : A → bool) (l : list A) :
  boolean_mask l (f <$> l) = List.filter f l.
Proof.
  induction l as [|x l IH]; csimpl; [done|]. rewrite IH. by destruct (f x).
Qed.

Lemma filter_setitem_columns c (cols : list string) :
  filter (λ c', c' ≠ c) (if decide (c ∈ cols) then cols else cols ++ [c])
  = filter (λ c', c' ≠ c) cols.
Proof.
  case_decide; [done|].
  rewrite filter_app, filter_cons_False by naive_solver.
  by rewrite filter_nil, app_nil_r.
Qed.

Lemma matched_app files file r :
  matched (files ++ [file]) r
  = matched files r || entry_matches file (cell "Source File" r).
Proof. unfold matched. rewrite existsb_app. simpl. by rewrite orb_false_r. Qed.

(** One entry more: the rows it matches are marked, the others keep
    their mark. *)
Lemma loc_setitem_marked T files file :
  loc_setitem ((λ ir : Z * Row, entry_matches file (cell "Source File" ir.2))
                 <$> rows T)
    "Edited" (VBool true) (marked T files)
  = marked T (files ++ [file]).
Proof.
  unfold loc_setitem, marked. simpl. f_equal.
  - rewrite decide_True; [done|]. case_decide; set_solver.
  - induction (rows T) as [|ir l IH]; csimpl; [done|].
    rewrite IH. f_equal. rewrite matched_app.
    destruct (entry_matches file (cell "Source File" ir.2)); simpl.
    + by rewrite insert_insert_eq, orb_true_r.
    + by rewrite orb_false_r.
Qed.

Lemma getitem_marked c T files :
  c ≠ "Edited" →
  getitem c (marked T files)
  = if decide (c ∈ columns T)
    then Ok ((λ ir : Z * Row, cell c ir.2) <$> rows T)
    else Raise (KeyError c).
Proof.
  intros Hne. unfold getitem, marked. simpl.
  assert (c ∈ (if decide ("Edited" ∈ columns T) then columns T
               else columns T ++ ["Edited"]) ↔ c ∈ columns T) as Hc
    by (case_decide; set_solver).
  destruct (decide (c ∈ columns T)).
  - rewrite decide_True by by apply Hc. f_equal.
    rewrite <- list_fmap_compose. apply list_fmap_ext. intros i ir _. simpl.
    by rewrite cell_insert, decide_False.
  - rewrite decide_False; [done|]. by rewrite Hc.
Qed.

Lemma str_startswith_mask file (l : list (Z * Row)) mask :
  (endswith ".c" file || endswith ".h" file) = false →
  mapR (str_startswith file) ((λ ir : Z * Row, cell "Source File" ir.2) <$> l)
  = Ok mask →
  mask = (λ ir : Z * Row, entry_matches file (cell "Source File" ir.2)) <$> l.
Proof.
  intros Hsuf. unfold entry_matches. rewrite Hsuf.
  revert mask. induction l as [|ir l IH]; intros mask; csimpl.
  - by intros [= <-].
  - destruct (cell "Source File" ir.2); try done. simpl.
    destruct (mapR _ _) as [bs|]; [|done]. intros [= <-].
    f_equal. by apply IH.
Qed.

Lemma filterByDiff_row_run df diff row T files w w' :
  heap w !! df = Some (marked T files) →
  filterByDiff_row df diff row w = (w', Ok tt) →
  ∃ file, cell "File" row = VStr file
          ∧ w' = mkWorld (<[df := marked T (files ++ [file])]> (heap w)) (stdout w).
Proof.
  intros Hd. unfold filterByDiff_row. unfold bind at 1, lift.
  destruct (decide ("File" ∈ columns diff)); [|done].
  destruct (cell "File" row) as [| file | | |]; try done.
  destruct (endswith ".c" file || endswith ".h" file) eqn:Hsuf.
  - run_deref Hd.
    unfold bind, lift. rewrite getitem_marked by done.
    destruct (decide ("Source File" ∈ columns T)); [|done].
    rewrite (update_ok _ _ _ _ Hd). intros [= <-]. exists file. split; [done|].
    f_equal. f_equal. rewrite <- loc_setitem_marked. f_equal.
    rewrite <- list_fmap_compose. apply list_fmap_ext. intros i ir _. simpl.
    unfold entry_matches. by rewrite Hsuf.
  - run_deref Hd.
    unfold bind at 1, lift. rewrite getitem_marked by done.
    destruct (decide ("Source File" ∈ columns T)); [|done].
    unfold bind.
    destruct (mapR _ _) as [mask|] eqn:Hmask; [|done].
    rewrite (update_ok _ _ _ _ Hd). intros [= <-]. exists file. split; [done|].
    f_equal. f_equal. rewrite <- loc_setitem_marked. f_equal.
    by apply str_startswith_mask.
Qed.

Lemma filterByDiff_loop_run df diff T (rs : list (Z * Row)) files w w' :
  heap w !! df = Some (marked T files) →
  foldM (λ _ (ir : Z * Row), filterByDiff_row df diff ir.2) tt rs w = (w', Ok tt) →
  ∃ files',
    VStr <$> files' = (λ ir : Z * Row, cell "File" ir.2) <$> rs
    ∧ w' = mkWorld (<[df := marked T (files ++ files')]> (heap w)) (stdout w).
Proof.
  revert files w. induction rs as [|ir rs IH]; intros files w Hd; csimpl.
  - intros [= <-]. exists []. split; [done|].
    rewrite app_nil_r, list_insert_id by done. by destruct w.
  - unfold bind.
    destruct (filterByDiff_row df diff ir.2 w) as [w1 [[]|]] eqn:Hrow; [|done].
    destruct (filterByDiff_row_run _ _ _ _ _ _ _ Hd Hrow) as (file & Hfile & ->).
    intros Hrest.
    apply (IH (files ++ [file])) in Hrest as (files' & Hfiles' & ->).
    + exists (file :: files'). split; [csimpl; by rewrite Hfile, Hfiles'|].
      simpl. by rewrite list_insert_insert_eq, <- app_assoc.
    + simpl. apply list_lookup_insert_eq. by eapply lookup_lt_Some.
Qed.

Lemma marked_edited_rows files (l : list (Z * Row)) :
  (λ ir : Z * Row, (ir.1, delete "Edited" ir.2))
    <$> boolean_mask
          ((λ ir : Z * Row, (ir.1, <["Edited" := VBool (matched files ir.2)]> ir.2))
             <$> l)
          ((λ v, bool_decide (v = VBool true))
             <$> ((λ ir : Z * Row, cell "Edited" ir.2)
                    <$> ((λ ir : Z * Row,
                            (ir.1, <["Edited" := VBool (matched files ir.2)]> ir.2))
                           <$> l)))
  = (λ ir : Z * Row, (ir.1, delete "Edited" ir.2))
      <$> List.filter (λ ir : Z * Row, matched files ir.2) l.
Proof.
  induction l as [|ir l IH]; csimpl; [done|].
  rewrite cell_insert, decide_True by done.
  destruct (matched files ir.2); csimpl; [|done].
  by rewrite IH, delete_insert_eq.
Qed.

Lemma filterByDiff_edited_run fs df pathToDiff modifiedFlags w T w' x :
  heap w !! df = Some T →
  filterByDiff_edited fs df pathToDiff modifiedFlags w = (w', Ok x) →
  ∃ diff files,
    csv_file fs pathToDiff = Some diff
    ∧ VStr <$> files
      = (λ ir : Z * Row, cell "File" ir.2) <$> manifest_rows diff modifiedFlags
    ∧ x.1 = frame_len T
    ∧ is_diff_filtered files T x.2
    ∧ w' = mkWorld (<[df := marked T files]> (heap w)) (stdout w).
Proof.
  intros Hd. unfold filterByDiff_edited.
  unfold bind at 1, read_csv.
  destruct (csv_file fs pathToDiff) as [diff|] eqn:Hcsv; [|done].
  unfold ret at 1.
  run_deref Hd.
  run_update Hd.
  rewrite setitem_replicate.
  assert (df < length (heap w))%nat as Hlt by by eapply lookup_lt_Some.
  set (w0 := mkWorld (<[df := _]> (heap w)) (stdout w)).
  assert (heap w0 !! df = Some (marked T [])) as Hd0
    by (simpl; by apply list_lookup_insert_eq).
  run_deref Hd0.
  unfold bind at 1, lift, py_len.
  assert (∃ rs, rs = manifest_rows diff modifiedFlags
           ∧ ∀ k : DataFrame → M (Z * DataFrame),
               bind match modifiedFlags with
                    | Some flags =>
                        let* col := lift (getitem "Modified" diff) in
                        ret (mkFrame (columns diff)
                               (boolean_mask (rows diff) (isin flags <$> col)))
                    | None => ret diff
                    end k w0 = (w', Ok x) →
               k (mkFrame (columns diff) rs) w0 = (w', Ok x))
    as (rs & Hrs & Hflags).
  { eexists. split; [done|]. intros k. destruct modifiedFlags as [flags|]; simpl.
    - unfold bind at 1. unfold bind at 1, lift, getitem.
      destruct (decide ("Modified" ∈ columns diff)); [|done].
      unfold ret. rewrite <- list_fmap_compose.
      by rewrite (boolean_mask_fmap (λ ir : Z * Row, isin flags (cell "Modified" ir.2))).
    - unfold bind, ret. by destruct diff. }
  intros Hrun. apply Hflags in Hrun. clear Hflags. revert Hrun.
  unfold bind at 1. simpl rows.
  destruct (foldM _ tt rs w0) as [w1 [[]|]] eqn:Hloop; [|done].
  destruct (filterByDiff_loop_run _ _ _ _ _ _ _ Hd0 Hloop) as (files & Hfiles & ->).
  simpl in *. rewrite list_insert_insert_eq.
  set (w1 := mkWorld (<[df := marked T files]> (heap w)) (stdout w)).
  assert (heap w1 !! df = Some (marked T files)) as Hd1
    by (simpl; by apply list_lookup_insert_eq).
  run_deref Hd1.
  unfold bind at 1, lift, getitem.
  rewrite decide_True by (simpl; case_decide; set_solver).
  unfold bind at 1, ret. unfold bind, lift, drop_column. simpl columns.
  rewrite decide_True by (case_decide; set_solver).
  intros [= <- <-]. exists diff, files. subst rs.
  split; [done|]. split; [done|]. split.
  - unfold frame_len. simpl. by rewrite length_fmap.
  - split; [|done]. split; simpl.
    + apply filter_setitem_columns.
    + apply marked_edited_rows.
Qed.

Lemma filterByDiff_row_ok df diff row T files file w :
  heap w !! df = Some (marked T files) →
  "File" ∈ columns diff → cell "File" row = VStr file →
  "Source File" ∈ columns T →
  Forall (λ ir : Z * Row, ∃ s, cell "Source File" ir.2 = VStr s) (rows T) →
  filterByDiff_row df diff row w
  = (mkWorld (<[df := marked T (files ++ [file])]> (heap w)) (stdout w), Ok tt).
Proof.
  intros Hd HF Hfile HS Hstr. unfold filterByDiff_row.
  unfold bind at 1, lift. rewrite decide_True by done. rewrite Hfile.
  destruct (endswith ".c" file || endswith ".h" file) eqn:Hsuf.
  - run_deref Hd.
    unfold bind, lift. rewrite getitem_marked, decide_True by done.
    rewrite (update_ok _ _ _ _ Hd).
    f_equal. f_equal. f_equal. rewrite <- loc_setitem_marked. f_equal.
    rewrite <- list_fmap_compose. apply list_fmap_ext. intros i ir _. simpl.
    unfold entry_matches. by rewrite Hsuf.
  - run_deref Hd.
    unfold bind at 1, lift. rewrite getitem_marked, decide_True by done.
    unfold bind.
    destruct (mapR_ok (str_startswith file)
                ((λ ir : Z * Row, cell "Source File" ir.2) <$> rows T))
      as [mask Hmask].
    { apply Forall_fmap. eapply Forall_impl; [exact Hstr|].
      intros ir [s Hs]. simpl. rewrite Hs. by eexists. }
    rewrite Hmask, (update_ok _ _ _ _ Hd).
    f_equal. f_equal. f_equal. rewrite <- loc_setitem_marked. f_equal.
    by apply str_startswith_mask.
Qed.

Lemma filterByDiff_loop_ok df diff T (rs : list (Z * Row)) files w :
  heap w !! df = Some (marked T files) →
  "File" ∈ columns diff → "Source File" ∈ columns T →
  Forall (λ ir : Z * Row, ∃ s, cell "Source File" ir.2 = VStr s) (rows T) →
  Forall (λ ir : Z * Row, ∃ file, cell "File" ir.2 = VStr file) rs →
  ∃ w', foldM (λ _ (ir : Z * Row), filterByDiff_row df diff ir.2) tt rs w
        = (w', Ok tt).
Proof.
  intros Hd HF HS Hstr Hrs. revert files w Hd.
  induction Hrs as [|ir rs [file Hfile] _ IH]; intros files w Hd; simpl.
  - by eexists.
  - unfold bind.
    rewrite (filterByDiff_row_ok _ _ _ _ _ _ _ Hd HF Hfile HS Hstr).
    apply (IH (files ++ [file])). simpl.
    apply list_lookup_insert_eq. by eapply lookup_lt_Some.
Qed.

(** On a table and a manifest as [can_filter] describes them, lines
    123-146 go through and leave a table. *)
Lemma filterByDiff_edited_ok fs df pathToDiff modifiedFlags w T diff :
  heap w !! df = Some T →
  csv_file fs pathToDiff = Some diff →
  can_filter T diff modifiedFlags →
  ∃ w' x, filterByDiff_edited fs df pathToDiff modifiedFlags w = (w', Ok x).
Proof.
  intros Hd Hcsv (HS & Hstr & HF & HM & Hfiles). unfold filterByDiff_edited.
  unfold bind at 1, read_csv. rewrite Hcsv. unfold ret at 1.
  run_deref Hd.
  run_update Hd.
  rewrite setitem_replicate.
  assert (df < length (heap w))%nat as Hlt by by eapply lookup_lt_Some.
  set (w0 := mkWorld (<[df := _]> (heap w)) (stdout w)).
  assert (heap w0 !! df = Some (marked T [])) as Hd0
    by (simpl; by apply list_lookup_insert_eq).
  run_deref Hd0.
  unfold bind at 1, lift, py_len.
  assert (∀ k : DataFrame → M (Z * DataFrame),
            bind match modifiedFlags with
                 | Some flags =>
                     let* col := lift (getitem "Modified" diff) in
                     ret (mkFrame (columns diff)
                            (boolean_mask (rows diff) (isin flags <$> col)))
                 | None => ret diff
                 end k w0
            = k (mkFrame (columns diff) (manifest_rows diff modifiedFlags)) w0)
    as ->.
  { intros k. destruct modifiedFlags as [flags|]; simpl.
    - unfold bind at 1. unfold bind at 1, lift, getitem.
      rewrite decide_True by (apply HM; by eexists).
      unfold ret. rewrite <- list_fmap_compose.
      by rewrite (boolean_mask_fmap (λ ir : Z * Row, isin flags (cell "Modified" ir.2))).
    - unfold bind, ret. by destruct diff. }
  unfold bind at 1. simpl rows.
  destruct (filterByDiff_loop_ok df (mkFrame (columns diff)
              (manifest_rows diff modifiedFlags)) T _ [] w0 Hd0 HF HS Hstr Hfiles)
    as [w1 Hloop].
  rewrite Hloop.
  destruct (filterByDiff_loop_run _ _ _ _ _ _ _ Hd0 Hloop) as (files & _ & ->).
  simpl. rewrite list_insert_insert_eq.
  set (w1 := mkWorld (<[df := marked T files]> (heap w)) (stdout w)).
  assert (heap w1 !! df = Some (marked T files)) as Hd1
    by (simpl; by apply list_lookup_insert_eq).
  run_deref Hd1.
  unfold bind at 1, lift, getitem.
  rewrite decide_True by (simpl; case_decide; set_solver).
  unfold bind at 1, ret. unfold bind, lift, drop_column. simpl columns.
  rewrite decide_True by (case_decide; set_solver).
  by do 2 eexists.
Qed.

Lemma entry_matches_spec file r :
  entry_matches file (cell "Source File" r) = true ↔ matches file r.
Proof.
  unfold entry_matches, matches.
  destruct (endswith ".c" file || endswith ".h" file).
  - by rewrite bool_decide_eq_true.
  - destruct (cell "Source File" r); naive_solver.
Qed.

Lemma is_diff_filtered_retains files T R :
  is_diff_filtered files T R → retains_matched files T R.
Proof.
  intros [_ Hrows] x. rewrite Hrows, list_elem_of_fmap.
  split.
  - intros (ir & Heq & Hin). exists ir.
    apply list_elem_of_In, filter_In in Hin as [Hin Hm].
    split; [by apply list_elem_of_In|]. split; [done|].
    unfold matched in Hm. apply existsb_exists in Hm as (file & Hf & Hm).
    exists file. split; [by apply list_elem_of_In|].
    by apply entry_matches_spec.
  - intros (ir & Hin & Heq & file & Hf & Hm). exists ir. split; [done|].
    apply list_elem_of_In, filter_In. split; [by apply list_elem_of_In|].
    unfold matched. apply existsb_exists. exists file.
    split; [by apply list_elem_of_In|]. by apply entry_matches_spec.
Qed.

(** C5. The diff filter.  On a table [T] and a manifest as [can_filter]
    describes them, lines 123-146 go through.  When they go through,
    every entry of the manifest that counts has a path, and the table
    they leave is [T] restricted to the rows that at least one entry
    matches, an entry ending in [.c] or [.h] matching the row with that
    very source file only, any other entry matching every row whose
    source file begins with it.  The row count taken before is that of
    [T], and the table handed in is left with its [Edited] column. *)
Theorem diff_filter_matches fs df pathToDiff modifiedFlags w T :
  heap w !! df = Some T →
  (∀ diff, csv_file fs pathToDiff = Some diff →
           can_filter T diff modifiedFlags →
           ∃ w' x, filterByDiff_edited fs df pathToDiff modifiedFlags w
                   = (w', Ok x))
  ∧ ∀ w' n R,
      filterByDiff_edited fs df pathToDiff modifiedFlags w = (w', Ok (n, R)) →
      ∃ diff files,
        csv_file fs pathToDiff = Some diff
        ∧ VStr <$> files
          = (λ ir : Z * Row, cell "File" ir.2)
              <$> manifest_rows diff modifiedFlags
        ∧ n = frame_len T
        ∧ is_diff_filtered files T R
        ∧ retains_matched files T R
        ∧ heap w' !! df = Some (marked T files).
Proof.
  intros Hd. split.
  - intros diff Hcsv Hcan. by eapply filterByDiff_edited_ok.
  - intros w' n R Hrun.
    destruct (filterByDiff_edited_run _ _ _ _ _ _ _ _ Hd Hrun)
      as (diff & files & Hcsv & Hfiles & Hn & Hfilt & ->).
    exists diff, files. split; [done|]. split; [done|]. split; [done|].
    split; [done|]. split; [by apply is_diff_filtered_retains|].
    simpl. apply list_lookup_insert_eq. by eapply lookup_lt_Some.
Qed.

(** The two diff scenarios: the entry [src/drivers] keeps the row below
    that directory and drops the other; the entry [src/net.c] keeps the
    row of that very file, and not one that only begins with it. *)
Example diff_scenarios :
  (filterByDiff_edited diffFS 0%nat "simplifiedDiff.csv" None
     (mkWorld [diffTable] [])).2
  = Ok (2, mkFrame ["Source File"] [(0, src "src/drivers/net.c")])
  ∧ (filterByDiff_edited exactFS 0%nat "simplifiedDiff.csv" None
       (mkWorld [exactTable] [])).2
    = Ok (2, mkFrame ["Source File"] [(0, src "src/net.c")]).
Proof. split; vm_compute; reflexivity. Qed.

Lemma diff_filter_matches_witness :
  ∃ diff files,
    csv_file diffFS "simplifiedDiff.csv" = Some diff
    ∧ VStr <$> files
      = (λ ir : Z * Row, cell "File" ir.2) <$> manifest_rows diff None
    ∧ 2 = frame_len diffTable
    ∧ is_diff_filtered files diffTable
        (mkFrame ["Source File"] [(0, src "src/drivers/net.c")])
    ∧ retains_matched files diffTable
        (mkFrame ["Source File"] [(0, src "src/drivers/net.c")])
    ∧ heap (filterByDiff_edited diffFS 0%nat "simplifiedDiff.csv" None
              (mkWorld [diffTable] [])).1 !! 0%nat
      = Some (marked diffTable files).
Proof.
  apply (proj2 (diff_filter_matches diffFS 0%nat "simplifiedDiff.csv" None
                  (mkWorld [diffTable] []) diffTable eq_refl)).
  vm_compute. reflexivity.
Defined.


(** ** When the three functions return *)

(** X1. With the columns its policy needs, [merge] returns a table. *)
Theorem merge_returns w df1 df2 p A B :
  heap w !! df1 = Some A → heap w !! df2 = Some B →
  can_merge p A B →
  ∃ w' n, merge df1 df2 p w = (w', Ok n).
Proof. apply merge_can_return. Qed.

Lemma merge_returns_witness :
  ∃ w' n, merge 0%nat 1%nat FILE_FUNCTION_STUB (mkWorld [stubA; stubB] [])
          = (w', Ok n).
Proof.
  apply (merge_returns (mkWorld [stubA; stubB] []) 0%nat 1%nat
           FILE_FUNCTION_STUB stubA stubB).
  - reflexivity.
  - reflexivity.
  - unfold can_merge, has_lines_of_code. simpl.
    repeat split; try set_solver; repeat constructor; by eexists.
Defined.

(** X2. With a bound that reads as a date and a [Date] column whose
    cells are all read, as a timestamp or as missing, the timestamps
    with one and the same offset, the cut of lines 78-82 returns a new
    table. *)
Theorem date_bound_returns w r d lastDate date :
  heap w !! r = Some d →
  strptime_dmY lastDate = Ok date →
  dates_readable d →
  ∃ w', mergeErrorReports_lastDate (Some r) lastDate w
        = (w', Ok (Some (length (heap w)))).
Proof. apply mergeErrorReports_lastDate_ok. Qed.

(** X3. On a table and a manifest as [can_filter] describes them, lines
    123-146 go through and leave a table. *)
Theorem diff_filter_returns fs df pathToDiff modifiedFlags w T diff :
  heap w !! df = Some T →
  csv_file fs pathToDiff = Some diff →
  can_filter T diff modifiedFlags →
  ∃ w' x, filterByDiff_edited fs df pathToDiff modifiedFlags w = (w', Ok x).
Proof. apply filterByDiff_edited_ok. Qed.

Lemma diff_filter_returns_witness :
  ∃ w' x, filterByDiff_edited diffFS 0%nat "simplifiedDiff.csv" None
            (mkWorld [diffTable] [])
          = (w', Ok x).
Proof.
  apply (diff_filter_returns diffFS 0%nat "simplifiedDiff.csv" None
           (mkWorld [diffTable] []) diffTable diffManifest).
  - reflexivity.
  - reflexivity.
  - unfold can_filter. simpl.
    repeat split; try set_solver; try (by intros [? [=]]);
      repeat constructor; by eexists.
Defined.

(** ** Two more properties of merge *)

(** The scenario of the two reports: equal but for the date, only the
    first stays; with another [Error] cell both stay. *)
Example merge_all_but_date_scenario :
  (∃ w', merge 0%nat 1%nat ALL_BUT_DATE
           (mkWorld [reportFrame "2013-01-01" 1; reportFrame "2013-02-01" 1] [])
         = (w', Ok 2%nat)
         ∧ heap w' !! 2%nat = Some (reportFrame "2013-01-01" 1))
  ∧ ∃ w', merge 0%nat 1%nat ALL_BUT_DATE
            (mkWorld [reportFrame "2013-01-01" 1; reportFrame "2013-02-01" 0] [])
          = (w', Ok 2%nat)
          ∧ heap w' !! 2%nat
            = Some (mkFrame ["Source File"; "Element"; "Date"; "Error"]
                      [(0, report "x.c" "f" "2013-01-01" 1);
                       (1, report "x.c" "f" "2013-02-01" 0)]).
Proof. split; eexists; split; vm_compute; reflexivity. Qed.

(** Cells are compared as Python compares them: a report with [Error] 1
    and the same report with [Error] [True] are duplicates, and only
    the first stays. *)
Example merge_true_is_one :
  ∃ w', merge 0%nat 1%nat ALL_BUT_DATE
          (mkWorld [reportFrame "2013-01-01" 1; flaggedFrame "2013-02-01"] [])
        = (w', Ok 2%nat)
        ∧ heap w' !! 2%nat = Some (reportFrame "2013-01-01" 1).
Proof. eexists. split; vm_compute; reflexivity. Qed.

Lemma keep_first_keys {A K} `{EqDecision K} (kf : A → K) seen (l : list A) k :
  k ∈ kf <$> keep_first kf seen l ↔ k ∈ kf <$> l ∧ k ∉ seen.
Proof.
  revert seen. induction l as [|x l IH]; intros seen; csimpl.
  - set_solver.
  - destruct (decide (kf x ∈ seen)) as [Hx|Hx].
    + rewrite IH. set_solver.
    + csimpl. rewrite elem_of_cons, IH.
      destruct (decide (k = kf x)); set_solver.
Qed.

(** The kept rows are as many as there are keys. *)
Lemma keep_first_length {A K} `{EqDecision K} (kf : A → K) (l : list A) :
  length (keep_first kf [] l) = length (remove_dups (kf <$> l)).
Proof.
  rewrite <- (length_fmap kf). apply Permutation_length, NoDup_Permutation.
  - apply keep_first_NoDup.
  - apply NoDup_remove_dups.
  - intros k. rewrite keep_first_keys, elem_of_remove_dups. set_solver.
Qed.

(** X4. A table merged with itself under [FILE_FUNCTION] gives as many rows
    as the table has pairs of source file and element, pairs that
    [drop_duplicates] takes for equal counted once. *)
Theorem merge_with_itself w df A :
  heap w !! df = Some A →
  "Source File" ∈ columns A → "Element" ∈ columns A →
  ∃ w' n R,
    merge df df FILE_FUNCTION w = (w', Ok n)
    ∧ heap w' !! n = Some R
    ∧ length (rows R)
      = length (remove_dups
                  ((λ ir : Z * Row, [hash_cell (cell "Source File" ir.2);
                                     hash_cell (cell "Element" ir.2)])
                     <$> rows A)).
Proof.
  intros Hd HF HE.
  rewrite (merge_FILE_FUNCTION _ _ _ _ _ Hd Hd). unfold finish.
  assert (["Source File"; "Element"] ⊆ columns (pd_concat A A)) as Hsub.
  { intros c Hc. simpl. apply elem_of_concat_columns. set_solver. }
  destruct (drop_duplicates_returns ["Source File"; "Element"] (pd_concat A A))
    as [D HD]; [done|done|].
  rewrite HD. do 3 eexists. split; [done|]. split; [apply lookup_new|].
  simpl. rewrite length_imap.
  destruct (drop_duplicates_inv _ _ _ HD) as [[He ->]|(_ & _ & ->)].
  - apply empty_rows in He;
      [|simpl; intros Hnil; specialize (Hsub "Source File");
        simpl in Hsub; rewrite Hnil in Hsub; set_solver].
    simpl in He. apply fmap_nil_inv, app_eq_nil in He as [HA _].
    simpl. by rewrite HA.
  - simpl. rewrite keep_first_length. rewrite <- list_fmap_compose, fmap_app.
    apply Permutation_length, NoDup_Permutation;
      [apply NoDup_remove_dups..|].
    intros k. rewrite !elem_of_remove_dups, elem_of_app, !list_elem_of_fmap.
    assert (∀ ir : Z * Row,
              key_of ["Source File"; "Element"] (reindex (concat_columns A A) ir.2)
              = [hash_cell (cell "Source File" ir.2);
                 hash_cell (cell "Element" ir.2)]) as Hk.
    { intros ir. apply key_of_reindex. intros c Hc.
      apply elem_of_concat_columns. set_solver. }
    split.
    + intros [(ir & -> & Hin)|(ir & -> & Hin)]; exists ir;
        (split; [apply Hk|done]).
    + intros (ir & -> & Hin). left. exists ir. split; [by rewrite <- Hk|done].
Qed.

Lemma merge_with_itself_witness :
  ∃ w' n R,
    merge 0%nat 0%nat FILE_FUNCTION (mkWorld [stubA] []) = (w', Ok n)
    ∧ heap w' !! n = Some R
    ∧ length (rows R)
      = length (remove_dups
                  ((λ ir : Z * Row, [hash_cell (cell "Source File" ir.2);
                                     hash_cell (cell "Element" ir.2)])
                     <$> rows stubA)).
Proof.
  apply (merge_with_itself (mkWorld [stubA] []) 0%nat stubA).
  - reflexivity.
  - set_solver.
  - set_solver.
Defined.

(** ** More on merge *)

Lemma add_stub_None df w : heap w !! df = None → add_stub df w = (w, Raise TypeError).
Proof. intros H. unfold add_stub, bind, deref. by rewrite H. Qed.

Lemma merge_ok_inputs w df1 df2 p w' n :
  merge df1 df2 p w = (w', Ok n) →
  ∃ A B, heap w !! df1 = Some A ∧ heap w !! df2 = Some B.
Proof.
  destruct (heap w !! df1) as [A|] eqn:H1.
  - destruct (heap w !! df2) as [B|] eqn:H2; [by eauto|].
    intros Hrun. exfalso. revert Hrun. unfold merge.
    destruct (decide (p = FILE_FUNCTION_STUB)) as [->|Hp].
    + unfold bind at 1. unfold bind at 1.
      rewrite (add_stub_run _ _ _ H1).
      destruct (stubbed A) as [A'|]; [|done].
      rewrite add_stub_None; [done|]. simpl.
      apply lookup_ge_None. rewrite length_insert. by apply lookup_ge_None.
    + unfold bind at 1, ret. run_deref H1. unfold bind, deref. by rewrite H2.
  - intros Hrun. exfalso. revert Hrun. unfold merge.
    destruct (decide (p = FILE_FUNCTION_STUB)) as [->|Hp].
    + unfold bind at 1. unfold bind at 1. by rewrite add_stub_None.
    + unfold bind, ret, deref. by rewrite H1.
Qed.

(** What every successful run of merge has in common. *)
Lemma merge_ok_shape w df1 df2 p w' n :
  merge df1 df2 p w = (w', Ok n) →
  ∃ h D, length h = length (heap w)
         ∧ n = length (heap w)
         ∧ heap w' = h ++ [reset_index D]
         ∧ (p ≠ FILE_FUNCTION_STUB → h = heap w)
         ∧ (stdout w' = stdout w
            ∨ (p = ALL_BUT_DATE
               ∧ stdout w' = stdout w ++ ["Error: Date column not found"])).
Proof.
  intros Hrun.
  destruct (merge_ok_inputs _ _ _ _ _ _ Hrun) as (A & B & H1 & H2).
  destruct p.
  - rewrite (merge_FILE_FUNCTION _ _ _ _ _ H1 H2) in Hrun. unfold finish in Hrun.
    destruct (drop_duplicates _ _) as [D|]; [|done]. injection Hrun as <- <-.
    exists (heap w), D. simpl.
    split; [done|]. split; [done|]. split; [done|]. split; [done|]. by left.
  - destruct (merge_FILE_FUNCTION_STUB_inv _ _ _ _ _ _ _ H1 H2 Hrun)
      as (A' & B' & SA & SB).
    rewrite (merge_FILE_FUNCTION_STUB _ _ _ _ _ _ _ H1 H2 SA SB) in Hrun.
    unfold finish in Hrun.
    destruct (match drop_duplicates _ _ with Ok _ => _ | Raise _ => _ end) as [D|];
      [|done].
    injection Hrun as <- <-.
    exists (<[df2:=B']> (<[df1:=A']> (heap w))), D. simpl.
    rewrite !length_insert. split; [done|]. split; [done|]. split; [done|].
    split; [done|]. by left.
  - rewrite (merge_ALL_BUT_DATE _ _ _ _ _ H1 H2) in Hrun.
    destruct (date_label _).
    + unfold finish in Hrun.
      destruct (drop_duplicates _ _) as [D|]; [|done]. injection Hrun as <- <-.
      exists (heap w), D. simpl.
    split; [done|]. split; [done|]. split; [done|]. split; [done|]. by left.
    + injection Hrun as <- <-. exists (heap w), (pd_concat A B). simpl.
      split; [done|]. split; [done|]. split; [done|]. split; [done|]. by right.
  - rewrite (merge_DONT_DROP_DUPLICATES _ _ _ _ _ H1 H2) in Hrun.
    injection Hrun as <- <-. exists (heap w), (pd_concat A B). simpl.
    split; [done|]. split; [done|]. split; [done|]. split; [done|]. by left.
Qed.

(** C7, counterexample: after merging the tables of the stub scenario
    under [FILE_FUNCTION_STUB] the first table has a [Stub] column; so
    the statement, as worded, does not hold. *)
Lemma merge_mutates_under_stub_policy :
  (∃ A', heap (merge 0%nat 1%nat FILE_FUNCTION_STUB
                 (mkWorld [stubA; stubB] [])).1 !! 0%nat = Some A'
         ∧ columns stubA = ["Source File"; "Element"; "LoC"]
         ∧ columns A' = ["Source File"; "Element"; "LoC"; "Stub"])
  ∧ ¬ merge_never_mutates.
Proof.
  split.
  - eexists. split; [vm_compute; reflexivity|]. split; reflexivity.
  - intros H.
    destruct (H (mkWorld [stubA; stubB] []) 0%nat 1%nat FILE_FUNCTION_STUB
                _ _ stubA eq_refl) as [H1 _].
    specialize (H1 eq_refl). vm_compute in H1. discriminate H1.
Qed.

(** C7, as the code has it.  Under every policy but [FILE_FUNCTION_STUB]
    the store [merge] was given is unchanged, whatever the outcome: at
    most the new table is added.  Under [FILE_FUNCTION_STUB], when [merge]
    returns, each of the two tables has had its [Stub] column set in
    place, every other table is unchanged, and the table returned has no
    [Stub] column.  Under every policy the table returned is a new one:
    it is put behind the tables of the store, which has one table more
    than before. *)
Theorem merge_frame w df1 df2 p w' r :
  merge df1 df2 p w = (w', r) →
  (p ≠ FILE_FUNCTION_STUB →
   ∀ l d, heap w !! l = Some d → heap w' !! l = Some d)
  ∧ (p = FILE_FUNCTION_STUB →
     ∀ A B n, heap w !! df1 = Some A → heap w !! df2 = Some B → r = Ok n →
       (∃ A', heap w' !! df1 = Some A' ∧ stub_column_set A A')
       ∧ (∃ B', heap w' !! df2 = Some B' ∧ stub_column_set B B')
       ∧ (∀ l d, l ≠ df1 → l ≠ df2 →
            heap w !! l = Some d → heap w' !! l = Some d)
       ∧ ∃ R, heap w' !! n = Some R ∧ "Stub" ∉ columns R)
  ∧ (∀ n, r = Ok n →
       heap w !! n = None
       ∧ n = length (heap w) ∧ length (heap w') = S (length (heap w))
       ∧ is_Some (heap w' !! n)).
Proof.
  intros Hrun. split; [|split].
  - intros Hp l d Hl.
    destruct (merge_other_policies _ _ _ _ _ _ Hp Hrun) as [new ->].
    by apply lookup_app_l_Some.
  - intros -> A B n H1 H2 ->.
    assert (FILE_FUNCTION_STUB = ALL_BUT_DATE →
            has_date_column A ∨ has_date_column B) as Hd by done.
    destruct (merge_result _ _ _ _ _ _ _ _ H1 H2 Hd Hrun)
      as (R & HR & (Hcols & _) & _).
    destruct (merge_FILE_FUNCTION_STUB_inv _ _ _ _ _ _ _ H1 H2 Hrun)
      as (A' & B' & SA & SB).
    rewrite (merge_FILE_FUNCTION_STUB _ _ _ _ _ _ _ H1 H2 SA SB) in Hrun.
    unfold finish in Hrun.
    destruct (match drop_duplicates _ _ with Ok _ => _ | Raise _ => _ end);
      [|done].
    injection Hrun as <- <-. simpl.
    assert (df1 < length (heap w))%nat as L1 by by eapply lookup_lt_Some.
    assert (df2 < length (heap w))%nat as L2 by by eapply lookup_lt_Some.
    split; [|split; [|split]].
    + exists A'. split; [|by apply stubbed_rows].
      apply lookup_app_l_Some. destruct (decide (df1 = df2)) as [<-|Hne].
      * rewrite list_lookup_insert_eq by by rewrite length_insert.
        assert (A = B) by congruence. subst B. congruence.
      * rewrite list_lookup_insert_ne by done.
        by rewrite list_lookup_insert_eq.
    + exists B'. split; [|by apply stubbed_rows].
      apply lookup_app_l_Some.
      by rewrite list_lookup_insert_eq by by rewrite length_insert.
    + intros l d Hl1 Hl2 Hl. apply lookup_app_l_Some.
      by rewrite !list_lookup_insert_ne.
    + exists R. split; [exact HR|]. intros HS.
      destruct (proj1 (Hcols _) HS) as [_ Hne]. by apply Hne.
  - intros n ->.
    destruct (merge_ok_shape _ _ _ _ _ _ Hrun) as (h & D & Hlen & -> & Hh & _).
    split; [by apply lookup_ge_None|]. split; [done|].
    rewrite Hh, length_app, Hlen. simpl. split; [lia|].
    exists (reset_index D). rewrite <- Hlen. apply lookup_new.
Qed.

Lemma merge_frame_witness :
  ∃ A', heap (merge 0%nat 1%nat FILE_FUNCTION_STUB
                (mkWorld [stubA; stubB] [])).1 !! 0%nat = Some A'
        ∧ stub_column_set stubA A'.
Proof.
  destruct (merge_frame (mkWorld [stubA; stubB] []) 0%nat 1%nat
              FILE_FUNCTION_STUB
              (merge 0%nat 1%nat FILE_FUNCTION_STUB (mkWorld [stubA; stubB] [])).1
              (Ok 2%nat)) as (_ & H & _).
  - vm_compute. reflexivity.
  - destruct (H eq_refl stubA stubB 2%nat) as [H1 _]; try reflexivity.
    exact H1.
Defined.

(** X5. Whatever the policy, a table [merge] returns is a new one: it is
    added to the store as its last table and is neither of the two tables
    handed in, and its index labels are 0, 1, 2, ...  [merge] prints
    nothing, but for the one line of [ALL_BUT_DATE] without a date
    column. *)
Theorem merge_new_table w df1 df2 p w' n :
  merge df1 df2 p w = (w', Ok n) →
  n = length (heap w) ∧ length (heap w') = S (length (heap w))
  ∧ n ≠ df1 ∧ n ≠ df2
  ∧ (∃ R, heap w' !! n = Some R
          ∧ index R = Z.of_nat <$> seq 0 (length (rows R)))
  ∧ (stdout w' = stdout w
     ∨ (p = ALL_BUT_DATE
        ∧ stdout w' = stdout w ++ ["Error: Date column not found"])).
Proof.
  intros Hrun.
  destruct (merge_ok_inputs _ _ _ _ _ _ Hrun) as (A & B & H1 & H2).
  apply lookup_lt_Some in H1, H2.
  destruct (merge_ok_shape _ _ _ _ _ _ Hrun) as (h & D & Hlen & -> & Hh & _ & Hout).
  split; [done|]. rewrite Hh, length_app, Hlen. simpl.
  split; [lia|]. split; [lia|]. split; [lia|]. split; [|done].
  exists (reset_index D). split; [rewrite <- Hlen; apply lookup_new|].
  rewrite index_reset_index. simpl. by rewrite length_imap.
Qed.

Lemma merge_new_table_witness :
  2%nat = length (heap (mkWorld [stubA; stubB] []))
  ∧ length (heap (merge 0%nat 1%nat FILE_FUNCTION (mkWorld [stubA; stubB] [])).1)
    = S (length (heap (mkWorld [stubA; stubB] [])))
  ∧ 2%nat ≠ 0%nat ∧ 2%nat ≠ 1%nat
  ∧ (∃ R, heap (merge 0%nat 1%nat FILE_FUNCTION (mkWorld [stubA; stubB] [])).1
            !! 2%nat = Some R
          ∧ index R = Z.of_nat <$> seq 0 (length (rows R)))
  ∧ (stdout (merge 0%nat 1%nat FILE_FUNCTION (mkWorld [stubA; stubB] [])).1
     = stdout (mkWorld [stubA; stubB] [])
     ∨ (FILE_FUNCTION = ALL_BUT_DATE
        ∧ stdout (merge 0%nat 1%nat FILE_FUNCTION (mkWorld [stubA; stubB] [])).1
          = stdout (mkWorld [stubA; stubB] [])
              ++ ["Error: Date column not found"])).
Proof.
  apply (merge_new_table (mkWorld [stubA; stubB] []) 0%nat 1%nat FILE_FUNCTION).
  vm_compute. reflexivity.
Defined.

Lemma stubbed_no_LoC d : "LoC" ∉ columns d → stubbed d = Raise (KeyError "LoC").
Proof. intros H. unfold stubbed, column_le, getitem. by rewrite decide_False. Qed.

(** X6. Under [FILE_FUNCTION_STUB] a table without a [LoC] column is a
    [KeyError].  If it is the first table, nothing has happened by then.
    If it is the second, the first table has had its [Stub] column set
    (lines 34-35 run one after the other) and keeps it, although no table
    is returned. *)
Theorem merge_stub_half_done w df1 df2 A B :
  heap w !! df1 = Some A → heap w !! df2 = Some B → df1 ≠ df2 →
  ("LoC" ∉ columns A →
   merge df1 df2 FILE_FUNCTION_STUB w = (w, Raise (KeyError "LoC")))
  ∧ (has_lines_of_code A → "LoC" ∉ columns B →
     ∃ A', stub_column_set A A'
           ∧ merge df1 df2 FILE_FUNCTION_STUB w
             = (mkWorld (<[df1 := A']> (heap w)) (stdout w),
                Raise (KeyError "LoC"))).
Proof.
  intros H1 H2 Hne. split.
  - intros HA. unfold merge. simpl.
    erewrite (bind_raise _ _ w); [done|].
    erewrite (bind_raise _ _ w); [done|].
    by rewrite (add_stub_run _ _ _ H1), stubbed_no_LoC.
  - intros HA HB. destruct (stubbed_returns _ HA) as [A' SA].
    exists A'. split; [by apply stubbed_rows|].
    unfold merge. simpl.
    erewrite (bind_raise _ _ w); [done|].
    erewrite (bind_ok _ _ w) by by rewrite (add_stub_run _ _ _ H1), SA.
    rewrite (add_stub_run _ B), stubbed_no_LoC; [done|done|].
    simpl. by rewrite list_lookup_insert_ne.
Qed.

Lemma merge_stub_half_done_witness :
  ∃ A', stub_column_set stubA A'
        ∧ merge 0%nat 1%nat FILE_FUNCTION_STUB (mkWorld [stubA; plainA] [])
          = (mkWorld (<[0%nat := A']> [stubA; plainA]) [], Raise (KeyError "LoC")).
Proof.
  apply (merge_stub_half_done (mkWorld [stubA; plainA] []) 0%nat 1%nat stubA plainA).
  - reflexivity.
  - reflexivity.
  - discriminate.
  - split; [set_solver|]. repeat constructor. by eexists.
  - simpl. set_solver.
Defined.

(** X7. Under [FILE_FUNCTION], when the two tables together have a row
    and a column but not both columns of the key, [merge] raises the
    [KeyError] of a column of the key that neither table has, and the
    store is as it was. *)
Theorem merge_missing_key_column w df1 df2 A B :
  heap w !! df1 = Some A → heap w !! df2 = Some B →
  rows A ++ rows B ≠ [] → columns A ++ columns B ≠ [] →
  ¬ ("Source File" ∈ concat_columns A B ∧ "Element" ∈ concat_columns A B) →
  ∃ c, merge df1 df2 FILE_FUNCTION w = (w, Raise (KeyError c))
       ∧ c ∈ ["Source File"; "Element"] ∧ (c ∉ columns A) ∧ (c ∉ columns B).
Proof.
  intros H1 H2 Hrows Hcols Hkey.
  rewrite (merge_FILE_FUNCTION _ _ _ _ _ H1 H2).
  unfold drop_duplicates.
  assert (empty (pd_concat A B) = false) as ->.
  { apply bool_decide_eq_false. simpl. intros [He|He].
    - by apply fmap_nil_inv in He.
    - unfold concat_columns in He. apply app_eq_nil in He as [HA HB].
      rewrite HA in HB. simpl in HB. rewrite HA in Hcols. simpl in Hcols.
      destruct (columns B); [done|]. simpl in HB. by repeat case_decide. }
  simpl.
  destruct (decide ("Source File" ∈ concat_columns A B)) as [HS|HS].
  - rewrite bool_decide_eq_false_2 by by intros ?.
    assert ("Element" ∉ concat_columns A B) as HE by naive_solver.
    rewrite bool_decide_eq_true_2 by done.
    exists "Element". rewrite elem_of_concat_columns in HE.
    split; [by destruct w|]. split; [set_solver|]. naive_solver.
  - rewrite bool_decide_eq_true_2 by done.
    exists "Source File". rewrite elem_of_concat_columns in HS.
    split; [by destruct w|]. split; [set_solver|]. naive_solver.
Qed.

Lemma merge_missing_key_column_witness :
  ∃ c, merge 0%nat 0%nat FILE_FUNCTION (mkWorld [plainA] [])
       = (mkWorld [plainA] [], Raise (KeyError c))
       ∧ c ∈ ["Source File"; "Element"] ∧ (c ∉ columns plainA) ∧ (c ∉ columns plainA).
Proof.
  apply (merge_missing_key_column (mkWorld [plainA] []) 0%nat 0%nat plainA plainA).
  - reflexivity.
  - reflexivity.
  - discriminate.
  - discriminate.
  - simpl. set_solver.
Defined.

Lemma filter_length_or {A} (P Q1 Q2 : A → Prop)
    `{∀ x, Decision (P x)} `{∀ x, Decision (Q1 x)} `{∀ x, Decision (Q2 x)}
    (l : list A) :
  (∀ x, x ∈ l → P x → Q1 x ∨ Q2 x) →
  (length (filter P l) ≤ length (filter Q1 l) + length (filter Q2 l))%nat.
Proof.
  induction l as [|x l IH]; intros Hl; [done|].
  assert (length (filter P l) ≤ length (filter Q1 l) + length (filter Q2 l))%nat
    as IH' by (apply IH; intros y Hy; apply Hl; set_solver).
  rewrite !filter_cons.
  destruct (decide (P x)) as [HP|HP].
  - destruct (Hl x ltac:(set_solver) HP) as [HQ|HQ].
    + rewrite (decide_True (P := Q1 x)) by done. destruct (decide (Q2 x)); simpl; lia.
    + rewrite (decide_True (P := Q2 x)) by done. destruct (decide (Q1 x)); simpl; lia.
  - destruct (decide (Q1 x)), (decide (Q2 x)); simpl; lia.
Qed.

Lemma filter_length_impl {A} (P Q : A → Prop)
    `{∀ x, Decision (P x)} `{∀ x, Decision (Q x)} (l : list A) :
  (∀ x, x ∈ l → P x → Q x) →
  (length (filter P l) ≤ length (filter Q l))%nat.
Proof.
  induction l as [|x l IH]; intros Hl; [done|].
  assert (length (filter P l) ≤ length (filter Q l))%nat
    as IH' by (apply IH; intros y Hy; apply Hl; set_solver).
  rewrite !filter_cons.
  destruct (decide (P x)) as [HP|HP].
  - rewrite (decide_True (P := Q x)) by (apply Hl; [set_solver|done]).
    simpl. lia.
  - destruct (decide (Q x)); simpl; lia.
Qed.

Lemma list_filter_ext_in {A} (P Q : A → Prop)
    `{∀ x, Decision (P x)} `{∀ x, Decision (Q x)} (l : list A) :
  (∀ x, x ∈ l → P x ↔ Q x) → filter P l = filter Q l.
Proof.
  induction l as [|x l IH]; intros Hl; [done|].
  rewrite !filter_cons, IH by (intros y Hy; apply Hl; set_solver).
  destruct (decide (P x)) as [HP|HP].
  - by rewrite decide_True by (apply Hl; [set_solver|done]).
  - rewrite decide_False; [done|]. rewrite <- Hl; [done|set_solver].
Qed.

(** The table merge returns under FILE_FUNCTION_STUB has the columns of
    the key, unless it has no row. *)
Lemma merge_stub_key_columns w df1 df2 A B w' n R :
  heap w !! df1 = Some A → heap w !! df2 = Some B →
  merge df1 df2 FILE_FUNCTION_STUB w = (w', Ok n) → heap w' !! n = Some R →
  rows R = [] ∨ ("Source File" ∈ columns R ∧ "Element" ∈ columns R).
Proof.
  intros H1 H2 Hrun HR.
  destruct (merge_FILE_FUNCTION_STUB_inv _ _ _ _ _ _ _ H1 H2 Hrun)
    as (A' & B' & SA & SB).
  rewrite (merge_FILE_FUNCTION_STUB _ _ _ _ _ _ _ H1 H2 SA SB) in Hrun.
  unfold finish in Hrun.
  destruct (drop_duplicates _ _) as [D|] eqn:HD; [|done].
  destruct (drop_column "Stub" D) as [D'|] eqn:HD'; [|done].
  injection Hrun as <- <-. simpl in HR.
  rewrite lookup_new in HR.
  injection HR as <-.
  unfold drop_column in HD'. case_decide as HS; [|done]. injection HD' as <-.
  simpl.
  destruct (drop_duplicates_inv _ _ _ HD) as [[He ->]|(_ & Hsub & ->)].
  - left. apply empty_rows in He.
    + by rewrite He.
    + intros Hnil. rewrite Hnil in HS. by apply elem_of_nil in HS.
  - right. simpl. rewrite !list_elem_of_filter.
    split; (split; [done|apply Hsub; set_solver]).
Qed.

(** X8. Under [FILE_FUNCTION_STUB] the table returned has, of every
    source file and element, at most one row whose [LoC] is at most 1 and
    at most one row whose [LoC] is not: at most two rows in all. *)
Theorem merge_stub_at_most_two w df1 df2 A B w' n R (f e : value) :
  heap w !! df1 = Some A → heap w !! df2 = Some B →
  merge df1 df2 FILE_FUNCTION_STUB w = (w', Ok n) → heap w' !! n = Some R →
  (∀ b, length (filter (λ r, cell "Source File" r = f ∧ cell "Element" r = e
                             ∧ le_cell 1 (cell "LoC" r) = Ok b)
                  (contents R)) ≤ 1)%nat
  ∧ (length (filter (λ r, cell "Source File" r = f ∧ cell "Element" r = e)
               (contents R)) ≤ 2)%nat.
Proof.
  intros H1 H2 Hrun HR.
  destruct (merge_stub_key_columns _ _ _ _ _ _ _ _ H1 H2 Hrun HR) as [He|[HF HE]].
  { rewrite (contents_nil _ He). split; [intros b|]; simpl; lia. }
  destruct (merge_FILE_FUNCTION_STUB_inv _ _ _ _ _ _ _ H1 H2 Hrun)
    as (A' & B' & SA & SB).
  destruct (stubbed_rows _ _ SA) as (LA & _ & RA).
  destruct (stubbed_rows _ _ SB) as (LB & _ & RB).
  assert (FILE_FUNCTION_STUB = ALL_BUT_DATE →
          has_date_column A ∨ has_date_column B) as Hd by done.
  destruct (merge_result _ _ _ _ _ _ _ _ H1 H2 Hd Hrun)
    as (R' & HR' & (Hcols & Hsub & _ & Hfirst & _) & _).
  rewrite HR in HR'. injection HR' as <-.
  assert ("LoC" ∈ columns R) as HL by (apply Hcols; naive_solver).
  assert (∀ r, duplicate_key FILE_FUNCTION_STUB (columns R) r
               = match le_cell 1 (cell "LoC" r) with
                 | Ok b => Some [hash_cell (cell "Source File" r);
                                 hash_cell (cell "Element" r); hash_cell (VBool b)]
                 | Raise _ => None
                 end) as Hkey.
  { intros r. unfold duplicate_key. by rewrite decide_True. }
  assert (∀ b, length (filter (λ r, cell "Source File" r = f ∧ cell "Element" r = e
                                    ∧ le_cell 1 (cell "LoC" r) = Ok b)
                         (contents R)) ≤ 1)%nat as Hone.
  { intros b.
    etrans; [apply (filter_length_impl _
                      (λ r, duplicate_key FILE_FUNCTION_STUB (columns R) r
                            = Some [hash_cell f; hash_cell e; hash_cell (VBool b)]))|].
    - intros r _ (<- & <- & Hb). by rewrite Hkey, Hb.
    - rewrite Hfirst.
      match goal with
      | |- (length (option_list ?o) ≤ 1)%nat => destruct o; simpl; lia
      end. }
  split; [done|].
  etrans; [apply (filter_length_or _
                    (λ r, cell "Source File" r = f ∧ cell "Element" r = e
                          ∧ le_cell 1 (cell "LoC" r) = Ok true)
                    (λ r, cell "Source File" r = f ∧ cell "Element" r = e
                          ∧ le_cell 1 (cell "LoC" r) = Ok false))|].
  - intros r Hr [Hf Hel].
    assert (∃ b, le_cell 1 (cell "LoC" r) = Ok b) as [[] Hb]; [|by auto..].
    eapply elem_of_sublist in Hr; [|exact Hsub].
    assert (∀ d d', stub_column_set d d' → ∀ r0, r0 ∈ contents d →
              ∃ b, le_cell 1 (cell "LoC" r0) = Ok b) as Hstub.
    { intros d d' [_ Hrows] r0 (ir & -> & Hir)%list_elem_of_fmap.
      apply list_elem_of_lookup in Hir as [i Hi].
      destruct (Forall2_lookup_l _ _ _ _ _ Hrows Hi) as (ir' & _ & _ & b & Hb & _).
      eauto. }
    apply elem_of_app in Hr as [Hr|Hr];
      apply list_elem_of_fmap in Hr as (r0 & -> & Hr0);
      rewrite cell_reindex by done.
    + eapply Hstub; [|done]. by apply stubbed_rows.
    + eapply Hstub; [|done]. by apply stubbed_rows.
  - pose proof (Hone true). pose proof (Hone false). lia.
Qed.

Lemma merge_stub_at_most_two_witness :
  (length (filter (λ r, cell "Source File" r = VStr "x.c" ∧ cell "Element" r = VStr "f")
             (contents (mkFrame ["Source File"; "Element"; "LoC"]
                          [(0%Z, row3 "x.c" "f" 1%Z); (1%Z, row3 "x.c" "f" 5%Z)])))
   ≤ 2)%nat.
Proof.
  apply (merge_stub_at_most_two (mkWorld [stubA; stubB] []) 0%nat 1%nat stubA stubB
           (merge 0%nat 1%nat FILE_FUNCTION_STUB (mkWorld [stubA; stubB] [])).1
           2%nat _ (VStr "x.c") (VStr "f")).
  - reflexivity.
  - reflexivity.
  - vm_compute. reflexivity.
  - vm_compute. reflexivity.
Defined.

(** ** The loops of mergeErrorReports (lines 63-75) *)

Lemma foldM_app {A B} (f : A → B → M A) a l1 l2 w :
  foldM f a (l1 ++ l2) w = bind (foldM f a l1) (λ a', foldM f a' l2) w.
Proof.
  revert a w. induction l1 as [|b l1 IH]; intros a w; simpl; [reflexivity|].
  unfold bind. destruct (f a b w) as [w1 [a1|e]]; [|done].
  rewrite IH. reflexivity.
Qed.

Section Loop.
Variable fs : FileSystem.
Variable baseFolder : string.
Variable mergeType : GroupBy.

Lemma mergeErrorReports_months_flat y months result w :
  foldM (λ result m, mergeErrorReports_period fs baseFolder mergeType result y m)
    result months w
  = foldM (visit fs baseFolder mergeType) result ((λ m, (y, m)) <$> months) w.
Proof.
  revert result w. induction months as [|m months IH]; intros result w; csimpl;
    [done|].
  unfold bind, visit at 1. simpl.
  destruct (mergeErrorReports_period _ _ _ _ _ _ _) as [w1 [r1|e]]; [|done].
  apply IH.
Qed.

Lemma mergeErrorReports_years_flat months years result w :
  foldM (λ result y,
           foldM (λ result m,
                    mergeErrorReports_period fs baseFolder mergeType result y m)
                 result months)
    result years w
  = foldM (visit fs baseFolder mergeType) result (y ← years; m ← months; [(y, m)]) w.
Proof.
  revert result w. induction years as [|y years IH]; intros result w; [done|].
  rewrite bind_cons, foldM_app.
  change (foldM ?f result (y :: years)) with
    (bind (f result y) (λ a', foldM f a' years)).
  unfold bind. rewrite mergeErrorReports_months_flat.
  assert ((m ← months; [(y, m)]) = (λ m, (y, m)) <$> months) as ->.
  { clear. induction months as [|m months IH]; csimpl; [done|]. by rewrite IH. }
  destruct (foldM (visit fs baseFolder mergeType) result _ w) as [w1 [r1|e]]; [|done].
  apply IH.
Qed.

Lemma mergeErrorReports_loop_flat years w :
  mergeErrorReports_loop fs baseFolder years mergeType w
  = foldM (visit fs baseFolder mergeType) None (periods years) w.
Proof. apply mergeErrorReports_years_flat. Qed.

Lemma period_missing result ym w :
  isdir fs (folder baseFolder ym) = false →
  (visit fs baseFolder mergeType) result ym w
  = (mkWorld (heap w) (stdout w ++ [missing baseFolder ym]), Ok result).
Proof.
  intros H. unfold visit, mergeErrorReports_period. unfold folder in H.
  by rewrite H.
Qed.

Lemma period_first ym d w :
  isdir fs (folder baseFolder ym) = true →
  excel_file fs (workbook baseFolder ym) = Some d →
  (visit fs baseFolder mergeType) None ym w
  = (mkWorld (heap w ++ [d]) (stdout w), Ok (Some (length (heap w)))).
Proof.
  intros H Hd. unfold visit, mergeErrorReports_period.
  unfold folder in H. unfold workbook in Hd. rewrite H.
  unfold bind, read_excel. by rewrite Hd.
Qed.

Lemma period_next r ym d w :
  isdir fs (folder baseFolder ym) = true →
  excel_file fs (workbook baseFolder ym) = Some d →
  (visit fs baseFolder mergeType) (Some r) ym w
  = match merge r (length (heap w)) mergeType
            (mkWorld (heap w ++ [d]) (stdout w)) with
    | (w', Ok n) => (w', Ok (Some n))
    | (w', Raise e) => (w', Raise e)
    end.
Proof.
  intros H Hd. unfold visit, mergeErrorReports_period.
  unfold folder in H. unfold workbook in Hd. rewrite H.
  unfold bind at 1, read_excel. rewrite Hd. unfold new.
  unfold bind, ret. by destruct (merge _ _ _ _) as [w' [n|e]].
Qed.

Lemma period_unreadable result ym w :
  isdir fs (folder baseFolder ym) = true →
  excel_file fs (workbook baseFolder ym) = None →
  (visit fs baseFolder mergeType) result ym w = (w, Raise FileNotFoundError).
Proof.
  intros H Hd. unfold visit, mergeErrorReports_period.
  unfold folder in H. unfold workbook in Hd. rewrite H.
  unfold bind, read_excel. by rewrite Hd.
Qed.

(** Over periods without a directory the loop only prints. *)
Lemma loop_missing result l w :
  (∀ ym, ym ∈ l → isdir fs (folder baseFolder ym) = false) →
  foldM (visit fs baseFolder mergeType) result l w
  = (mkWorld (heap w) (stdout w ++ (missing baseFolder <$> l)), Ok result).
Proof.
  revert w. induction l as [|ym l IH]; intros w Hl; csimpl.
  - unfold ret. rewrite app_nil_r. by destruct w.
  - unfold bind. rewrite period_missing by (apply Hl; set_solver).
    rewrite IH by (intros; apply Hl; set_solver). simpl.
    by rewrite <- app_assoc.
Qed.


Lemma missing_not_error ym :
  missing baseFolder ym ≠ "Error: Date column not found".
Proof.
  intros H.
  assert (endswith " doesn't exist" (missing baseFolder ym) = true) as He
    by (apply endswith_spec; by eexists).
  rewrite H in He. vm_compute in He. discriminate He.
Qed.

(** What a run of the loop prints. *)
Lemma loop_output l result w w' r :
  foldM (visit fs baseFolder mergeType) result l w = (w', Ok r) →
  ∃ out, stdout w' = stdout w ++ out
         ∧ filter (λ s, s ≠ "Error: Date column not found") out
           = missing baseFolder <$> absent fs baseFolder l
         ∧ (mergeType ≠ ALL_BUT_DATE →
            out = missing baseFolder <$> absent fs baseFolder l).
Proof.
  revert result w. induction l as [|ym l IH]; intros result w; csimpl.
  - intros [= <- _]. exists []. by rewrite app_nil_r.
  - unfold bind.
    destruct (isdir fs (folder baseFolder ym)) eqn:Hdir; simpl.
    + destruct ((visit fs baseFolder mergeType) result ym w) as [w1 [r1|e]] eqn:Hstep; [|done].
      intros (out & Hout & Hf & Hp)%IH.
      destruct (excel_file fs (workbook baseFolder ym)) as [d|] eqn:Hd;
        [|by rewrite period_unreadable in Hstep].
      destruct result as [r0|].
      * rewrite (period_next _ _ _ _ Hdir Hd) in Hstep.
        destruct (merge _ _ _ _) as [w2 [n|e]] eqn:Hm; [|done].
        injection Hstep as <- <-.
        destruct (merge_ok_shape _ _ _ _ _ _ Hm) as (_ & _ & _ & _ & _ & _ & [Hs|[Hp' Hs]]).
        -- exists out. by rewrite Hout, Hs.
        -- exists ("Error: Date column not found" :: out). rewrite Hout, Hs.
           simpl. rewrite <- app_assoc. split; [done|].
           rewrite filter_cons_False by naive_solver. done.
      * rewrite (period_first _ _ _ Hdir Hd) in Hstep. injection Hstep as <- <-.
        exists out. by rewrite Hout.
    + rewrite period_missing by done.
      intros (out & Hout & Hf & Hp)%IH. simpl in Hout.
      exists (missing baseFolder ym :: out). rewrite Hout, <- app_assoc.
      split; [done|]. split.
      * rewrite filter_cons_True by apply missing_not_error. by rewrite Hf.
      * intros Hne. by rewrite Hp.
Qed.

End Loop.

(** X9. When exactly one period has a report, [mergeErrorReports]
    without a bound returns that report as it was loaded, whatever the
    policy: [merge] is not called, so no duplicate row of the report is
    removed and its index labels stay.  One line is printed for each of
    the other periods. *)
Theorem mergeErrorReports_single_report fs baseFolder years mergeType w
    pre ym post d :
  periods years = pre ++ ym :: post →
  (∀ x, x ∈ pre ++ post → isdir fs (folder baseFolder x) = false) →
  isdir fs (folder baseFolder ym) = true →
  excel_file fs (workbook baseFolder ym) = Some d →
  mergeErrorReports fs baseFolder years mergeType None w
  = (mkWorld (heap w ++ [d])
       (stdout w ++ (missing baseFolder <$> pre ++ post)),
     Ok (Some (length (heap w)))).
Proof.
  intros Hper Hno Hdir Hd. unfold mergeErrorReports, bind.
  rewrite mergeErrorReports_loop_flat, Hper, foldM_app. unfold bind.
  rewrite loop_missing by (intros; apply Hno; set_solver).
  change (foldM ?f None (ym :: post)) with
    (bind (f None ym) (λ a', foldM f a' post)).
  unfold bind. rewrite (period_first _ _ _ _ _ _ Hdir Hd).
  rewrite loop_missing by (intros; apply Hno; set_solver).
  unfold ret. simpl. by rewrite fmap_app, app_assoc.
Qed.

(** X10. A period with a directory but no readable workbook ends the
    run with the exception of the reader, in the state the earlier
    periods left: the later periods are not visited and a bound is not
    applied. *)
Theorem mergeErrorReports_unreadable_workbook fs baseFolder years mergeType
    lastDate w pre ym post w1 r :
  periods years = pre ++ ym :: post →
  foldM (visit fs baseFolder mergeType) None pre w = (w1, Ok r) →
  isdir fs (folder baseFolder ym) = true →
  excel_file fs (workbook baseFolder ym) = None →
  mergeErrorReports fs baseFolder years mergeType lastDate w
  = (w1, Raise FileNotFoundError).
Proof.
  intros Hper Hpre Hdir Hd. unfold mergeErrorReports, bind.
  rewrite mergeErrorReports_loop_flat, Hper, foldM_app. unfold bind.
  rewrite Hpre.
  change (foldM ?f r (ym :: post)) with
    (bind (f r ym) (λ a', foldM f a' post)).
  unfold bind. by rewrite period_unreadable.
Qed.

(** X11. What [mergeErrorReports] has printed when it returns without a
    bound: one line for every period without a directory, in the order of
    the two loops; under [ALL_BUT_DATE] there may be lines
    [Error: Date column not found] of [merge] in between, under the other
    policies there is nothing else. *)
Theorem mergeErrorReports_output fs baseFolder years mergeType w w' r :
  mergeErrorReports fs baseFolder years mergeType None w = (w', Ok r) →
  ∃ out, stdout w' = stdout w ++ out
         ∧ filter (λ s, s ≠ "Error: Date column not found") out
           = missing baseFolder <$> absent fs baseFolder (periods years)
         ∧ (mergeType ≠ ALL_BUT_DATE →
            out = missing baseFolder <$> absent fs baseFolder (periods years)).
Proof.
  unfold mergeErrorReports, bind. rewrite mergeErrorReports_loop_flat.
  destruct (foldM _ None _ w) as [w1 [r1|e]] eqn:Hloop; [|done].
  intros [= <- <-]. by eapply loop_output.
Qed.

(** ** The reports of several periods *)

Section KeepFirstMore.
Context {A K : Type} `{EqDecision K}.

Implicit Types (kf : A → K) (seen : list K) (l : list A).

Lemma keep_first_seen_ext kf seen1 seen2 l :
  (∀ k, k ∈ seen1 ↔ k ∈ seen2) → keep_first kf seen1 l = keep_first kf seen2 l.
Proof.
  revert seen1 seen2. induction l as [|x l IH]; intros s1 s2 Hs; simpl; [done|].
  rewrite (IH (kf x :: s1) (kf x :: s2)) by set_solver.
  destruct (decide (kf x ∈ s1)) as [H1|H1].
  - by rewrite decide_True by by apply Hs.
  - by rewrite decide_False by by rewrite <- Hs.
Qed.

Lemma keep_first_app kf seen l1 l2 :
  keep_first kf seen (l1 ++ l2)
  = keep_first kf seen l1 ++ keep_first kf (reverse (kf <$> l1) ++ seen) l2.
Proof.
  revert seen. induction l1 as [|x l1 IH]; intros seen; csimpl; [done|].
  rewrite IH, reverse_cons, <- app_assoc. simpl. by case_decide.
Qed.

Lemma keep_first_id kf seen l :
  NoDup (kf <$> l) → (∀ x, x ∈ l → kf x ∉ seen) → keep_first kf seen l = l.
Proof.
  revert seen. induction l as [|x l IH]; intros seen Hnd Hseen; csimpl; [done|].
  csimpl in Hnd. apply NoDup_cons in Hnd as [Hx Hnd].
  rewrite decide_False by (apply Hseen; set_solver).
  f_equal. apply IH; [done|]. intros y Hy. rewrite not_elem_of_cons. split.
  - intros Heq. apply Hx. rewrite <- Heq. by apply list_elem_of_fmap_2.
  - apply Hseen. set_solver.
Qed.

(** Keeping the first rows of a part first changes nothing. *)
Lemma keep_first_absorb kf l1 l2 :
  keep_first kf [] (keep_first kf [] l1 ++ l2) = keep_first kf [] (l1 ++ l2).
Proof.
  rewrite !keep_first_app. f_equal.
  - apply keep_first_id; [apply keep_first_NoDup|].
    intros x _. apply not_elem_of_nil.
  - apply keep_first_seen_ext. intros k.
    rewrite !app_nil_r, !elem_of_reverse, keep_first_keys. set_solver.
Qed.
End KeepFirstMore.

Lemma first_of_each_key_absorb p cols l1 l2 :
  first_of_each_key p cols (first_of_each_key p cols l1 ++ l2)
  = first_of_each_key p cols (l1 ++ l2).
Proof.
  unfold first_of_each_key. case_decide; [done|]. apply keep_first_absorb.
Qed.

Lemma first_of_each_key_sublist p cols l : first_of_each_key p cols l `sublist_of` l.
Proof. unfold first_of_each_key. case_decide; [done|]. apply keep_first_sublist. Qed.

Lemma Forall_of_sublist {A} (P : A → Prop) (l k : list A) :
  k `sublist_of` l → Forall P l → Forall P k.
Proof.
  intros Hs Hl. apply Forall_forall. intros x Hx.
  eapply Forall_forall in Hl; [done|]. by eapply elem_of_sublist.
Qed.

Lemma rows_reindex_id cols (X : list (Z * Row)) :
  Forall (λ ir : Z * Row, ∀ c, is_Some (ir.2 !! c) ↔ c ∈ cols) X →
  (λ ir : Z * Row, (ir.1, reindex cols ir.2)) <$> X = X.
Proof.
  induction 1 as [|[i r] X Hr _ IH]; csimpl; [done|].
  simpl in Hr. by rewrite (reindex_id cols r Hr), IH.
Qed.

Lemma list_difference_diag (l : list string) : list_difference l l = [].
Proof.
  destruct (list_difference l l) as [|x t] eqn:E; [done|].
  assert (x ∈ list_difference l l) as [? ?]%list_elem_of_difference
    by (rewrite E; left).
  done.
Qed.

Lemma pd_concat_same A B cols :
  columns A = cols → columns B = cols → wf_frame A → wf_frame B →
  pd_concat A B = mkFrame cols (rows A ++ rows B).
Proof.
  intros HA HB WA WB. unfold pd_concat, concat_columns.
  rewrite HA, HB, list_difference_diag, app_nil_r. f_equal.
  apply rows_reindex_id. apply Forall_app. split.
  - by rewrite <- HA.
  - by rewrite <- HB.
Qed.

Lemma reset_index_table cols (X : list (Z * Row)) :
  reset_index (mkFrame cols X) = table cols X.*2.
Proof.
  unfold reset_index, table. simpl. f_equal. apply list_eq. intros i.
  rewrite !list_lookup_imap, list_lookup_fmap. by destruct (X !! i).
Qed.

Lemma contents_table cols l : contents (table cols l) = l.
Proof.
  unfold contents, table. simpl. apply list_eq. intros i.
  rewrite list_lookup_fmap, list_lookup_imap. by destruct (l !! i).
Qed.

Lemma wf_frame_table cols l :
  Forall (λ r : Row, ∀ c, is_Some (r !! c) ↔ c ∈ cols) l → wf_frame (table cols l).
Proof.
  intros Hl. unfold wf_frame, table. simpl.
  apply Forall_lookup. intros i [j r] Hi.
  apply list_lookup_imap_Some in Hi as (r' & Hr' & [= -> ->]).
  by eapply Forall_lookup_1 in Hl.
Qed.

Lemma wf_frame_contents d :
  wf_frame d → Forall (λ r : Row, ∀ c, is_Some (r !! c) ↔ c ∈ columns d) (contents d).
Proof. intros H. unfold contents. by apply Forall_fmap. Qed.

Lemma drop_duplicates_same cols subset (X : list (Z * Row)) :
  subset ≠ [] → subset ⊆ cols →
  drop_duplicates subset (mkFrame cols X)
  = Ok (mkFrame cols (keep_first (λ ir : Z * Row, key_of subset ir.2) [] X)).
Proof.
  intros Hne Hsub.
  destruct (drop_duplicates_returns subset (mkFrame cols X) Hne Hsub) as [D HD].
  rewrite HD. f_equal.
  destruct (drop_duplicates_inv _ _ _ HD) as [[He ->]|(_ & _ & ->)]; [|done].
  apply empty_rows in He.
  - simpl in He. by rewrite He.
  - simpl. intros ->. destruct subset as [|c subset]; [done|].
    specialize (Hsub c). set_solver.
Qed.

(** The key the policy compares the rows of such tables on. *)
Lemma policy_key p cols :
  p ≠ FILE_FUNCTION_STUB → p ≠ DONT_DROP_DUPLICATES → policy_columns p cols →
  ∃ subset, subset ≠ [] ∧ subset ⊆ cols
            ∧ (∀ r, duplicate_key p cols r = Some (key_of subset r))
            ∧ (p = FILE_FUNCTION → subset = ["Source File"; "Element"])
            ∧ (p = ALL_BUT_DATE →
               ∃ c, date_label cols = Some c ∧ subset = list_difference cols [c]).
Proof.
  intros H1 H2 Hp. destruct p; try done; simpl in Hp.
  - destruct Hp as [HF HE]. exists ["Source File"; "Element"].
    split; [done|]. split; [set_solver|].
    split; [intros r; simpl; by rewrite decide_True|]. done.
  - destruct Hp as (c & c' & Hc & Hc' & Hne).
    exists (list_difference cols [c]). split.
    { intros Hnil.
      assert (c' ∈ list_difference cols [c]) as Hin
        by (apply list_elem_of_difference; set_solver).
      rewrite Hnil in Hin. by apply elem_of_nil in Hin. }
    split; [by intros x [? _]%list_elem_of_difference|].
    split; [intros r; simpl; by rewrite Hc|]. split; [done|].
    intros _. by exists c.
Qed.

Lemma first_of_each_key_rows p cols subset (X : list (Z * Row)) :
  p ≠ DONT_DROP_DUPLICATES →
  (∀ r, duplicate_key p cols r = Some (key_of subset r)) →
  (keep_first (λ ir : Z * Row, key_of subset ir.2) [] X).*2
  = first_of_each_key p cols X.*2.
Proof.
  intros Hp Hkey. unfold first_of_each_key. rewrite decide_False by done.
  apply (keep_first_fmap snd Some (λ ir : Z * Row, key_of subset ir.2)
           (duplicate_key p cols) [] X); [apply _|].
  intros x _. apply Hkey.
Qed.

(** Two tables with the same columns, merged. *)
Lemma merge_same_schema w df1 df2 p A B cols :
  heap w !! df1 = Some A → heap w !! df2 = Some B →
  columns A = cols → columns B = cols → wf_frame A → wf_frame B →
  p ≠ FILE_FUNCTION_STUB → policy_columns p cols →
  merge df1 df2 p w
  = (mkWorld
       (heap w ++ [table cols (first_of_each_key p cols (contents A ++ contents B))])
       (stdout w),
     Ok (length (heap w))).
Proof.
  intros H1 H2 HA HB WA WB Hp Hcols.
  assert (contents A ++ contents B = (rows A ++ rows B).*2) as ->
    by (unfold contents; by rewrite fmap_app).
  destruct (decide (p = DONT_DROP_DUPLICATES)) as [->|Hd].
  { rewrite (merge_DONT_DROP_DUPLICATES _ _ _ _ _ H1 H2).
    rewrite (pd_concat_same A B cols) by done. unfold finish.
    by rewrite reset_index_table. }
  destruct (policy_key p cols Hp Hd Hcols) as (subset & Hne & Hsub & Hkey & HFF & HABD).
  destruct p; try done.
  - rewrite (merge_FILE_FUNCTION _ _ _ _ _ H1 H2).
    rewrite (pd_concat_same A B cols) by done.
    specialize (HFF eq_refl). subst subset.
    rewrite drop_duplicates_same by done. unfold finish.
    by rewrite reset_index_table, (first_of_each_key_rows FILE_FUNCTION cols).
  - rewrite (merge_ALL_BUT_DATE _ _ _ _ _ H1 H2).
    rewrite (pd_concat_same A B cols) by done.
    destruct (HABD eq_refl) as (c & Hc & ->).
    assert (concat_columns A B = cols) as ->.
    { unfold concat_columns. by rewrite HA, HB, list_difference_diag, app_nil_r. }
    rewrite Hc, drop_duplicates_same by done. unfold finish.
    by rewrite reset_index_table, (first_of_each_key_rows ALL_BUT_DATE cols).
Qed.

Section Fold.
Variable fs : FileSystem.
Variable baseFolder : string.
Variable p : GroupBy.
Variable cols : list string.
Hypothesis Hp : p ≠ FILE_FUNCTION_STUB.
Hypothesis Hcols : policy_columns p cols.

Lemma reports_cons_absent ym l :
  isdir fs (folder baseFolder ym) = false →
  reports fs baseFolder (ym :: l) = reports fs baseFolder l.
Proof. intros H. unfold reports. csimpl. by rewrite H. Qed.

Lemma reports_cons_present ym l d :
  isdir fs (folder baseFolder ym) = true →
  excel_file fs (workbook baseFolder ym) = Some d →
  reports fs baseFolder (ym :: l) = d :: reports fs baseFolder l.
Proof. intros H Hd. unfold reports. csimpl. by rewrite H, Hd. Qed.

Lemma loop_same_schema l :
  Forall (λ ym, isdir fs (folder baseFolder ym) = true →
                ∃ d, excel_file fs (workbook baseFolder ym) = Some d
                     ∧ columns d = cols ∧ wf_frame d) l →
  ∀ w r F X,
    heap w !! r = Some F → columns F = cols → wf_frame F →
    (∀ Y, first_of_each_key p cols (contents F ++ Y)
          = first_of_each_key p cols (X ++ Y)) →
    ∃ w' n R,
      foldM (visit fs baseFolder p) (Some r) l w = (w', Ok (Some n))
      ∧ heap w' !! n = Some R
      ∧ (reports fs baseFolder l = [] → R = F)
      ∧ (reports fs baseFolder l ≠ [] →
         R = table cols
               (first_of_each_key p cols
                  (X ++ concat (contents <$> reports fs baseFolder l)))).
Proof using Hcols Hp.
  induction 1 as [|ym l Hym _ IH]; intros w r F X HF HcF HwF Habs.
  - exists w, r, F. by split.
  - change (foldM ?f (Some r) (ym :: l)) with
      (bind (f (Some r) ym) (λ a', foldM f a' l)).
    unfold bind.
    destruct (isdir fs (folder baseFolder ym)) eqn:Hdir.
    + destruct (Hym eq_refl) as (d & Hd & Hcd & Hwd).
      rewrite (period_next _ _ _ _ _ _ _ Hdir Hd).
      rewrite (reports_cons_present _ _ _ Hdir Hd).
      rewrite (merge_same_schema _ r (length (heap w)) p F d cols);
        try done; simpl;
        [|by apply lookup_app_l_Some|by rewrite list_lookup_middle].
      rewrite (Habs (contents d)).
      set (R1 := table cols (first_of_each_key p cols (X ++ contents d))).
      edestruct (IH (mkWorld ((heap w ++ [d]) ++ [R1]) (stdout w))
                    (length (heap w ++ [d])) R1 (X ++ contents d))
        as (w' & n & R & Hrun & HR & Hnil & Hcons).
      * simpl. apply lookup_new.
      * done.
      * unfold R1. rewrite <- (Habs (contents d)). apply wf_frame_table.
        eapply Forall_of_sublist; [apply first_of_each_key_sublist|].
        apply Forall_app. split.
        -- rewrite <- HcF. by apply wf_frame_contents.
        -- rewrite <- Hcd. by apply wf_frame_contents.
      * intros Y. unfold R1. rewrite contents_table.
        apply first_of_each_key_absorb.
      * exists w', n, R. split; [done|]. split; [done|]. split; [done|].
        intros _. destruct (reports fs baseFolder l) as [|d' ds] eqn:Hds.
        -- rewrite Hnil by done. simpl. by rewrite app_nil_r.
        -- rewrite Hcons by done. csimpl. by rewrite <- !app_assoc.
    + rewrite period_missing by done.
      rewrite (reports_cons_absent _ _ Hdir).
      apply (IH _ r F X); done.
Qed.

Lemma loop_same_schema_start l :
  Forall (λ ym, isdir fs (folder baseFolder ym) = true →
                ∃ d, excel_file fs (workbook baseFolder ym) = Some d
                     ∧ columns d = cols ∧ wf_frame d) l →
  ∀ w, ∃ w' o,
    foldM (visit fs baseFolder p) None l w = (w', Ok o)
    ∧ match reports fs baseFolder l with
      | [] => o = None
      | [d] => ∃ n, o = Some n ∧ heap w' !! n = Some d
      | ds => ∃ n, o = Some n
                   ∧ heap w' !! n
                     = Some (table cols
                               (first_of_each_key p cols (concat (contents <$> ds))))
      end.
Proof using Hcols Hp.
  induction 1 as [|ym l Hym Hl IH]; intros w.
  - exists w, None. by split.
  - change (foldM ?f None (ym :: l)) with
      (bind (f None ym) (λ a', foldM f a' l)).
    unfold bind.
    destruct (isdir fs (folder baseFolder ym)) eqn:Hdir.
    + destruct (Hym eq_refl) as (d & Hd & Hcd & Hwd).
      rewrite (period_first _ _ _ _ _ _ Hdir Hd).
      rewrite (reports_cons_present _ _ _ Hdir Hd).
      destruct (loop_same_schema l Hl (mkWorld (heap w ++ [d]) (stdout w))
                  (length (heap w)) d (contents d))
        as (w' & n & R & Hrun & HR & Hnil & Hcons); try done.
      { simpl. apply lookup_new. }
      exists w', (Some n). split; [done|].
      destruct (reports fs baseFolder l) as [|d' ds] eqn:Hds.
      * exists n. split; [done|]. by rewrite HR, (Hnil eq_refl).
      * exists n. split; [done|]. by rewrite HR, Hcons.
    + rewrite period_missing by done.
      rewrite (reports_cons_absent _ _ Hdir). apply IH.
Qed.

End Fold.

Lemma laid_out_empty (c : string) : is_Some ((∅ : Row) !! c) ↔ c ∈ [].
Proof. rewrite lookup_empty, elem_of_nil. split; [by intros [? ?]|done]. Qed.

Lemma laid_out_insert c0 v (r : Row) cols :
  (∀ c, is_Some (r !! c) ↔ c ∈ cols) →
  ∀ c, is_Some (<[c0 := v]> r !! c) ↔ c ∈ c0 :: cols.
Proof.
  intros H c. rewrite lookup_insert_is_Some', elem_of_cons, H. naive_solver.
Qed.

Lemma wf_frame_reportFrame date error : wf_frame (reportFrame date error).
Proof.
  constructor; [|constructor]. unfold report. cbn [snd columns reportFrame].
  repeat apply laid_out_insert. apply laid_out_empty.
Qed.

(** X12. The reports of several periods.  Under a policy that does not
    write to its inputs, when at least two periods have a report, every
    report has the columns [cols], and [cols] has the columns the policy
    needs, [mergeErrorReports] without a bound returns the table of the
    rows of all reports, in the order of the periods, reindexed, with, of
    every duplicate key, only the first row kept: the row of the earliest
    report. *)
Theorem mergeErrorReports_earliest_first fs baseFolder years p cols w ds :
  p ≠ FILE_FUNCTION_STUB → policy_columns p cols →
  Forall (λ ym, isdir fs (folder baseFolder ym) = true →
                ∃ d, excel_file fs (workbook baseFolder ym) = Some d
                     ∧ columns d = cols ∧ wf_frame d) (periods years) →
  reports fs baseFolder (periods years) = ds → (2 ≤ length ds)%nat →
  ∃ w' n,
    mergeErrorReports fs baseFolder years p None w = (w', Ok (Some n))
    ∧ heap w' !! n
      = Some (table cols (first_of_each_key p cols (concat (contents <$> ds)))).
Proof.
  intros Hp Hcols Hall Hds Hlen.
  destruct (loop_same_schema_start fs baseFolder p cols Hp Hcols _ Hall w)
    as (w' & o & Hrun & Hres).
  unfold mergeErrorReports, bind. rewrite mergeErrorReports_loop_flat, Hrun.
  rewrite Hds in Hres. destruct ds as [|d1 [|d2 ds]]; simpl in Hlen; try lia.
  destruct Hres as (n & -> & HR). by exists w', n.
Qed.

(** ** More on the date bound *)

Lemma strptime_dmY_error s e : strptime_dmY s = Raise e → e = ValueError.
Proof.
  unfold strptime_dmY, make_date.
  destruct (split_on "." s) as [|ds [|ms [|ys [|]]]]; try congruence.
  destruct (field 31 true ds); try congruence.
  destruct (field 12 false ms); try congruence.
  destruct (number ys); try congruence.
  destruct (_ =? _)%nat; try congruence.
  destruct (_ && _); congruence.
Qed.

(** X13. A bound that does not read as a date is found out last: the two
    loops run first, and the run ends with a [ValueError] in the state in
    which the run without a bound returns; the line
    [Drop all reports after] is not printed. *)
Theorem mergeErrorReports_bad_cutoff fs baseFolder years mergeType lastDate w w1 r :
  (∀ date, strptime_dmY lastDate ≠ Ok date) →
  mergeErrorReports fs baseFolder years mergeType None w = (w1, Ok r) →
  mergeErrorReports fs baseFolder years mergeType (Some lastDate) w
  = (w1, Raise ValueError).
Proof.
  intros Hbad. unfold mergeErrorReports, bind.
  destruct (mergeErrorReports_loop _ _ _ _ w) as [w2 [r2|e]]; [|done].
  intros [= <- <-]. unfold mergeErrorReports_lastDate, bind, lift.
  destruct (strptime_dmY lastDate) as [date|e] eqn:Hd; [by destruct (Hbad date)|].
  by rewrite (strptime_dmY_error _ _ Hd).
Qed.

Lemma lookup_new_insert (h : list DataFrame) i x R :
  (<[i := x]> h ++ [R]) !! length h = Some R.
Proof. rewrite <- (length_insert h i x). apply lookup_new. Qed.

Lemma date_le_trans d1 d2 d3 :
  date_le d1 d2 = true → date_le d2 d3 = true → date_le d1 d3 = true.
Proof. rewrite !date_le_spec. lia. Qed.

Lemma filter_sublist_impl {A} (f g : A → bool) (l : list A) :
  (∀ x, f x = true → g x = true) → List.filter f l `sublist_of` List.filter g l.
Proof.
  intros Hfg. induction l as [|x l IH]; simpl; [done|].
  destruct (f x) eqn:Hf.
  - rewrite (Hfg x Hf). by apply sublist_skip.
  - destruct (g x); [by apply sublist_cons|done].
Qed.

Lemma on_or_before_mono date1 date2 r :
  date_le date1 date2 = true →
  on_or_before date1 r = true → on_or_before date2 r = true.
Proof.
  intros Hle. unfold on_or_before. destruct (date_of_cell _); [|done].
  intros H. by eapply date_le_trans.
Qed.

(** X14. A later bound keeps what an earlier one keeps.  When the cut of
    a table at a date returns, so does its cut at a later date, and on
    the same store the rows of the first cut are rows of the second, in
    the same order; the columns are the same. *)
Theorem date_bound_monotone w r d lastDate1 lastDate2 date1 date2 w1 o1 :
  heap w !! r = Some d →
  strptime_dmY lastDate1 = Ok date1 → strptime_dmY lastDate2 = Ok date2 →
  date_le date1 date2 = true →
  mergeErrorReports_lastDate (Some r) lastDate1 w = (w1, Ok o1) →
  ∃ w2 n R1 R2,
    mergeErrorReports_lastDate (Some r) lastDate2 w = (w2, Ok (Some n))
    ∧ o1 = Some n
    ∧ heap w1 !! n = Some R1 ∧ heap w2 !! n = Some R2
    ∧ columns R1 = columns R2 ∧ rows R1 `sublist_of` rows R2.
Proof.
  intros Hd Hd1 Hd2 Hle Hrun1.
  destruct (mergeErrorReports_lastDate_run _ _ _ _ _ _ Hd Hrun1)
    as (date1' & ts1 & R1 & Hd1' & _ & -> & -> & Hread & _ & Hc1 & Hr1).
  destruct (mergeErrorReports_lastDate_ok _ _ _ _ _ Hd Hd2 Hread) as [w2 Hrun2].
  destruct (mergeErrorReports_lastDate_run _ _ _ _ _ _ Hd Hrun2)
    as (date2' & ts2 & R2 & Hd2' & _ & _ & -> & _ & _ & Hc2 & Hr2).
  assert (date1' = date1) as -> by congruence.
  assert (date2' = date2) as -> by congruence.
  eexists _, (length (heap w)), R1, R2. split; [exact Hrun2|].
  split; [done|]. simpl.
  split; [apply lookup_new_insert|]. split; [apply lookup_new_insert|].
  split; [congruence|]. rewrite Hr1, Hr2.
  apply fmap_sublist, filter_sublist_impl.
  intros ir. by apply on_or_before_mono.
Qed.

Lemma filter_fmap_comm {A B} (f : A → B) (g : B → bool) (l : list A) :
  List.filter g (f <$> l) = f <$> List.filter (λ x, g (f x)) l.
Proof.
  induction l as [|x l IH]; csimpl; [done|]. rewrite IH. by destruct (g (f x)).
Qed.

Lemma filter_filter_same {A} (g : A → bool) (l : list A) :
  List.filter g (List.filter g l) = List.filter g l.
Proof.
  induction l as [|x l IH]; simpl; [done|].
  destruct (g x) eqn:Hg; [|done]. simpl. by rewrite Hg, IH.
Qed.

Lemma on_or_before_delete date r :
  on_or_before date (delete "DateObject" r) = on_or_before date r.
Proof. unfold on_or_before. by rewrite cell_delete_ne. Qed.

Lemma on_or_before_read date r :
  on_or_before date r = true →
  ∃ t, to_datetime_cell (cell "Date" r) = Ok (Some t).
Proof.
  unfold on_or_before, date_of_cell.
  destruct (to_datetime_cell _) as [[t|]|]; by eauto.
Qed.

(** The cut of a table whose dates are read is such a table. *)
Lemma dates_readable_cut date d R :
  dates_readable d → is_cut_at date d R → dates_readable R.
Proof.
  intros (Hc & off & Hall) (_ & HcR & HrR). split.
  - rewrite HcR. by apply list_elem_of_filter.
  - exists off. rewrite HrR. apply Forall_fmap, Forall_forall.
    intros ir [Hin _]%list_elem_of_In%filter_In. apply list_elem_of_In in Hin.
    eapply Forall_forall in Hall; [|done]. unfold date_read in *. simpl.
    by rewrite cell_delete_ne.
Qed.

(** X15. Cutting the cut table once more at the same bound returns and
    changes nothing: the same columns and the same rows. *)
Theorem date_bound_idempotent w r d lastDate w1 n R :
  heap w !! r = Some d →
  mergeErrorReports_lastDate (Some r) lastDate w = (w1, Ok (Some n)) →
  heap w1 !! n = Some R →
  ∃ w2 n' R',
    mergeErrorReports_lastDate (Some n) lastDate w1 = (w2, Ok (Some n'))
    ∧ heap w2 !! n' = Some R'
    ∧ columns R' = columns R ∧ rows R' = rows R.
Proof.
  intros Hd Hrun1 HR.
  destruct (mergeErrorReports_lastDate_run _ _ _ _ _ _ Hd Hrun1)
    as (date & ts1 & R1 & Hdate & _ & [= ->] & -> & Hread & Hcut).
  simpl in HR.
  rewrite lookup_new_insert in HR.
  injection HR as ->.
  set (w1 := mkWorld _ _) in *.
  assert (heap w1 !! length (heap w) = Some R) as HR.
  { apply lookup_new_insert. }
  pose proof (dates_readable_cut _ _ _ Hread Hcut) as HreadR.
  destruct (mergeErrorReports_lastDate_ok _ _ _ _ _ HR Hdate HreadR)
    as [w2 Hrun2].
  destruct Hcut as (_ & Hc1 & Hr1).
  destruct (mergeErrorReports_lastDate_run _ _ _ _ _ _ HR Hrun2)
    as (date' & ts2 & R' & Hdate' & _ & _ & -> & _ & _ & Hc2 & Hr2).
  assert (date' = date) as -> by congruence.
  eexists _, (length (heap w1)), R'. split; [exact Hrun2|]. split.
  { apply lookup_new_insert. }
  split.
  - rewrite Hc2, Hc1. apply list_filter_filter_l. done.
  - rewrite Hr2, Hr1, filter_fmap_comm, <- list_fmap_compose.
    rewrite (filter_ext (λ x : Z * Row, on_or_before date (x.1, delete "DateObject" x.2).2)
               (λ ir : Z * Row, on_or_before date ir.2))
      by (intros ir; apply on_or_before_delete).
    rewrite filter_filter_same. apply list_fmap_ext. intros i ir _. simpl.
    by rewrite delete_delete_eq.
Qed.

(** ** More on the diff filter *)

Lemma manifest_rows_no_flag diff : manifest_rows diff (Some []) = [].
Proof.
  unfold manifest_rows. induction (rows diff) as [|ir l IH]; simpl; [done|].
  unfold isin at 1. by destruct (cell "Modified" ir.2).
Qed.

(** X16. With the empty list for [modifiedFlags], or a manifest without
    rows, the diff filter keeps no row. *)
Theorem diff_filter_no_entry fs df pathToDiff modifiedFlags w T diff w' n R :
  heap w !! df = Some T →
  csv_file fs pathToDiff = Some diff →
  modifiedFlags = Some [] ∨ rows diff = [] →
  filterByDiff_edited fs df pathToDiff modifiedFlags w = (w', Ok (n, R)) →
  rows R = [] ∧ n = frame_len T.
Proof.
  intros Hd Hcsv Hno Hrun.
  destruct (filterByDiff_edited_run _ _ _ _ _ _ _ _ Hd Hrun)
    as (diff' & files & Hcsv' & Hfiles & Hn & [_ Hrows] & _).
  assert (diff' = diff) as -> by congruence.
  assert (manifest_rows diff modifiedFlags = []) as Hm.
  { destruct Hno as [->|Hnil]; [apply manifest_rows_no_flag|].
    unfold manifest_rows. rewrite Hnil. by destruct modifiedFlags. }
  rewrite Hm in Hfiles. apply fmap_nil_inv in Hfiles as ->.
  split; [|done]. simpl in Hrows. rewrite Hrows.
  assert (∀ l : list (Z * Row), List.filter (λ _, false) l = []) as ->
    by (intros l; by induction l).
  done.
Qed.

Lemma diff_filter_no_entry_witness :
  rows (mkFrame ["Source File"] []) = [] ∧ 2 = frame_len diffTable.
Proof.
  apply (diff_filter_no_entry diffFS 0%nat "simplifiedDiff.csv" (Some [])
           (mkWorld [diffTable] []) diffTable diffManifest
           (filterByDiff_edited diffFS 0%nat "simplifiedDiff.csv" (Some [])
              (mkWorld [diffTable] [])).1).
  - reflexivity.
  - reflexivity.
  - by left.
  - vm_compute. reflexivity.
Defined.

(** ** Running the functions around the three *)

Lemma io_bind_returns {A B} (m : IO A) (k : A → IO B) s s' a :
  m s = (s', Returns a) → io_bind m k s = k a s'.
Proof. unfold io_bind. by intros ->. Qed.

Lemma run_ok {A} (m : M A) s w' a :
  m (world s) = (w', Ok a) → run m s = (mkSystem w' (written s), Returns a).
Proof. unfold run. by intros ->. Qed.

Lemma run_raise {A} (m : M A) s w' e :
  m (world s) = (w', Raise e) → run m s = (mkSystem w' (written s), Raises (Exn e)).
Proof. unfold run. by intros ->. Qed.

Lemma run_written {A} (m : M A) s : written (run m s).1 = written s.
Proof. unfold run. by destruct (m (world s)) as [w' [a|e]]. Qed.

Lemma in_place_run df f s :
  in_place df f s
  = match heap (world s) !! df with
    | None => (s, Raises (Exn TypeError))
    | Some d =>
        match f d with
        | Returns d' =>
            (mkSystem (mkWorld (<[df := d']> (heap (world s))) (stdout (world s)))
               (written s),
             Returns tt)
        | Raises e => (s, Raises e)
        | DuplicateLabels => (s, DuplicateLabels)
        end
    end.
Proof.
  destruct s as [w wr]. unfold in_place, io_bind, run, deref, io_lift, update.
  simpl. destruct (heap w !! df) as [d|] eqn:Hd; [|done].
  destruct (f d); simpl; by rewrite ?Hd.
Qed.

Lemma in_place_written df f s : written (in_place df f s).1 = written s.
Proof.
  rewrite in_place_run. destruct (heap (world s) !! df) as [d|]; [|done].
  by destruct (f d).
Qed.

(** ** loadBaseline *)

Lemma insert_column_baseline baseline d :
  "Date / Version" ∉ columns d → "Error" ∉ columns d →
  (2 ≤ length (columns d))%nat →
  ∃ d1, insert_column 0 "Date / Version" (VStr baseline) d = Returns d1
        ∧ insert_column 3 "Error" (VInt 0) d1 = Returns (baseline_table baseline d).
Proof.
  intros HD HE Hlen. unfold insert_column at 1.
  rewrite decide_False by done. rewrite decide_True by lia.
  eexists. split; [done|]. unfold insert_column. simpl. rewrite !drop_0.
  rewrite decide_False by set_solver. rewrite decide_True by (simpl; lia).
  unfold baseline_table. f_equal. f_equal. by rewrite <- list_fmap_compose.
Qed.

Lemma insert_column_exists pos c v d :
  c ∈ columns d → insert_column pos c v d = Raises (Exn ValueError).
Proof. intros H. unfold insert_column. by rewrite decide_True. Qed.

Lemma insert_column_beyond pos c v d :
  c ∉ columns d → ¬ (pos ≤ length (columns d))%nat →
  insert_column pos c v d = Raises IndexError.
Proof.
  intros H Hpos. unfold insert_column.
  rewrite decide_False by done. by rewrite decide_False.
Qed.

Lemma loadBaseline_run fs baseline s :
  ∃ s',
    loadBaseline fs baseline s
    = (s', match csv_file fs (baseline_path baseline) with
           | None => Raises (Exn FileNotFoundError)
           | Some d =>
               if decide ("Date / Version" ∈ columns d ∨ "Error" ∈ columns d)
               then Raises (Exn ValueError)
               else if decide (2 ≤ length (columns d))%nat
                    then Returns (length (heap (world s)))
                    else Raises IndexError
           end)
    ∧ written s' = written s ∧ stdout (world s') = stdout (world s)
    ∧ ∀ d, csv_file fs (baseline_path baseline) = Some d →
           "Date / Version" ∉ columns d → "Error" ∉ columns d →
           (2 ≤ length (columns d))%nat →
           heap (world s') = heap (world s) ++ [baseline_table baseline d].
Proof.
  destruct s as [w wr]. unfold loadBaseline. fold (baseline_path baseline).
  unfold io_bind at 1, run at 1, read_csv.
  destruct (csv_file fs (baseline_path baseline)) as [d|] eqn:Hcsv; simpl.
  2:{ eexists. split; [done|]. split; [done|]. split; [done|]. by intros. }
  unfold io_bind at 1, run at 1, new. simpl.
  unfold io_bind at 1. rewrite in_place_run. simpl. rewrite lookup_new.
  destruct (decide ("Date / Version" ∈ columns d)) as [HD|HD].
  { rewrite insert_column_exists by done. rewrite decide_True by by left.
    eexists. split; [done|]. split; [done|]. split; [done|].
    by intros d' [= <-] ?. }
  destruct (decide ("Error" ∈ columns d)) as [HE|HE].
  { unfold insert_column at 1. rewrite decide_False by done.
    rewrite decide_True by lia.
    unfold io_bind at 1. rewrite in_place_run. simpl.
    rewrite list_lookup_insert_eq by (rewrite length_app; simpl; lia).
    rewrite insert_column_exists by (simpl; rewrite drop_0; set_solver).
    rewrite decide_True by by right.
    eexists. split; [done|]. split; [done|]. split; [done|].
    by intros d' [= <-] ? ?. }
  rewrite decide_False by tauto.
  destruct (decide (2 ≤ length (columns d))%nat) as [Hlen|Hlen].
  - destruct (insert_column_baseline baseline d HD HE Hlen) as (d1 & -> & H2).
    unfold io_bind at 1. rewrite in_place_run. simpl.
    rewrite list_lookup_insert_eq by (rewrite length_app; simpl; lia).
    rewrite H2. unfold io_bind, io_ret. simpl.
    eexists. split; [done|]. split; [done|]. split; [done|].
    intros d' [= <-] _ _ _. simpl.
    rewrite list_insert_insert_eq.
    rewrite <- (Nat.add_0_r (length (heap w))), insert_app_r. done.
  - unfold insert_column at 1. rewrite decide_False by done.
    rewrite decide_True by lia.
    unfold io_bind at 1. rewrite in_place_run. simpl.
    rewrite list_lookup_insert_eq by (rewrite length_app; simpl; lia).
    rewrite insert_column_beyond;
      [|simpl; rewrite drop_0; set_solver|simpl; rewrite drop_0; simpl; lia].
    eexists. split; [done|]. split; [done|]. split; [done|].
    by intros d' [= <-] ? ? ?.
Qed.

(** X17. How [loadBaseline] ends, for every file system.  Without the
    file, the reader's exception; with a column [Date / Version] or
    [Error] in the file, the [ValueError] of [insert]; with fewer than two
    columns, the [IndexError] of [insert(3, ...)]; otherwise a new table
    is returned.  Nothing is printed or written; and the new table is the
    table of the file with [Date / Version], holding [baseline], as first
    column and [Error], holding 0, as fourth. *)
Theorem loadBaseline_outcome fs baseline s :
  ∃ s',
    loadBaseline fs baseline s
    = (s', match csv_file fs (baseline_path baseline) with
           | None => Raises (Exn FileNotFoundError)
           | Some d =>
               if decide ("Date / Version" ∈ columns d ∨ "Error" ∈ columns d)
               then Raises (Exn ValueError)
               else if decide (2 ≤ length (columns d))%nat
                    then Returns (length (heap (world s)))
                    else Raises IndexError
           end)
    ∧ written s' = written s ∧ stdout (world s') = stdout (world s)
    ∧ ∀ d, csv_file fs (baseline_path baseline) = Some d →
           "Date / Version" ∉ columns d → "Error" ∉ columns d →
           (2 ≤ length (columns d))%nat →
           heap (world s') = heap (world s) ++ [baseline_table baseline d].
Proof. apply loadBaseline_run. Qed.

(** ** loadDefects *)

Lemma loadDefects_run fs years mergeType lastDate s :
  loadDefects fs years mergeType lastDate s
  = match mergeErrorReports fs PATH_TO_COMPILATION_ERRORS years mergeType
            lastDate (world s) with
    | (w1, Raise e) => (mkSystem w1 (written s), Raises (Exn e))
    | (w1, Ok None) => (mkSystem w1 (written s), Raises (Exn AttributeError))
    | (w1, Ok (Some r)) =>
        match heap w1 !! r with
        | None => (mkSystem w1 (written s), Raises (Exn TypeError))
        | Some D =>
            match rename_column "Date" "Date / Version" D with
            | Returns D' =>
                let w2 := mkWorld (<[r := D']> (heap w1)) (stdout w1) in
                match insert_column 3 "Error" (VInt 1) D' with
                | Returns F =>
                    (mkSystem (mkWorld (<[r := F]> (heap w1)) (stdout w1))
                       (written s),
                     Returns r)
                | Raises e => (mkSystem w2 (written s), Raises e)
                | DuplicateLabels => (mkSystem w2 (written s), DuplicateLabels)
                end
            | Raises e => (mkSystem w1 (written s), Raises e)
            | DuplicateLabels => (mkSystem w1 (written s), DuplicateLabels)
            end
        end
    end.
Proof.
  unfold loadDefects. unfold io_bind at 1, run at 1.
  destruct (mergeErrorReports _ _ _ _ _ _) as [w1 [[r|]|e]]; try done.
  unfold io_bind at 1. rewrite in_place_run. simpl.
  destruct (heap w1 !! r) as [D|] eqn:HD; [|done].
  destruct (rename_column "Date" "Date / Version" D) as [D'| |]; try done.
  unfold io_bind at 1. rewrite in_place_run. simpl.
  rewrite list_lookup_insert_eq by by eapply lookup_lt_Some.
  destruct (insert_column 3 "Error" (VInt 1) D') as [F| |]; try done.
  unfold io_ret. simpl. by rewrite list_insert_insert_eq.
Qed.

(** X18. Without any report [loadDefects] raises, whatever the bound:
    the [AttributeError] of [None.rename] when there is no bound, else the
    error of applying the bound to [None].  No table is made and nothing
    is written. *)
Theorem loadDefects_no_report fs years mergeType lastDate s :
  (∀ ym, ym ∈ periods years →
         isdir fs (folder PATH_TO_COMPILATION_ERRORS ym) = false) →
  ∃ s',
    loadDefects fs years mergeType lastDate s
    = (s', Raises (Exn match lastDate with
                       | None => AttributeError
                       | Some lastDate =>
                           match strptime_dmY lastDate with
                           | Ok _ => TypeError
                           | Raise e => e
                           end
                       end))
    ∧ heap (world s') = heap (world s) ∧ written s' = written s.
Proof.
  intros Hno. rewrite loadDefects_run. unfold mergeErrorReports, bind.
  rewrite mergeErrorReports_loop_flat, loop_missing by done.
  destruct lastDate as [lastDate|]; [|by eexists].
  unfold mergeErrorReports_lastDate, bind, lift, print, raise.
  destruct (strptime_dmY lastDate); by eexists.
Qed.




Lemma rename_column_inv D D' :
  rename_column "Date" "Date / Version" D = Returns D' →
  ("Date" ∉ columns D')
  ∧ ("Date" ∈ columns D → "Date / Version" ∈ columns D')
  ∧ length (columns D') = length (columns D)
  ∧ ("Error" ∈ columns D' ↔ "Error" ∈ columns D)
  ∧ Forall2 (λ ir ir' : Z * Row,
               ir'.1 = ir.1
               ∧ ("Date" ∈ columns D →
                  cell "Date / Version" ir'.2 = cell "Date" ir.2)
               ∧ ∀ c, c ≠ "Date" → c ≠ "Date / Version" →
                      cell c ir'.2 = cell c ir.2)
      (rows D) (rows D').
Proof.
  unfold rename_column.
  destruct (decide ("Date" ∈ columns D)) as [HD|HD].
  - case_decide as Hdup; [done|]. intros [= <-]. simpl.
    assert ("Date / Version" ∉ columns D) as HV by naive_solver.
    split.
    { intros (c & Hc & Hin)%list_elem_of_fmap. by case_decide. }
    split.
    { intros _. apply list_elem_of_fmap. exists "Date". by rewrite decide_True. }
    split; [by rewrite length_fmap|]. split.
    { rewrite list_elem_of_fmap. split.
      - intros (c & Hc & Hin). case_decide; [done|]. by subst.
      - intros Hin. exists "Error". by rewrite decide_False. }
    apply Forall2_fmap_r, Forall_Forall2_diag, Forall_forall.
    intros ir _. simpl. split; [done|]. split.
    + intros _. by rewrite cell_insert, decide_True.
    + intros c Hc1 Hc2. by rewrite cell_insert, decide_False, cell_delete_ne.
  - intros [= <-]. split; [done|]. split; [done|]. split; [done|].
    split; [done|]. apply Forall_Forall2_diag, Forall_forall.
    intros ir _. by split.
Qed.

Lemma insert_column_inv pos c v D F :
  insert_column pos c v D = Returns F →
  (c ∉ columns D) ∧ (pos ≤ length (columns D))%nat
  ∧ columns F = take pos (columns D) ++ c :: drop pos (columns D)
  ∧ columns F !! pos = Some c
  ∧ Forall2 (λ ir ir' : Z * Row,
               ir'.1 = ir.1 ∧ cell c ir'.2 = v
               ∧ ∀ c', c' ≠ c → cell c' ir'.2 = cell c' ir.2)
      (rows D) (rows F).
Proof.
  unfold insert_column. case_decide as Hc; [done|].
  case_decide as Hpos; [|done]. intros [= <-]. simpl.
  split; [done|]. split; [done|]. split; [done|]. split.
  { rewrite lookup_app_r by (rewrite length_take; lia).
    rewrite length_take, Nat.min_l by done. by rewrite Nat.sub_diag. }
  apply Forall2_fmap_r, Forall_Forall2_diag, Forall_forall.
  intros ir _. simpl. split; [done|]. split.
  - by rewrite cell_insert, decide_True.
  - intros c' Hc'. by rewrite cell_insert, decide_False.
Qed.



(** ** mergeDefectReports *)

Lemma mergeDefectReports_run fs writable years mergeType lastDate s :
  mergeDefectReports fs writable years mergeType lastDate s
  = match mergeErrorReports fs PATH_TO_COMPILATION_ERRORS years mergeType
            lastDate (world s) with
    | (w1, Raise e) => (mkSystem w1 (written s), Raises (Exn e))
    | (w1, Ok result) =>
        match years with
        | [] => (mkSystem w1 (written s), Raises IndexError)
        | y0 :: ys =>
            let name :=
              match lastDate with
              | Some lastDate => y0 +:+ "-" +:+ lastDate
              | None =>
                  match ys with
                  | [] => y0
                  | _ => y0 +:+ "-" +:+ default y0 (last years)
                  end
              end in
            let path := PATH_TO_COMPILATION_ERRORS +:+ "/" +:+ name +:+ ".csv" in
            match result with
            | None => (mkSystem w1 (written s), Raises (Exn AttributeError))
            | Some r =>
                match heap w1 !! r with
                | None => (mkSystem w1 (written s), Raises (Exn TypeError))
                | Some R =>
                    if writable path
                    then (mkSystem w1
                            (written s ++ [(path, (columns R, contents R))]),
                          Returns tt)
                    else (mkSystem w1 (written s), Raises OSError)
                end
            end
        end
    end.
Proof.
  unfold mergeDefectReports. unfold io_bind at 1, run at 1.
  destruct (mergeErrorReports _ _ _ _ _ _) as [w1 [result|e]]; [|done].
  unfold io_bind at 1, io_lift, py_first.
  destruct years as [|y0 ys]; [done|].
  assert (∀ (k : string → IO unit) s0,
            io_bind
              match lastDate with
              | Some lastDate => io_ret (y0 +:+ "-" +:+ lastDate)
              | None =>
                  if decide (1 < length (y0 :: ys))%nat
                  then io_bind (λ s1, (s1, py_last (y0 :: ys)))
                         (λ y, io_ret (y0 +:+ "-" +:+ y))
                  else io_ret y0
              end k s0
            = k match lastDate with
                | Some lastDate => y0 +:+ "-" +:+ lastDate
                | None =>
                    match ys with
                    | [] => y0
                    | _ => y0 +:+ "-" +:+ default y0 (last (y0 :: ys))
                    end
                end s0) as ->.
  { intros k s0. destruct lastDate as [lastDate|]; [done|].
    destruct ys as [|y1 ys]; [done|].
    rewrite decide_True by (simpl; lia).
    unfold io_bind, io_ret, py_last.
    destruct (last (y0 :: y1 :: ys)) eqn:Hl; [done|].
    by apply last_None in Hl. }
  unfold to_csv. destruct result as [r|]; [|done].
  unfold io_bind, run, deref. simpl.
  destruct (heap w1 !! r) as [R|]; [|done]. simpl.
  unfold contents. by destruct (writable _).
Qed.

(** X20. When [mergeDefectReports] returns it has written exactly one
    file: the table [mergeErrorReports] returned, without its index
    labels, under the directory of the reports; the file is named after
    the first year and the bound, or, without a bound, after the first
    and the last year when there are several, else after the one year.
    The store and the output are as [mergeErrorReports] left them. *)
Theorem mergeDefectReports_writes fs writable years mergeType lastDate s s' :
  mergeDefectReports fs writable years mergeType lastDate s = (s', Returns tt) →
  ∃ y0 n R name,
    head years = Some y0
    ∧ mergeErrorReports fs PATH_TO_COMPILATION_ERRORS years mergeType lastDate
        (world s) = (world s', Ok (Some n))
    ∧ heap (world s') !! n = Some R
    ∧ written s'
      = written s ++ [(PATH_TO_COMPILATION_ERRORS +:+ "/" +:+ name +:+ ".csv",
                       (columns R, contents R))]
    ∧ match lastDate with
      | Some lastDate => name = y0 +:+ "-" +:+ lastDate
      | None =>
          (length years = 1%nat → name = y0)
          ∧ ((1 < length years)%nat →
             ∃ y, last years = Some y ∧ name = y0 +:+ "-" +:+ y)
      end.
Proof.
  rewrite mergeDefectReports_run.
  destruct (mergeErrorReports _ _ _ _ _ _) as [w1 [result|e]] eqn:Hrun; [|done].
  destruct years as [|y0 ys]; [done|].
  destruct result as [r|]; [|done]. cbv zeta.
  destruct (heap w1 !! r) as [R|] eqn:HR; [|done].
  destruct (writable _); [|done]. intros [= <-].
  destruct lastDate as [lastDate|].
  { by exists y0, r, R, (y0 +:+ "-" +:+ lastDate). }
  destruct ys as [|y1 ys].
  { exists y0, r, R, y0. split; [done|]. split; [done|]. split; [done|].
    split; [done|]. split; [done|]. simpl. lia. }
  destruct (last (y0 :: y1 :: ys)) as [y|] eqn:Hl; [|by apply last_None in Hl].
  exists y0, r, R, (y0 +:+ "-" +:+ y).
  split; [done|]. split; [done|]. split; [done|]. split; [done|].
  split; [simpl; lia|]. intros _. by exists y.
Qed.

(** X21. Without any report [mergeDefectReports] raises and writes
    nothing: the error of applying the bound to [None] when there is a
    bound; else the [IndexError] of [years[0]] when [years] is empty, and
    the [AttributeError] of [None.to_csv] when it is not. *)
Theorem mergeDefectReports_no_report fs writable years mergeType lastDate s :
  (∀ ym, ym ∈ periods years →
         isdir fs (folder PATH_TO_COMPILATION_ERRORS ym) = false) →
  ∃ s',
    mergeDefectReports fs writable years mergeType lastDate s
    = (s', Raises match lastDate with
                  | Some lastDate =>
                      Exn match strptime_dmY lastDate with
                          | Ok _ => TypeError
                          | Raise e => e
                          end
                  | None =>
                      match years with
                      | [] => IndexError
                      | _ => Exn AttributeError
                      end
                  end)
    ∧ heap (world s') = heap (world s) ∧ written s' = written s.
Proof.
  intros Hno. rewrite mergeDefectReports_run. unfold mergeErrorReports, bind.
  rewrite mergeErrorReports_loop_flat, loop_missing by done.
  destruct lastDate as [lastDate|].
  - unfold mergeErrorReports_lastDate, bind, lift, print, raise.
    destruct (strptime_dmY lastDate); by eexists.
  - unfold ret. destruct years; by eexists.
Qed.

(** ** createTrainingData *)

Lemma loadDefects_written fs years mergeType lastDate s :
  written (loadDefects fs years mergeType lastDate s).1 = written s.
Proof.
  rewrite loadDefects_run.
  destruct (mergeErrorReports _ _ _ _ _ _) as [w1 [[r|]|e]]; try done.
  destruct (heap w1 !! r) as [D|]; [|done].
  destruct (rename_column _ _ D) as [D'| |]; try done. simpl.
  by destruct (insert_column _ _ _ D').
Qed.

Lemma loadBaseline_written fs baseline s :
  written (loadBaseline fs baseline s).1 = written s.
Proof. destruct (loadBaseline_run fs baseline s) as (s' & -> & H & _). done. Qed.

Lemma filterByDiff_raises fs df pathToDiff modifiedFlags w :
  ∃ w' e, filterByDiff fs df pathToDiff modifiedFlags w = (w', Raise e).
Proof.
  unfold filterByDiff, bind.
  destruct (filterByDiff_edited fs df pathToDiff modifiedFlags w) as [w1 [x|e]];
    simpl; eauto.
Qed.

(** A run that fails and has written nothing more than [wr]. *)
Lemma io_bind_quiet {A B} (m : IO A) (k : A → IO B) s wr :
  written s = wr →
  (∀ s0, written (m s0).1 = written s0) →
  (∀ a s1, written s1 = wr →
           fails (k a s1).2 ∧ written (k a s1).1 = wr) →
  fails (io_bind m k s).2 ∧ written (io_bind m k s).1 = wr.
Proof.
  intros Hs Hm Hk. unfold io_bind. specialize (Hm s).
  destruct (m s) as [s1 [a| |]]; simpl in *.
  - apply Hk. congruence.
  - split; [done|congruence].
  - split; [done|congruence].
Qed.

Lemma createTrainingData_quiet fs writable str_list sort_values years
    lastDate baseline pathToDiff modifiedFlags s :
  fails (createTrainingData fs writable str_list sort_values years lastDate
           baseline pathToDiff modifiedFlags s).2
  ∧ written (createTrainingData fs writable str_list sort_values years lastDate
               baseline pathToDiff modifiedFlags s).1 = written s.
Proof.
  unfold createTrainingData.
  apply io_bind_quiet; [done|intros; apply run_written|intros _ s1 H1].
  apply io_bind_quiet; [done|intros; apply run_written|intros _ s2 H2].
  apply io_bind_quiet; [done|intros; apply loadDefects_written|intros defects s3 H3].
  apply io_bind_quiet; [done|intros; apply in_place_written|intros _ s4 H4].
  apply io_bind_quiet; [done|intros; apply run_written|intros _ s5 H5].
  apply io_bind_quiet; [done|intros; apply loadBaseline_written|intros df_baseline s6 H6].
  apply io_bind_quiet; [done|intros; apply run_written|intros _ s7 H7].
  apply io_bind_quiet; [done|intros; apply run_written|intros merged s8 H8].
  apply io_bind_quiet; [done|intros; apply run_written|intros _ s9 H9].
  unfold io_bind, run.
  destruct (filterByDiff_raises fs merged pathToDiff modifiedFlags (world s9))
    as (w' & e & ->).
  done.
Qed.

(** X22. [createTrainingData] never returns and never writes a file,
    whatever the files it finds and whatever its arguments: a run that
    gets as far as [filterByDiff] ends there (line 150), before the table
    is sorted and saved.  So running the script (line 174) writes no
    data set.  (A run that makes a frame with two columns of one label
    is followed only up to there, and has not written anything.) *)
Theorem createTrainingData_never_returns fs writable str_list sort_values years
    lastDate baseline pathToDiff modifiedFlags s :
  ∃ s' o,
    createTrainingData fs writable str_list sort_values years lastDate baseline
      pathToDiff modifiedFlags s = (s', o)
    ∧ fails o ∧ written s' = written s.
Proof.
  destruct (createTrainingData_quiet fs writable str_list sort_values years
              lastDate baseline pathToDiff modifiedFlags s) as [Hf Hw].
  destruct (createTrainingData _ _ _ _ _ _ _ _ _ s) as [s' o]. by exists s', o.
Qed.

(** ** A run of createTrainingData on the files it expects *)

Lemma has_source_and_size_ext r r' :
  cell "Source File" r' = cell "Source File" r →
  cell "LoC" r' = cell "LoC" r →
  has_source_and_size r → has_source_and_size r'.
Proof. unfold has_source_and_size. by intros -> ->. Qed.

Lemma run_printStatus text s :
  run (printStatus text) s
  = (mkSystem (mkWorld (heap (world s)) (stdout (world s) ++ [status text]))
       (written s),
     Returns tt).
Proof. done. Qed.

Lemma elem_of_reports fs baseFolder l d :
  d ∈ reports fs baseFolder l →
  ∃ ym, ym ∈ l ∧ isdir fs (folder baseFolder ym) = true
        ∧ excel_file fs (workbook baseFolder ym) = Some d.
Proof.
  unfold reports. intros (ym & Hym & Hd)%list_elem_of_omap.
  exists ym. destruct (isdir fs (folder baseFolder ym)); by simplify_eq.
Qed.

(** The table the loops leave, for reports with the same columns. *)
Lemma loop_rows fs baseFolder p cols (P : Row → Prop) l w :
  p ≠ FILE_FUNCTION_STUB → policy_columns p cols →
  Forall (λ ym, isdir fs (folder baseFolder ym) = true →
                ∃ d, excel_file fs (workbook baseFolder ym) = Some d
                     ∧ columns d = cols ∧ wf_frame d
                     ∧ Forall (λ ir : Z * Row, P ir.2) (rows d)) l →
  reports fs baseFolder l ≠ [] →
  ∃ w' n F,
    foldM (visit fs baseFolder p) None l w = (w', Ok (Some n))
    ∧ heap w' !! n = Some F ∧ columns F = cols
    ∧ Forall (λ ir : Z * Row, P ir.2) (rows F).
Proof.
  intros Hp Hcols Hall Hne.
  assert (∀ d, d ∈ reports fs baseFolder l →
               columns d = cols ∧ Forall (λ ir : Z * Row, P ir.2) (rows d)) as Hds.
  { intros d (ym & Hym & Hdir & Hd)%elem_of_reports.
    eapply Forall_forall in Hall; [|done].
    destruct (Hall Hdir) as (d' & Hd' & Hc & _ & HP).
    assert (d' = d) as -> by congruence. done. }
  destruct (loop_same_schema_start fs baseFolder p cols Hp Hcols l) with (w := w)
    as (w' & o & Hrun & Hres).
  { eapply Forall_impl; [exact Hall|]. intros ym H Hdir.
    destruct (H Hdir) as (d & ? & ? & ? & _). eauto. }
  destruct (reports fs baseFolder l) as [|d1 [|d2 ds]] eqn:Hrep; [done| |].
  - destruct Hres as (n & -> & HF). exists w', n, d1.
    destruct (Hds d1) as [Hc HP]; [set_solver|].
    done.
  - destruct Hres as (n & -> & HF). eexists w', n, _.
    split; [done|]. split; [done|]. split; [done|].
    unfold table. cbn [rows]. apply Forall_lookup. intros i [j r] Hi.
    apply list_lookup_imap_Some in Hi as (r' & Hr' & [= -> ->]). cbn [snd].
    apply list_elem_of_lookup_2 in Hr'.
    eapply elem_of_sublist in Hr'; [|apply first_of_each_key_sublist].
    apply list_elem_of_In, in_concat in Hr' as (L & HL & Hr).
    apply list_elem_of_In, list_elem_of_fmap in HL as (d & -> & Hd).
    apply list_elem_of_In, list_elem_of_fmap in Hr as (ir & -> & Hir).
    destruct (Hds d Hd) as [_ HP].
    by eapply Forall_forall in HP.
Qed.

Lemma Forall2_Forall_image {A B} (P : A → Prop) (Q : B → Prop)
    (R : A → B → Prop) l k :
  Forall P l → Forall2 R l k → (∀ x y, P x → R x y → Q y) → Forall Q k.
Proof.
  intros HP HR HQ. revert HP.
  induction HR as [|x y l k Hxy _ IH]; intros HP; [done|].
  apply Forall_cons in HP as [Hx HP]. constructor; eauto.
Qed.

(** The cut at the bound, of a table whose dates are read. *)
Lemma bound_rows w r F lastDate date off :
  heap w !! r = Some F → strptime_dmY lastDate = Ok date →
  "Date" ∈ columns F →
  Forall (λ ir : Z * Row, date_read off ir.2 ∧ has_source_and_size ir.2)
    (rows F) →
  ∃ w' R,
    mergeErrorReports_lastDate (Some r) lastDate w
    = (w', Ok (Some (length (heap w))))
    ∧ heap w' !! length (heap w) = Some R
    ∧ columns R = filter (λ c, c ≠ "DateObject") (columns F)
    ∧ Forall (λ ir : Z * Row, has_source_and_size ir.2) (rows R).
Proof.
  intros HF Hdate HD Hrows.
  assert (dates_readable F) as Hread.
  { split; [done|]. exists off. eapply Forall_impl; [exact Hrows|].
    by intros ir [? _]. }
  destruct (mergeErrorReports_lastDate_ok _ _ _ _ _ HF Hdate Hread) as [w' Hrun].
  destruct (mergeErrorReports_lastDate_run _ _ _ _ _ _ HF Hrun)
    as (date' & ts & R & _ & _ & _ & -> & _ & _ & Hc & Hr).
  eexists _, R. split; [done|]. split; [apply lookup_new_insert|].
  split; [done|]. rewrite Hr. apply Forall_fmap, Forall_forall.
  intros ir [Hin _]%list_elem_of_In%filter_In. apply list_elem_of_In in Hin.
  eapply Forall_forall in Hrows as [_ Hss]; [|done]. simpl.
  eapply has_source_and_size_ext; [| |exact Hss]; by rewrite cell_delete_ne.
Qed.

Lemma rename_column_ok D :
  "Date" ∈ columns D → "Date / Version" ∉ columns D →
  ∃ D', rename_column "Date" "Date / Version" D = Returns D'
        ∧ ∀ c, c ∈ columns D → c ≠ "Date" → c ∈ columns D'.
Proof.
  intros HD HV. unfold rename_column.
  rewrite decide_True by done. rewrite decide_False by tauto.
  eexists. split; [done|]. intros c Hc Hne. simpl.
  apply list_elem_of_fmap. exists c. by rewrite decide_False.
Qed.

Lemma insert_column_ok pos c v D :
  c ∉ columns D → (pos ≤ length (columns D))%nat →
  ∃ F, insert_column pos c v D = Returns F
       ∧ ∀ c', c' ∈ columns D → c' ∈ columns F.
Proof.
  intros Hc Hpos. unfold insert_column.
  rewrite decide_False by done. rewrite decide_True by done.
  eexists. split; [done|]. intros c' Hc'. simpl.
  rewrite <- (take_drop pos (columns D)) in Hc'. set_solver.
Qed.

Lemma three_labels (cols : list string) (a b c : string) :
  a ≠ b → a ≠ c → b ≠ c → a ∈ cols → b ∈ cols → c ∈ cols →
  (3 ≤ length cols)%nat.
Proof.
  intros Hab Hac Hbc Ha Hb Hc.
  assert ([a; b; c] ⊆+ cols) as Hsub.
  { apply NoDup_submseteq.
    - repeat constructor; set_solver.
    - intros x. rewrite !elem_of_cons, elem_of_nil. naive_solver. }
  by apply submseteq_length in Hsub.
Qed.

Lemma cell_foldr_delete c labels (r : Row) :
  c ∉ labels → cell c (foldr delete r labels) = cell c r.
Proof.
  induction labels as [|l labels IH]; intros Hc; simpl; [done|].
  rewrite cell_delete_ne by set_solver. apply IH. set_solver.
Qed.

Lemma drop_columns_ok labels d :
  labels ⊆ columns d →
  drop_columns labels d
  = Ok (mkFrame (filter (λ c, c ∉ labels) (columns d))
          ((λ ir : Z * Row, (ir.1, foldr delete ir.2 labels)) <$> rows d)).
Proof.
  intros Hsub. unfold drop_columns.
  destruct (List.find _ labels) as [c|] eqn:Hf; [|done].
  apply find_some in Hf as [Hc%list_elem_of_In Hb%bool_decide_eq_true].
  destruct Hb. by apply Hsub.
Qed.

(** [loadDefects] on the reports the script expects. *)
Lemma loadDefects_expected fs years lastDate date s :
  expected_reports fs years → strptime_dmY lastDate = Ok date →
  ∃ s' n G,
    loadDefects fs years ALL_BUT_DATE (Some lastDate) s = (s', Returns n)
    ∧ heap (world s') !! n = Some G
    ∧ written s' = written s
    ∧ ["Repository"; "Commit"; "Type"; "Source File"; "Element"; "LoC"]
      ⊆ columns G
    ∧ Forall (λ ir : Z * Row, has_source_and_size ir.2) (rows G).
Proof.
  intros (cols & off & Hne & Hall & Hsub & HDV & HErr) Hdate.
  assert (policy_columns ALL_BUT_DATE cols) as Hpol.
  { exists "Date", "Source File". unfold date_label.
    rewrite decide_True by (apply Hsub; set_solver).
    split; [done|]. split; [apply Hsub; set_solver|done]. }
  destruct (loop_rows fs PATH_TO_COMPILATION_ERRORS ALL_BUT_DATE cols
              (λ r, date_read off r ∧ has_source_and_size r) _
              (world s) ltac:(done) Hpol Hall Hne)
    as (w1 & n0 & F0 & Hloop & HF0 & Hc0 & Hrows0).
  destruct (bound_rows w1 n0 F0 lastDate date off HF0 Hdate) as
    (w2 & R & Hbound & HR & HcR & HrowsR); [rewrite Hc0; apply Hsub; set_solver|done|].
  assert (∀ c, c ∈ cols → c ≠ "DateObject" → c ∈ columns R) as HinR.
  { intros c Hc Hne'. rewrite HcR, Hc0. by apply list_elem_of_filter. }
  assert (∀ c, c ∈ columns R → c ∈ cols) as HRin.
  { intros c. rewrite HcR, Hc0. by intros [_ ?]%list_elem_of_filter. }
  destruct (rename_column_ok R) as (D' & Hren & HinD');
    [apply HinR; [apply Hsub; set_solver|done]|by intros ?%HRin|].
  destruct (rename_column_inv _ _ Hren) as (_ & _ & Hlen & HErr' & Hrows1).
  destruct (insert_column_ok 3 "Error" (VInt 1) D') as (G & Hins & HinG).
  { rewrite HErr'. by intros ?%HRin. }
  { rewrite Hlen.
    apply (three_labels _ "Repository" "Commit" "Type"); try done;
      apply HinR; try done; apply Hsub; set_solver. }
  destruct (insert_column_inv _ _ _ _ _ Hins) as (_ & _ & _ & _ & Hrows2).
  rewrite loadDefects_run. unfold mergeErrorReports, bind.
  rewrite mergeErrorReports_loop_flat, Hloop, Hbound, HR, Hren. simpl.
  rewrite Hins. eexists _, (length (heap w1)), G.
  split; [done|]. split.
  { simpl. apply list_lookup_insert_eq. by eapply lookup_lt_Some. }
  split; [done|]. split.
  { intros c Hc. apply HinG, HinD'; [apply HinR|]; try (apply Hsub);
      set_solver. }
  eapply (Forall2_Forall_image _ _
            (λ ir ir' : Z * Row,
               cell "Source File" ir'.2 = cell "Source File" ir.2
               ∧ cell "LoC" ir'.2 = cell "LoC" ir.2)); [exact HrowsR| |].
  - eapply Forall2_trans; [|exact Hrows1|exact Hrows2].
    intros x y z (_ & _ & H1) (_ & _ & H2). by rewrite !H2, !H1.
  - intros ir ir' Hss [H1 H2].
    by eapply has_source_and_size_ext; [| |exact Hss].
Qed.

(** [loadBaseline] on the file the script expects. *)
Lemma loadBaseline_expected fs baseline s :
  expected_baseline fs baseline →
  ∃ s' b,
    loadBaseline fs baseline s = (s', Returns (length (heap (world s))))
    ∧ heap (world s') = heap (world s) ++ [baseline_table baseline b]
    ∧ written s' = written s
    ∧ "LoC" ∈ columns b
    ∧ Forall (λ ir : Z * Row, has_source_and_size ir.2) (rows b).
Proof.
  intros (b & Hcsv & Hlen & HDV & HErr & HLoC & Hrows).
  destruct (loadBaseline_run fs baseline s) as (s' & Hrun & Hw & _ & Hheap).
  rewrite Hcsv in Hrun. rewrite decide_False in Hrun by tauto.
  rewrite decide_True in Hrun by done.
  exists s', b. by rewrite (Hheap b).
Qed.

(** The merge of line 164, on tables whose rows have a source file and
    a size. *)
Lemma merge_stub_expected w n1 n2 A B :
  heap w !! n1 = Some A → heap w !! n2 = Some B →
  "Source File" ∈ columns A → "Element" ∈ columns A →
  "LoC" ∈ columns A → "LoC" ∈ columns B →
  Forall (λ ir : Z * Row, has_source_and_size ir.2) (rows A) →
  Forall (λ ir : Z * Row, has_source_and_size ir.2) (rows B) →
  ∃ w' n R,
    merge n1 n2 FILE_FUNCTION_STUB w = (w', Ok n)
    ∧ heap w' !! n = Some R
    ∧ "Source File" ∈ columns R
    ∧ Forall (λ ir : Z * Row, ∃ s, cell "Source File" ir.2 = VStr s) (rows R).
Proof.
  intros H1 H2 HS HE HLA HLB HA HB.
  assert (can_merge FILE_FUNCTION_STUB A B) as Hcan.
  { simpl. rewrite !elem_of_concat_columns.
    split; [by left|]. split; [by left|].
    split; (split; [assumption|]).
    - eapply Forall_impl; [exact HA|]. by intros ir [_ ?].
    - eapply Forall_impl; [exact HB|]. by intros ir [_ ?]. }
  destruct (merge_can_return _ _ _ _ _ _ H1 H2 Hcan) as (w' & n & Hrun).
  assert (FILE_FUNCTION_STUB = ALL_BUT_DATE →
          has_date_column A ∨ has_date_column B) as Hd by done.
  destruct (merge_result _ _ _ _ _ _ _ _ H1 H2 Hd Hrun)
    as (R & HR & (Hcols & Hsub & _) & _).
  assert ("Source File" ∈ columns R) as HSR by (apply Hcols; by split; [left|]).
  exists w', n, R. split; [done|]. split; [done|]. split; [done|].
  apply Forall_forall. intros ir Hir.
  assert (ir.2 ∈ contents R) as Hc
    by (apply list_elem_of_fmap; by exists ir).
  eapply elem_of_sublist in Hc; [|exact Hsub].
  assert (∃ ir0, (ir0 ∈ rows A ∨ ir0 ∈ rows B)
                 ∧ ir.2 = reindex (columns R) ir0.2) as (ir0 & Hin & ->).
  { apply elem_of_app in Hc as
      [(r & -> & (ir0 & -> & ?)%list_elem_of_fmap)%list_elem_of_fmap
      |(r & -> & (ir0 & -> & ?)%list_elem_of_fmap)%list_elem_of_fmap];
      exists ir0; eauto. }
  rewrite cell_reindex by done.
  destruct Hin as [Hin|Hin];
    [eapply Forall_forall in HA as [? _]|eapply Forall_forall in HB as [? _]];
    done.
Qed.

(** The diff filter of line 167, on the manifest the script expects. *)
Lemma filterByDiff_expected fs df pathToDiff modifiedFlags w T :
  heap w !! df = Some T → "Source File" ∈ columns T →
  Forall (λ ir : Z * Row, ∃ s, cell "Source File" ir.2 = VStr s) (rows T) →
  expected_manifest fs pathToDiff modifiedFlags →
  ∃ w', filterByDiff fs df pathToDiff modifiedFlags w = (w', Raise TypeError)
        ∧ stdout w' = stdout w.
Proof.
  intros HT HS Hrows (diff & Hcsv & HF & HM & Hfiles).
  destruct (filterByDiff_edited_ok fs df pathToDiff modifiedFlags w T diff)
    as (w' & x & Hrun); [done|done|done|].
  destruct (filterByDiff_edited_run _ _ _ _ _ _ _ _ HT Hrun)
    as (diff' & files & _ & _ & _ & _ & Hw).
  exists w'. unfold filterByDiff, bind. rewrite Hrun. simpl.
  split; [done|]. by rewrite Hw.
Qed.

Lemma wf_frame_robotReport : wf_frame robotReport.
Proof.
  constructor; [|constructor; [|constructor]];
    unfold robotRow; cbn [snd columns robotReport];
    repeat apply laid_out_insert; apply laid_out_empty.
Qed.

(** X23. On the files it expects, [createTrainingData] gets through
    loading, merging and filtering, and stops at line 150.  With a report
    in some period, all reports with the same columns, among them the
    seven the script names, their rows with dates read at one offset, a
    text for the source file and a [LoC] that compares with 1; a bound
    that reads as a date; a baseline of such rows; and a manifest with
    texts for its files: the run ends with the [TypeError] of
    [len(nRowsAfter)], the last line printed is the status line
    [Filter by diff], and no file has been written. *)
Theorem createTrainingData_expected_files fs writable str_list sort_values
    years lastDate baseline pathToDiff modifiedFlags s :
  expected_reports fs years →
  (∃ date, strptime_dmY lastDate = Ok date) →
  expected_baseline fs baseline →
  expected_manifest fs pathToDiff modifiedFlags →
  ∃ s',
    createTrainingData fs writable str_list sort_values years lastDate
      baseline pathToDiff modifiedFlags s
    = (s', Raises (Exn TypeError))
    ∧ written s' = written s
    ∧ last (stdout (world s')) = Some (status "Filter by diff").
Proof.
  intros Hrep [date Hdate] Hbase Hdiff. unfold createTrainingData.
  erewrite io_bind_returns by apply run_printStatus.
  erewrite io_bind_returns by apply run_printStatus.
  match goal with |- context [io_bind (loadDefects _ _ _ _) _ ?s2] =>
    destruct (loadDefects_expected fs years lastDate date s2 Hrep Hdate)
      as (s3 & n1 & G & Hload & HG & Hw3 & Hcols & Hrows)
  end.
  erewrite io_bind_returns by exact Hload.
  (* lines 158: the three columns are dropped in place *)
  assert (drop_columns ["Repository"; "Commit"; "Type"] G = Ok
            (mkFrame (filter (λ c, c ∉ ["Repository"; "Commit"; "Type"]) (columns G))
               ((λ ir : Z * Row,
                   (ir.1, foldr delete ir.2 ["Repository"; "Commit"; "Type"]))
                  <$> rows G))) as Hdrop
    by (apply drop_columns_ok; set_solver).
  set (G' := mkFrame _ _) in Hdrop.
  erewrite io_bind_returns
    by (rewrite in_place_run, HG, Hdrop; reflexivity).
  erewrite io_bind_returns by apply run_printStatus.
  match goal with |- context [io_bind (loadBaseline _ _) _ ?s5] =>
    destruct (loadBaseline_expected fs baseline s5 Hbase)
      as (s6 & b & Hbl & Hheap6 & Hw6 & HLb & Hrowsb)
  end.
  erewrite io_bind_returns by exact Hbl.
  erewrite io_bind_returns by apply run_printStatus.
  cbn [world heap stdout written] in *.
  assert (n1 < length (heap (world s3)))%nat as Hn1 by by eapply lookup_lt_Some.
  match goal with |- context [io_bind (run (merge n1 ?n2 _)) _ ?s7] =>
    destruct (merge_stub_expected (world s7) n1 n2 G' (baseline_table baseline b))
      as (w8 & n3 & R & Hmerge & HR & HSR & HrowsR)
  end.
  { cbn [world heap]. rewrite Hheap6, lookup_app_l
      by (by rewrite length_insert).
    by apply list_lookup_insert_eq. }
  { cbn [world heap]. rewrite Hheap6, length_insert.
    rewrite <- (length_insert (heap (world s3)) n1 G'). apply lookup_new. }
  { apply list_elem_of_filter. split; [set_solver|]. apply Hcols. set_solver. }
  { apply list_elem_of_filter. split; [set_solver|]. apply Hcols. set_solver. }
  { apply list_elem_of_filter. split; [set_solver|]. apply Hcols. set_solver. }
  { simpl. rewrite <- (take_drop 2 (columns b)) in HLb. set_solver. }
  { apply Forall_fmap. eapply Forall_impl; [exact Hrows|]. intros ir Hss.
    unfold compose. cbn [snd].
    eapply has_source_and_size_ext; [| |exact Hss];
      by rewrite cell_foldr_delete by set_solver. }
  { apply Forall_fmap. eapply Forall_impl; [exact Hrowsb|]. intros ir Hss.
    simpl. eapply has_source_and_size_ext; [| |exact Hss];
      rewrite !cell_insert; by repeat case_decide. }
  erewrite io_bind_returns by (apply run_ok; exact Hmerge).
  erewrite io_bind_returns by apply run_printStatus.
  cbn [world heap stdout written].
  match goal with |- context [io_bind (run (filterByDiff _ _ _ _)) _ ?s9] =>
    destruct (filterByDiff_expected fs n3 pathToDiff modifiedFlags (world s9) R)
      as (w10 & Hfilter & Hout); [exact HR|done|done|done|]
  end.
  eexists. unfold io_bind at 1. erewrite run_raise by exact Hfilter.
  split; [reflexivity|]. cbn [world written stdout] in *.
  split; [congruence|]. rewrite Hout. apply last_snoc.
Qed.

End Library.

(** ** The theorems at work: the scenarios, with the dates of the reports
    in the spelling of mail headers *)

Lemma mergeErrorReports_no_report_witness :
  ∃ w' e,
    mergeErrorReports mail_reader emptyFS "/reports" ["2013"] ALL_BUT_DATE
      (Some "03.11.2013") (mkWorld [] [])
    = (w', Raise e)
    ∧ heap w' = heap (mkWorld [] [])
    ∧ e = match strptime_dmY "03.11.2013" with
          | Ok _ => TypeError
          | Raise e' => e'
          end.
Proof.
  apply (mergeErrorReports_no_report mail_reader emptyFS "/reports" ["2013"]
           ALL_BUT_DATE "03.11.2013" (mkWorld [] [])).
  reflexivity.
Defined.


(** The cutoff scenario: bound [03.11.2013]; the row of 3 November 2013,
    23:59:59 +0100, stays and the row of 4 November 2013, 00:00:00
    +0100, goes.  A row without a date goes as well. *)
Example cutoff_scenario :
  (∃ w', mergeErrorReports_lastDate mail_reader (Some 0%nat) "03.11.2013"
           (mkWorld [cutoffReport] [])
         = (w', Ok (Some 1%nat))
         ∧ heap w' !! 1%nat
           = Some (mkFrame ["Source File"; "Date"]
                     [(0, dated "a.c" "Sun, 03 Nov 2013 23:59:59 +0100")]))
  ∧ ∃ w', mergeErrorReports_lastDate mail_reader (Some 0%nat) "03.11.2013"
            (mkWorld [undatedReport] [])
          = (w', Ok (Some 1%nat))
          ∧ heap w' !! 1%nat
            = Some (mkFrame ["Source File"; "Date"]
                      [(0, dated "a.c" "Sun, 03 Nov 2013 23:59:59 +0100")]).
Proof. split; eexists; split; vm_compute; reflexivity. Qed.

(** C4, counterexample: the dates of the two rows are read, both are of
    3 November 2013, and the bound is that day; but one is written with
    the offset +0100 and the other with -0500, and the bound raises
    instead of returning the two rows; so the statement, as worded, does
    not hold. *)
Lemma date_bound_needs_one_offset :
  (Forall (λ ir : Z * Row,
             ∃ t, mail_reader (cell "Date" ir.2) = Ok (Some t)
                  ∧ ts_date t = mkDate 2013 11 3)
     (rows zonesReport)
   ∧ ∃ w' e, mergeErrorReports_lastDate mail_reader (Some 0%nat) "03.11.2013"
               (mkWorld [zonesReport] [])
             = (w', Raise e))
  ∧ ¬ date_bound_ignores_offset mail_reader.
Proof.
  split; [split|].
  - repeat constructor; eexists; split; vm_compute; reflexivity.
  - do 2 eexists. vm_compute. reflexivity.
  - intros H.
    destruct (H (mkWorld [zonesReport] []) 0%nat zonesReport "03.11.2013"
                (mkDate 2013 11 3) eq_refl)
      as (w' & n & R & Hrun & _).
    + vm_compute. reflexivity.
    + set_solver.
    + repeat constructor; eexists; vm_compute; reflexivity.
    + vm_compute in Hrun. discriminate Hrun.
Qed.

Lemma date_bound_returns_witness :
  ∃ w', mergeErrorReports_lastDate mail_reader (Some 0%nat) "03.11.2013"
          (mkWorld [undatedReport] [])
        = (w', Ok (Some (length (heap (mkWorld [undatedReport] []))))).
Proof.
  apply (date_bound_returns mail_reader (mkWorld [undatedReport] []) 0%nat
           undatedReport "03.11.2013" (mkDate 2013 11 3)).
  - reflexivity.
  - vm_compute. reflexivity.
  - split; [set_solver|]. exists (Some 60).
    repeat constructor; eexists; (split; [vm_compute; reflexivity|]);
      intros t [= <-]; reflexivity.
Defined.

Lemma mergeErrorReports_single_report_witness :
  mergeErrorReports mail_reader marchFS "/reports" ["2013"] FILE_FUNCTION None
    (mkWorld [] [])
  = (mkWorld ([] ++ [cutoffReport])
       ([] ++ (missing "/reports"
                 <$> [("2013", "January"); ("2013", "February")]
                     ++ drop 3 (periods ["2013"]))),
     Ok (Some 0%nat)).
Proof.
  apply (mergeErrorReports_single_report mail_reader marchFS "/reports" ["2013"]
           FILE_FUNCTION (mkWorld [] [])
           [("2013", "January"); ("2013", "February")]
           ("2013", "March") (drop 3 (periods ["2013"])) cutoffReport).
  - reflexivity.
  - intros x Hx. vm_compute in Hx.
    repeat (apply elem_of_cons in Hx as [->|Hx]; [reflexivity|]).
    by apply elem_of_nil in Hx.
  - reflexivity.
  - reflexivity.
Defined.

Lemma mergeErrorReports_unreadable_workbook_witness :
  mergeErrorReports mail_reader brokenFS "/reports" ["2013"] ALL_BUT_DATE
    (Some "03.11.2013") (mkWorld [] [])
  = (mkWorld [] [missing "/reports" ("2013", "January");
                 missing "/reports" ("2013", "February")],
     Raise FileNotFoundError).
Proof.
  apply (mergeErrorReports_unreadable_workbook mail_reader brokenFS "/reports"
           ["2013"] ALL_BUT_DATE (Some "03.11.2013") (mkWorld [] [])
           [("2013", "January"); ("2013", "February")]
           ("2013", "March") (drop 3 (periods ["2013"])) _ None).
  - reflexivity.
  - vm_compute. reflexivity.
  - reflexivity.
  - reflexivity.
Defined.

Lemma mergeErrorReports_output_witness :
  ∃ out,
    stdout (mergeErrorReports mail_reader marchFS "/reports" ["2013"]
              ALL_BUT_DATE None (mkWorld [] [])).1
    = stdout (mkWorld [] []) ++ out
    ∧ filter (λ s, s ≠ "Error: Date column not found") out
      = missing "/reports" <$> absent marchFS "/reports" (periods ["2013"])
    ∧ (ALL_BUT_DATE ≠ ALL_BUT_DATE →
       out = missing "/reports" <$> absent marchFS "/reports" (periods ["2013"])).
Proof.
  apply (mergeErrorReports_output mail_reader marchFS "/reports" ["2013"]
           ALL_BUT_DATE (mkWorld [] []) _ (Some 0%nat)).
  vm_compute. reflexivity.
Defined.

Lemma mergeErrorReports_earliest_first_witness :
  ∃ w' n,
    mergeErrorReports mail_reader twoFS "/reports" ["2013"] ALL_BUT_DATE None
      (mkWorld [] [])
    = (w', Ok (Some n))
    ∧ heap w' !! n
      = Some (table ["Source File"; "Element"; "Date"; "Error"]
                (first_of_each_key ALL_BUT_DATE
                   ["Source File"; "Element"; "Date"; "Error"]
                   (concat (contents
                              <$> [reportFrame "Fri, 01 Mar 2013 10:00:00 +0100" 1;
                                   reportFrame "Wed, 01 May 2013 10:00:00 +0100" 1])))).
Proof.
  apply (mergeErrorReports_earliest_first mail_reader twoFS "/reports" ["2013"]
           ALL_BUT_DATE ["Source File"; "Element"; "Date"; "Error"]
           (mkWorld [] [])).
  - discriminate.
  - exists "Date", "Source File". split; [reflexivity|]. split; [set_solver|done].
  - repeat constructor; intros H; vm_compute in H; try discriminate H;
      eexists; (split; [reflexivity|]); (split; [reflexivity|]);
      apply wf_frame_reportFrame.
  - vm_compute. reflexivity.
  - simpl. lia.
Defined.

Lemma mergeErrorReports_bad_cutoff_witness :
  mergeErrorReports mail_reader marchFS "/reports" ["2013"] ALL_BUT_DATE
    (Some "2013-11-03") (mkWorld [] [])
  = ((mergeErrorReports mail_reader marchFS "/reports" ["2013"] ALL_BUT_DATE
        None (mkWorld [] [])).1,
     Raise ValueError).
Proof.
  apply (mergeErrorReports_bad_cutoff mail_reader marchFS "/reports" ["2013"]
           ALL_BUT_DATE "2013-11-03" (mkWorld [] []) _ (Some 0%nat)).
  - intros date H. vm_compute in H. discriminate H.
  - vm_compute. reflexivity.
Defined.

Lemma date_bound_monotone_witness :
  ∃ w2 n R1 R2,
    mergeErrorReports_lastDate mail_reader (Some 0%nat) "04.11.2013"
      (mkWorld [cutoffReport] [])
    = (w2, Ok (Some n))
    ∧ Some 1%nat = Some n
    ∧ heap (mergeErrorReports_lastDate mail_reader (Some 0%nat) "03.11.2013"
              (mkWorld [cutoffReport] [])).1 !! n = Some R1
    ∧ heap w2 !! n = Some R2
    ∧ columns R1 = columns R2 ∧ rows R1 `sublist_of` rows R2.
Proof.
  apply (date_bound_monotone mail_reader (mkWorld [cutoffReport] []) 0%nat
           cutoffReport "03.11.2013" "04.11.2013"
           (mkDate 2013 11 3) (mkDate 2013 11 4)).
  - reflexivity.
  - vm_compute. reflexivity.
  - vm_compute. reflexivity.
  - reflexivity.
  - vm_compute. reflexivity.
Defined.

Lemma date_bound_idempotent_witness :
  ∃ w2 n' R',
    mergeErrorReports_lastDate mail_reader (Some 1%nat) "03.11.2013"
      (mergeErrorReports_lastDate mail_reader (Some 0%nat) "03.11.2013"
         (mkWorld [undatedReport] [])).1
    = (w2, Ok (Some n'))
    ∧ heap w2 !! n' = Some R'
    ∧ columns R' = ["Source File"; "Date"]
    ∧ rows R' = [(0, dated "a.c" "Sun, 03 Nov 2013 23:59:59 +0100")].
Proof.
  apply (date_bound_idempotent mail_reader (mkWorld [undatedReport] []) 0%nat
           undatedReport "03.11.2013"
           (mergeErrorReports_lastDate mail_reader (Some 0%nat) "03.11.2013"
              (mkWorld [undatedReport] [])).1
           1%nat
           (mkFrame ["Source File"; "Date"]
              [(0, dated "a.c" "Sun, 03 Nov 2013 23:59:59 +0100")])).
  - reflexivity.
  - vm_compute. reflexivity.
  - vm_compute. reflexivity.
Defined.

Lemma loadDefects_no_report_witness :
  ∃ s',
    loadDefects mail_reader emptyFS ["2013"] ALL_BUT_DATE None
      (mkSystem (mkWorld [] []) [])
    = (s', Raises (Exn AttributeError))
    ∧ heap (world s') = heap (world (mkSystem (mkWorld [] []) []))
    ∧ written s' = written (mkSystem (mkWorld [] []) []).
Proof.
  apply (loadDefects_no_report mail_reader emptyFS ["2013"] ALL_BUT_DATE None
           (mkSystem (mkWorld [] []) [])).
  reflexivity.
Defined.


Lemma mergeDefectReports_writes_witness :
  ∃ y0 n R name,
    head ["2013"] = Some y0
    ∧ mergeErrorReports mail_reader robotFS PATH_TO_COMPILATION_ERRORS ["2013"]
        ALL_BUT_DATE (Some "13.12.2013") (world (mkSystem (mkWorld [] []) []))
      = (world (createDefectReportFile mail_reader robotFS (λ _, true)
                  (mkSystem (mkWorld [] []) [])).1,
         Ok (Some n))
    ∧ heap (world (createDefectReportFile mail_reader robotFS (λ _, true)
                     (mkSystem (mkWorld [] []) [])).1) !! n = Some R
    ∧ written (createDefectReportFile mail_reader robotFS (λ _, true)
                 (mkSystem (mkWorld [] []) [])).1
      = written (mkSystem (mkWorld [] []) [])
          ++ [(PATH_TO_COMPILATION_ERRORS +:+ "/" +:+ name +:+ ".csv",
               (columns R, contents R))]
    ∧ name = y0 +:+ "-" +:+ "13.12.2013".
Proof.
  apply (mergeDefectReports_writes mail_reader robotFS (λ _, true) ["2013"]
           ALL_BUT_DATE (Some "13.12.2013") (mkSystem (mkWorld [] []) [])).
  vm_compute. reflexivity.
Defined.

Lemma mergeDefectReports_no_report_witness :
  ∃ s',
    mergeDefectReports mail_reader emptyFS (λ _, true) ["2013"] ALL_BUT_DATE
      None (mkSystem (mkWorld [] []) [])
    = (s', Raises (Exn AttributeError))
    ∧ heap (world s') = heap (world (mkSystem (mkWorld [] []) []))
    ∧ written s' = written (mkSystem (mkWorld [] []) []).
Proof.
  apply (mergeDefectReports_no_report mail_reader emptyFS (λ _, true) ["2013"]
           ALL_BUT_DATE None (mkSystem (mkWorld [] []) [])).
  intros ym Hym. reflexivity.
Defined.

Lemma createTrainingData_expected_files_witness :
  ∃ s',
    createTrainingData mail_reader robotFS (λ _, true) (λ _, "['2013']")
      (λ _ d, Ok d) ["2013"] "03.11.2013" "3.12"
      "/home/elscha/Linux-Experiment/simplifiedDiff.csv" None
      (mkSystem (mkWorld [] []) [])
    = (s', Raises (Exn TypeError))
    ∧ written s' = written (mkSystem (mkWorld [] []) [])
    ∧ last (stdout (world s')) = Some (status "Filter by diff").
Proof.
  apply (createTrainingData_expected_files mail_reader robotFS (λ _, true)
           (λ _, "['2013']") (λ _ d, Ok d) ["2013"] "03.11.2013" "3.12"
           "/home/elscha/Linux-Experiment/simplifiedDiff.csv" None
           (mkSystem (mkWorld [] []) [])).
  - exists ["Date"; "Repository"; "Commit"; "Type"; "Source File"; "Element";
            "LoC"], (Some 60%Z).
    split; [vm_compute; discriminate|]. split.
    + repeat constructor; intros H; vm_compute in H; try discriminate H.
      exists robotReport. split; [reflexivity|]. split; [reflexivity|].
      split; [apply wf_frame_robotReport|].
      constructor; [|constructor; [|constructor]].
      * split.
        -- eexists. split; [vm_compute; reflexivity|].
           intros t [= <-]. reflexivity.
        -- split; eexists; vm_compute; reflexivity.
      * split.
        -- eexists. split; [vm_compute; reflexivity|].
           intros t [= <-]. reflexivity.
        -- split; eexists; vm_compute; reflexivity.
    + split; [done|]. split; set_solver.
  - eexists. vm_compute. reflexivity.
  - exists robotBaseline. split; [reflexivity|]. split; [simpl; lia|].
    split; [set_solver|]. split; [set_solver|]. split; [set_solver|].
    repeat constructor; eexists; vm_compute; reflexivity.
  - exists diffManifest. split; [reflexivity|]. split; [set_solver|].
    split; [by intros [? [=]]|].
    repeat constructor. eexists. vm_compute. reflexivity.
Defined.

(** What running the script does in the tree of the scenario: the row of
    the report dated up to the bound and the rows of the baseline are
    merged, the row of the report winning over the row of the baseline
    for the same function; the rows are filtered, and the run ends at
    line 150, with nothing written. *)
Example script_scenario :
  ∃ s', script mail_reader robotFS (λ _, true) (λ _, "['2013']") (λ _ d, Ok d)
          (mkSystem (mkWorld [] []) [])
        = (s', Raises (Exn TypeError))
        ∧ written s' = []
        ∧ last (stdout (world s'))
          = Some (ESC +:+ "[1;34m" +:+ "Filter by diff" +:+ ESC +:+ "[0m")
        ∧ heap (world s') !! 3%nat
          = Some (mkFrame ["Date / Version"; "Error"; "Source File"; "Element";
                           "LoC"; "Edited"]
                    [(0, <["Date / Version" := VStr "Sun, 03 Nov 2013 23:59:59 +0100"]>
                           (<["Error" := VInt 1]>
                              (<["Edited" := VBool true]>
                                 (row3 "src/drivers/net.c" "f" 5))));
                     (1, <["Date / Version" := VStr "3.12"]>
                           (<["Error" := VInt 0]>
                              (<["Edited" := VBool true]>
                                 (row3 "src/drivers/usb.c" "h" 1))))]).
Proof.
  eexists. split; [vm_compute; reflexivity|].
  split; [reflexivity|]. split; vm_compute; reflexivity.
Qed.
